(** * A duplex voice-dialogue client: shallow embedding and checked properties

    The development follows the Python sources of the repository:

    - [function_tools.py]                 -> modules [Tools], [Catalog], [Schema]
    - [realtime_local_asr.py]             -> modules [Main], [MainCapture] (server-side VAD engine)
    - [waste/tempCodeRunnerFile.py]       -> module [LocalASR] (local VAD + Whisper engine)
    - [waste/realtime_client.py]          -> modules [Legacy], [LegacyClient] (first client, no tools)
    - [waste/test_whisper.py]             -> module [TestWhisper] (recording script)
    - numpy's [float32] arithmetic, as the local VAD uses it -> module [Numpy]

    Python objects that live outside the program (the websocket, the audio
    device, the Whisper model, the clock, the random generator, the JSON and
    base64 codecs) are gathered in the class [Externals] or given to a step as
    an explicit input.  Every effect a step performs is recorded, in program
    order, in a list of [Action]s. *)

From Stdlib Require Import ZArith QArith Qround Qpower String List Bool Lia Lqa Sorted.
From stdpp Require Import base strings gmap list.
Import ListNotations.

#[local] Set Warnings "-register-all".
#[local] Set Warnings "-automation".
#[local] Set Warnings "-default".

(** ** Python values, exceptions and the effect monad *)

(** JSON values as [json.loads] produces them; a dict keeps insertion order. *)
Inductive Json : Type :=
| JNull
| JBool (b : bool)
| JInt (z : Z)
| JReal (q : Q)
| JStr (s : string)
| JList (l : list Json)
| JDict (kv : list (string * Json)).

(** An instance of (a subclass of) Python's [Exception]; [str e] is
    [exn_text]. *)
Record PyExn : Type := { exn_class : string; exn_text : string }.

Definition str (e : PyExn) : string := exn_text e.

Inductive Outcome (A : Type) : Type :=
| Returned (a : A)
| Raised (e : PyExn).
Arguments Returned {A} a.
Arguments Raised {A} e.

(** One 16-bit PCM chunk as the device delivers it: the signed samples. *)
Definition Frame : Type := list Z.

(** Messages handed to [ws.send]; [json.dumps] and base64 are injective and
    left out, the payloads are carried as they are. *)
Inductive Outbound : Type :=
| SessionUpdate
| InputAudioBufferAppend (audio : Frame)
| ItemFunctionCallOutput (call_id : option string) (output : Json)
| ItemUserMessage (text : string)
| ResponseCreate (modalities : option (list string))
| ResponseCancel.

(** Console lines of the capture loop of the local-VAD engine; they mark the
    utterance boundaries. *)
Inductive Note : Type :=
| SpeechDetected
| SpeechEnded
| TooShort
| Recognizing
| Heard (text language : string)
| NothingRecognized
| RecognizeError (e : PyExn)
| AudioInputError (e : PyExn).

Inductive Action : Type :=
| WsSend (m : Outbound)            (* [await ws.send(..)] returned *)
| WsSendFailed (m : Outbound)      (* [await ws.send(..)] raised *)
| StreamWrite (pcm : string)       (* [output_stream.write(..)] returned *)
| StreamWriteFailed (pcm : string) (* [output_stream.write(..)] raised *)
| StreamStop
| StreamStopFailed
| StreamClose
| StreamCloseFailed
| StreamOpen
| StreamOpenFailed
| Sleep (seconds : Q)
| Transcribe (buffer : list Frame)
| Console (n : Note).

Definition Trace : Type := list Action.

(** State, exception and trace monad: a computation over the engine state
    [S] returns or raises, leaves a state and emits actions. *)
Definition M (S A : Type) : Type := S -> Outcome A * S * Trace.

Definition ret {S A} (a : A) : M S A := fun s => (Returned a, s, []).

Definition raise {S A} (e : PyExn) : M S A := fun s => (Raised e, s, []).

Definition bind {S A B} (c : M S A) (k : A -> M S B) : M S B :=
  fun s =>
    match c s with
    | (Returned a, s1, t1) =>
        match k a s1 with
        | (r, s2, t2) => (r, s2, t1 ++ t2)
        end
    | (Raised e, s1, t1) => (Raised e, s1, t1)
    end.

(** [try: body  except Exception as e: handler e] *)
Definition try_except {S A} (body : M S A) (handler : PyExn -> M S A) : M S A :=
  fun s =>
    match body s with
    | (Returned a, s1, t1) => (Returned a, s1, t1)
    | (Raised e, s1, t1) =>
        match handler e s1 with
        | (r, s2, t2) => (r, s2, t1 ++ t2)
        end
    end.

Definition get {S} : M S S := fun s => (Returned s, s, []).

Definition modify {S} (f : S -> S) : M S unit := fun s => (Returned tt, f s, []).

Definition emit {S} (a : Action) : M S unit := fun s => (Returned tt, s, [a]).

Definition lift {S A} (o : Outcome A) : M S A := fun s => (o, s, []).

Declare Scope py_scope.
Delimit Scope py_scope with py.
Notation "x <- c ;; k" := (bind c (fun x => k))
  (at level 100, c at next level, right associativity) : py_scope.
Notation "c ;; k" := (bind c (fun _ => k))
  (at level 100, right associativity) : py_scope.

Definition ConnectionClosed : PyExn :=
  {| exn_class := "ConnectionClosed"; exn_text := "connection closed" |}.

(** [await self.ws.send(json.dumps(m))]: returns on an open connection and
    raises on a closed one. *)
Definition ws_send {S} (ws_open : bool) (m : Outbound) : M S unit :=
  if ws_open then emit (WsSend m)
  else (emit (WsSendFailed m) ;; raise ConnectionClosed)%py.

(** The output stream object held in [self.output_stream]. *)
Inductive StreamState : Type := Active | Stopped | Closed.

(** Which call of the stop / close / reopen sequence raises, if any. *)
Inductive TeardownFault : Type := NoFault | StopRaises | CloseRaises | OpenRaises.

Definition StreamError : PyExn :=
  {| exn_class := "OSError"; exn_text := "Stream not open" |}.

(** Python truth value of a string. *)
Definition truthy (s : string) : bool := negb (String.eqb s "").

(** [needle in hay] on strings. *)
Definition str_in (needle hay : string) : bool :=
  match index 0 needle hay with
  | Some _ => true
  | None => false
  end.

(** Projections of a trace. *)
Definition sent (t : Trace) : list Outbound :=
  omap (fun a => match a with WsSend m => Some m | _ => None end) t.

Definition send_calls (t : Trace) : list Outbound :=
  omap (fun a => match a with
                 | WsSend m => Some m
                 | WsSendFailed m => Some m
                 | _ => None
                 end) t.

Definition played (t : Trace) : list string :=
  omap (fun a => match a with StreamWrite pcm => Some pcm | _ => None end) t.

Definition write_calls (t : Trace) : list string :=
  omap (fun a => match a with
                 | StreamWrite pcm => Some pcm
                 | StreamWriteFailed pcm => Some pcm
                 | _ => None
                 end) t.

Definition transcribed (t : Trace) : list (list Frame) :=
  omap (fun a => match a with Transcribe b => Some b | _ => None end) t.

(** The number of utterances the capture loop closed. *)
Definition utterances_closed (t : Trace) : nat :=
  length (omap (fun a => match a with Console SpeechEnded => Some tt | _ => None end) t).

Definition is_append (m : Outbound) : bool :=
  match m with InputAudioBufferAppend _ => true | _ => false end.

Definition is_function_output (m : Outbound) : bool :=
  match m with ItemFunctionCallOutput _ _ => true | _ => false end.

Definition is_response_create (m : Outbound) : bool :=
  match m with ResponseCreate _ => true | _ => false end.

(** The collaborators of the program that are not part of its source. *)
Class Externals : Type := {
  (** [json.loads]; [Raised] is a [JSONDecodeError] (or a [TypeError]) *)
  json_loads : string -> Outcome Json;
  (** [base64.b64decode]; [Raised] is a [binascii.Error] *)
  b64decode : string -> Outcome string;
  (** [whisper_model.transcribe]: the fields ["text"] and ["language"] *)
  whisper_transcribe : list Frame -> Outcome (string * string);
  (** [str.strip] *)
  py_strip : string -> string;
  (** [datetime.now().strftime("%Y-%m-%d %H:%M:%S")] *)
  strftime_now : string;
  (** the generator's raw draw behind [random.randint a b] *)
  rng_int : Z -> Z -> Z;
  (** the generator's raw draw behind [random.choice] on a sequence of the
      given length *)
  rng_pos : nat -> nat;
  (** the bodies of [query_menu] and [search_books], which read
      [restaurant_menu.json] and [books_database.json] from the working
      directory; the arguments are the bound keyword arguments *)
  query_menu_body : list (string * Json) -> Outcome Json;
  search_books_body : list (string * Json) -> Outcome Json
}.

(** Python's [int(x)] on a number: truncation toward zero. *)
Definition py_int (x : Q) : Z := Z.quot (Qnum x) (Zpos (Qden x)).

(** [a > b] on numbers. *)
Definition Qgtb (a b : Q) : bool := negb (Qle_bool a b).

(** ** numpy: [float32] arithmetic

    The local VAD computes its energy with numpy on [float32] arrays.  The
    operations are IEEE 754: every result is the exact result rounded to the
    nearest number of the format, ties to even. *)

Module Numpy.
Local Open Scope Q_scope.

(** The exponent of a positive number: [2 ^ ilog2 q <= q < 2 ^ (ilog2 q + 1)]. *)
Definition ilog2 (q : Q) : Z :=
  let e := (Z.log2 (Qnum q) - Z.log2 (Zpos (Qden q)))%Z in
  if Qle_bool (2 ^ e) q then e else (e - 1)%Z.

(** The nearest integer, the even one of two that are equally near. *)
Definition rne (x : Q) : Z :=
  let f := Qfloor x in
  match Qcompare (x - inject_Z f) (1 # 2) with
  | Lt => f
  | Eq => if Z.even f then f else (f + 1)%Z
  | Gt => (f + 1)%Z
  end.

Definition round_pos (prec : Z) (q : Q) : Q :=
  let u := 2 ^ (ilog2 q - prec + 1) in inject_Z (rne (q / u)) * u.

(** Rounding to the nearest number with [prec] significant bits, ties to
    even. *)
Definition round_to (prec : Z) (q : Q) : Q :=
  match Qnum q with
  | Z0 => 0
  | Zpos _ => round_pos prec q
  | Zneg _ => - round_pos prec (- q)
  end.

(** The correctly rounded square root of a positive number. *)
Definition sqrt_pos (prec : Z) (q : Q) : Q :=
  let u := 2 ^ (ilog2 q / 2 - prec + 1) in
  let k := Z.sqrt (Qfloor (4 * q / (u * u))) in
  let m := if Z.odd k && Qeq_bool (inject_Z (k * k)) (4 * q / (u * u)) && Z.odd ((k + 1) / 2)
           then ((k - 1) / 2)%Z else ((k + 1) / 2)%Z in
  inject_Z m * u.

Definition sqrt_to (prec : Z) (q : Q) : Q :=
  match Qnum q with
  | Zpos _ => sqrt_pos prec q
  | _ => 0
  end.

(** The numbers with [prec] significant bits. *)
Definition representable (prec : Z) (f : Q) : Prop :=
  exists m j : Z, (Z.abs m < 2 ^ prec)%Z /\ f == inject_Z m * 2 ^ j.

(** [float32] and [float64] values are rationals; the exponent range is
    not limited (16-bit samples in chunks of any length a list can hold stay
    far from overflow and underflow). *)
Definition float32 (q : Q) : Q := round_to 24 q.
Definition float64 (q : Q) : Q := round_to 53 q.

(** [x + y] and [x ** 2] on [float32] values. *)
Definition add32 (x y : Q) : Q := float32 (x + y).
Definition square32 (x : Q) : Q := float32 (x * x).

(** The unrolled loop of the block sum: eight accumulators take one row of
    eight elements each per pass. *)
Fixpoint unrolled (r a : list Q) (rows : nat) : list Q * list Q :=
  match rows with
  | O => (r, a)
  | S k => unrolled (zip_with add32 r (take 8 a)) (drop 8 a) k
  end.

(** The sum of a block of 8 to 128 elements. *)
Definition block_sum (a : list Q) : Q :=
  let '(r, rest) := unrolled (take 8 a) (drop 8 a) (length a / 8 - 1) in
  match r with
  | [r0; r1; r2; r3; r4; r5; r6; r7] =>
      fold_left add32 rest
        (add32 (add32 (add32 r0 r1) (add32 r2 r3)) (add32 (add32 r4 r5) (add32 r6 r7)))
  | _ => 0
  end.

(** The pairwise summation behind [np.add.reduce] on a contiguous array:
    fewer than 8 elements are added one by one, up to 128 by [block_sum],
    more are split in two halves (the first a multiple of 8 long).  [depth]
    bounds the number of splits; the length of the array is always enough
    ([pairwise_sum_depth]). *)
Fixpoint pairwise_sum_rec (depth : nat) (a : list Q) : Q :=
  let n := length a in
  if (n <? 8)%nat then fold_left add32 a 0
  else if (n <=? 128)%nat then block_sum a
  else
    match depth with
    | O => 0
    | S d =>
        let n2 := (n / 2 - (n / 2) mod 8)%nat in
        add32 (pairwise_sum_rec d (take n2 a)) (pairwise_sum_rec d (drop n2 a))
    end.

Definition pairwise_sum (a : list Q) : Q := pairwise_sum_rec (length a) a.

(** [np.mean] of a [float32] array: the sum is accumulated in [float32]; the
    quotient of the [float32] sum by the integer count is a [float64] that
    is cast back to [float32]. *)
Definition mean32 (a : list Q) : Q :=
  float32 (float64 (pairwise_sum a / inject_Z (Z.of_nat (length a)))).

(** [np.sqrt] of a [float32]. *)
Definition sqrt32 (x : Q) : Q := sqrt_to 24 x.

End Numpy.

(** [sum(sample ** 2 for sample in samples)] *)
Definition sum_squares (samples : Frame) : Z :=
  fold_right (fun x acc => x * x + acc)%Z 0%Z samples.

(** An inbound server event after [json.loads(message)], seen through the
    [data.get(..)] lookups of the handlers (with their defaults).  The
    session and the error are kept as the values found, since the handlers
    look further into them. *)
Record Event : Type := {
  ev_type : string;                  (* data.get("type") *)
  ev_session : option Json;          (* data.get("session"): [None] when missing *)
  ev_transcript : string;            (* data.get("transcript", "") *)
  ev_delta : string;                 (* data.get("delta", "") *)
  ev_text : string;                  (* data.get("text", "") *)
  ev_call_id : option string;        (* data.get("call_id") *)
  ev_name : string;                  (* data.get("name") *)
  ev_arguments : string;             (* data.get("arguments", "{}") *)
  ev_error : option Json             (* data.get("error"): [None] when missing *)
}.

(** How one pass through the body of [async for message in self.ws] ends:
    at the bottom (or by [continue]), or by [return]. *)
Inductive Flow : Type := Next | Return.

(** How one pass through the body of a [while self.is_running] loop ends. *)
Inductive Loop : Type := Again | Break.

(** ** function_tools.py *)

Module Tools.
Section WithExternals.
Context {ext : Externals}.

Definition TypeError (msg : string) : PyExn :=
  {| exn_class := "TypeError"; exn_text := msg |}.

Definition KeyError (key : string) : PyExn :=
  {| exn_class := "KeyError"; exn_text := "'" +:+ key +:+ "'" |}.

Definition type_name (j : Json) : string :=
  match j with
  | JNull => "NoneType"
  | JBool _ => "bool"
  | JInt _ => "int"
  | JReal _ => "float"
  | JStr _ => "str"
  | JList _ => "list"
  | JDict _ => "dict"
  end.

(** A Python function whose parameters all have defaults: its name, the
    names of its parameters and its body on the keyword arguments given. *)
Record PyFunction : Type := {
  fn_name : string;
  fn_params : list string;
  fn_body : list (string * Json) -> Outcome Json
}.

(** The value bound to parameter [name]: the keyword argument, else the
    default. *)
Definition kwarg (name : string) (default : Json) (kwargs : list (string * Json)) : Json :=
  match List.find (fun kv => String.eqb (fst kv) name) kwargs with
  | Some kv => snd kv
  | None => default
  end.

(** [random.randint(a, b)] and [random.choice(seq)] on the raw draws. *)
Definition randint (a b : Z) : Z := a + (rng_int a b) mod (b - a + 1).

Definition choice (seq : list string) : string :=
  nth (rng_pos (length seq) mod length seq) seq ""%string.

Definition end_conversation : PyFunction :=
  {| fn_name := "end_conversation";
     fn_params := [];
     fn_body := fun _ =>
       Returned (JDict [ ("status"%string, JStr "conversation_ended");
                         ("message"%string, JStr "好的，再见！祝你有美好的一天！");
                         ("timestamp"%string, JStr strftime_now) ]) |}.

Definition get_weather : PyFunction :=
  {| fn_name := "get_weather";
     fn_params := ["location"%string; "date"%string];
     fn_body := fun kwargs =>
       let location := kwarg "location" (JStr "北京") kwargs in
       let date := kwarg "date" (JStr "今天") kwargs in
       let weather_conditions :=
         ["晴"; "多云"; "阴"; "小雨"; "大雨"; "雪"]%string in
       Returned (JDict [ ("location"%string, location);
                         ("date"%string, date);
                         ("condition"%string, JStr (choice (take 4 weather_conditions)));
                         ("temperature"%string, JInt (randint 15 30));
                         ("temperature_low"%string, JInt (randint 10 20));
                         ("humidity"%string, JInt (randint 40 80));
                         ("wind"%string, JStr (choice ["微风"; "和风"; "清风"]%string));
                         ("aqi"%string, JInt (randint 30 150));
                         ("suggestion"%string, JStr "适合出行，记得带把伞") ]) |}.

Definition query_menu : PyFunction :=
  {| fn_name := "query_menu";
     fn_params := ["category"%string; "keyword"%string; "spicy_level"%string;
                   "recommend_only"%string];
     fn_body := query_menu_body |}.

Definition search_books : PyFunction :=
  {| fn_name := "search_books";
     fn_params := ["query"%string; "category"%string; "author"%string;
                   "min_rating"%string];
     fn_body := search_books_body |}.

Definition FUNCTION_MAP : gmap string PyFunction :=
  <["end_conversation"%string := end_conversation]>
  (<["get_weather"%string := get_weather]>
  (<["query_menu"%string := query_menu]>
  (<["search_books"%string := search_books]> ∅))).

(** The call of [func] with the dict [arguments] unpacked as keyword
    arguments: the unpacked object must be a mapping and every key must name
    a parameter; the body then runs on the bound arguments. *)
Definition call_with_kwargs (func : PyFunction) (arguments : Json) : Outcome Json :=
  match arguments with
  | JDict kwargs =>
      match List.find (fun kv => negb (existsb (String.eqb (fst kv)) (fn_params func))) kwargs with
      | Some kv =>
          Raised (TypeError (fn_name func +:+ "() got an unexpected keyword argument '"
                               +:+ fst kv +:+ "'"))
      | None => fn_body func kwargs
      end
  | other =>
      Raised (TypeError (fn_name func +:+ "() argument after ** must be a mapping, not "
                           +:+ type_name other))
  end.

(** [FUNCTION_MAP[function_name]] *)
Definition getitem (function_name : string) : Outcome PyFunction :=
  match FUNCTION_MAP !! function_name with
  | Some func => Returned func
  | None => Raised (KeyError function_name)
  end.

Definition error_result (msg : string) : Json := JDict [("error"%string, JStr msg)].

(** [execute_function], as a computation that touches no engine state. *)
Definition execute_function {S} (function_name : string) (arguments : Json) : M S Json :=
  if negb (bool_decide (function_name ∈ dom FUNCTION_MAP)) then
    ret (error_result ("未知函数: " +:+ function_name))
  else
    try_except
      (func <- lift (getitem function_name) ;;
       result <- lift (call_with_kwargs func arguments) ;;
       ret result)%py
      (fun e => ret (error_result ("函数执行错误: " +:+ str e))).

End WithExternals.
End Tools.

(** ** Lookups in the payload of an event

    The handlers read nested fields with [data.get(key, {}).get(..)]: the
    default only replaces a missing key, so a value that is present but is
    not an object (an explicit [null], say) has no method [get]. *)

Definition AttributeError (obj : Json) (attr : string) : PyExn :=
  {| exn_class := "AttributeError";
     exn_text := "'" +:+ Tools.type_name obj +:+ "' object has no attribute '" +:+ attr +:+ "'" |}.

(** [obj.get(key)]; [None] is a missing key. *)
Definition py_get (obj : Json) (key : string) : Outcome (option Json) :=
  match obj with
  | JDict kv => Returned (option_map snd (List.find (fun p => String.eqb (fst p) key) kv))
  | _ => Raised (AttributeError obj "get")
  end.

(** [needle in container] for a string [needle]: a substring test on a
    string, a membership test on a list and on the keys of a dict; any other
    value is not iterable. *)
Definition py_in (needle : string) (container : Json) : Outcome bool :=
  match container with
  | JStr s => Returned (str_in needle s)
  | JList l =>
      Returned (existsb (fun x => match x with
                                  | JStr s => String.eqb s needle
                                  | _ => false
                                  end) l)
  | JDict kv => Returned (existsb (fun p => String.eqb (fst p) needle) kv)
  | other =>
      Raised (Tools.TypeError ("argument of type '" +:+ Tools.type_name other
                                 +:+ "' is not iterable"))
  end.

(** The Python value of a lookup without default: JSON [null] and a missing
    key are both [None]. *)
Definition py_value (found : option Json) : option Json :=
  match found with
  | Some JNull => None
  | other => other
  end.

(** [data.get("session", {}).get("id")] *)
Definition session_id_of (data : Event) : Outcome (option Json) :=
  match py_get (default (JDict []) (ev_session data)) "id" with
  | Returned found => Returned (py_value found)
  | Raised e => Raised e
  end.

(** [data.get("error", {}).get("message", "未知错误")] *)
Definition error_message_of (data : Event) : Outcome Json :=
  match py_get (default (JDict []) (ev_error data)) "message" with
  | Returned found => Returned (default (JStr "未知错误") found)
  | Raised e => Raised e
  end.

(** ** realtime_local_asr.py: class RealtimeClient *)

Module Main.

Record Engine : Type := mkEngine {
  output_stream : option StreamState;
  is_running : bool;
  is_ai_speaking : bool;
  session_id : option Json;
  interrupt_flag : bool;
  drop_audio_until_cancelled : bool
}.

(** [__init__] *)
Definition init : Engine :=
  {| output_stream := None;
     is_running := false;
     is_ai_speaking := false;
     session_id := None;
     interrupt_flag := false;
     drop_audio_until_cancelled := false |}.

Definition set_output_stream (v : option StreamState) (s : Engine) : Engine :=
  mkEngine v (is_running s) (is_ai_speaking s) (session_id s) (interrupt_flag s)
    (drop_audio_until_cancelled s).

Definition set_is_running (v : bool) (s : Engine) : Engine :=
  mkEngine (output_stream s) v (is_ai_speaking s) (session_id s) (interrupt_flag s)
    (drop_audio_until_cancelled s).

Definition set_is_ai_speaking (v : bool) (s : Engine) : Engine :=
  mkEngine (output_stream s) (is_running s) v (session_id s) (interrupt_flag s)
    (drop_audio_until_cancelled s).

Definition set_session_id (v : option Json) (s : Engine) : Engine :=
  mkEngine (output_stream s) (is_running s) (is_ai_speaking s) v (interrupt_flag s)
    (drop_audio_until_cancelled s).

Definition set_interrupt_flag (v : bool) (s : Engine) : Engine :=
  mkEngine (output_stream s) (is_running s) (is_ai_speaking s) (session_id s) v
    (drop_audio_until_cancelled s).

Definition set_drop_audio_until_cancelled (v : bool) (s : Engine) : Engine :=
  mkEngine (output_stream s) (is_running s) (is_ai_speaking s) (session_id s)
    (interrupt_flag s) v.

Section WithExternals.
Context {ext : Externals}.

(** [self.output_stream.write(audio_data)] *)
Definition stream_write (pcm : string) : M Engine unit :=
  (s <- get ;;
   match output_stream s with
   | Some Active => emit (StreamWrite pcm)
   | _ => emit (StreamWriteFailed pcm) ;; raise StreamError
   end)%py.

(** [stop_stream(); close(); self.output_stream = self.audio.open(..)] *)
Definition reopen_output_stream (fault : TeardownFault) : M Engine unit :=
  match fault with
  | StopRaises => (emit StreamStopFailed ;; raise StreamError)%py
  | CloseRaises =>
      (emit StreamStop ;; modify (set_output_stream (Some Stopped)) ;;
       emit StreamCloseFailed ;; raise StreamError)%py
  | OpenRaises =>
      (emit StreamStop ;; modify (set_output_stream (Some Stopped)) ;;
       emit StreamClose ;; modify (set_output_stream (Some Closed)) ;;
       emit StreamOpenFailed ;; raise StreamError)%py
  | NoFault =>
      (emit StreamStop ;; modify (set_output_stream (Some Stopped)) ;;
       emit StreamClose ;; modify (set_output_stream (Some Closed)) ;;
       emit StreamOpen ;; modify (set_output_stream (Some Active)))%py
  end.

(** One pass through the body of the loop of [start_audio_input]; [read] is
    what [input_stream.read] gave. *)
Definition audio_input_step (ws_open : bool) (read : Outcome Frame) : M Engine Loop :=
  try_except
    (audio_data <- lift read ;;
     s <- get ;;
     (if negb (is_ai_speaking s)
      then ws_send ws_open (InputAudioBufferAppend audio_data)
      else ret tt) ;;
     emit (Sleep (1 # 1000)) ;;
     ret Again)%py
    (fun e => ret Break).

Definition _send_function_result (ws_open : bool) (call_id : option string) (result : Json)
  : M Engine unit :=
  (modify (set_drop_audio_until_cancelled false) ;;
   ws_send ws_open (ItemFunctionCallOutput call_id result) ;;
   ws_send ws_open (ResponseCreate None))%py.

(** The thread [listen_keyboard] when [input()] returns. *)
Definition enter_pressed (s : Engine) : Engine :=
  if is_ai_speaking s then set_interrupt_flag true s else s.

(** One pass through the body of the polling loop of [keyboard_listener]. *)
Definition keyboard_listener_step (ws_open : bool) (fault : TeardownFault) : M Engine unit :=
  (s <- get ;;
   (if interrupt_flag s then
      modify (set_drop_audio_until_cancelled true) ;;
      modify (set_is_ai_speaking false) ;;
      (match output_stream s with
       | Some _ => try_except (reopen_output_stream fault) (fun e => ret tt)
       | None => ret tt
       end) ;;
      try_except
        (ws_send ws_open ResponseCancel)
        (fun e => modify (set_drop_audio_until_cancelled false)) ;;
      modify (set_interrupt_flag false)
    else ret tt) ;;
   emit (Sleep (1 # 20)))%py.

(** One pass through the body of the loop of [handle_messages]. *)
Definition handle_message (ws_open : bool) (data : Event) : M Engine Flow :=
  let event_type := ev_type data in
  if String.eqb event_type "session.created" then
    (id <- lift (session_id_of data) ;; modify (set_session_id id) ;; ret Next)%py
  else if String.eqb event_type "session.updated" then ret Next
  else if String.eqb event_type "input_audio_buffer.speech_started" then ret Next
  else if String.eqb event_type "input_audio_buffer.speech_stopped" then ret Next
  else if String.eqb event_type "conversation.item.input_audio_transcription.completed"
  then ret Next
  else if String.eqb event_type "input_audio_buffer.committed" then ret Next
  else if String.eqb event_type "response.created" then ret Next
  else if String.eqb event_type "response.done" then
    (modify (set_is_ai_speaking false) ;; ret Next)%py
  else if String.eqb event_type "response.text.delta" then ret Next
  else if String.eqb event_type "response.text.done" then ret Next
  else if String.eqb event_type "response.audio.delta" then
    (s <- get ;;
     if drop_audio_until_cancelled s then ret Next
     else
       modify (set_is_ai_speaking true) ;;
       let audio_b64 := ev_delta data in
       if truthy audio_b64 && bool_decide (is_Some (output_stream s)) then
         audio_data <- lift (b64decode audio_b64) ;;
         try_except (stream_write audio_data) (fun e => ret tt) ;;
         ret Next
       else ret Next)%py
  else if String.eqb event_type "response.audio.done" then
    (modify (set_is_ai_speaking false) ;; ret Next)%py
  else if String.eqb event_type "response.function_call_arguments.delta" then ret Next
  else if String.eqb event_type "response.function_call_arguments.done" then
    let call_id := ev_call_id data in
    let function_name := ev_name data in
    let arguments_str := ev_arguments data in
    try_except
      (arguments <- lift (json_loads arguments_str) ;;
       result <- Tools.execute_function function_name arguments ;;
       if String.eqb function_name "end_conversation" then
         _send_function_result ws_open call_id result ;;
         emit (Sleep 2) ;;
         modify (set_is_running false) ;;
         ret Return
       else
         _send_function_result ws_open call_id result ;;
         ret Next)%py
      (fun e =>
         let error_result := JDict [("error"%string, JStr (str e))] in
         (_send_function_result ws_open call_id error_result ;; ret Next)%py)
  else if String.eqb event_type "response.cancelled" then
    (modify (set_is_ai_speaking false) ;;
     modify (set_drop_audio_until_cancelled false) ;;
     ret Next)%py
  else if String.eqb event_type "error" then
    (error_msg <- lift (error_message_of data) ;;
     failed <- lift (py_in "Cancellation failed" error_msg) ;;
     reported <- (if failed then ret true
                  else lift (py_in "no active response" error_msg)) ;;
     if reported
     then modify (set_drop_audio_until_cancelled false) ;; ret Next
     else ret Next)%py
  else ret Next.

(** [handle_messages] on the events the connection delivers, each with the
    state of the connection while it is handled.  An exception that leaves
    the loop body is caught by the outer handler, which ends the task. *)
Fixpoint handle_messages (inbox : list (bool * Event)) (s : Engine) : Engine * Trace :=
  match inbox with
  | [] => (s, [])
  | (ws_open, data) :: rest =>
      match handle_message ws_open data s with
      | (Returned Next, s1, t1) =>
          let '(s2, t2) := handle_messages rest s1 in (s2, t1 ++ t2)
      | (Returned Return, s1, t1) => (s1, t1)
      | (Raised e, s1, t1) => (s1, t1)
      end
  end.

(** What the event loop runs next: a pass of one of the three coroutines
    that [run] gathers, or the keyboard thread seeing the return key.  A pass
    is taken as one step; the waits inside it appear in its trace. *)
Inductive Step : Type :=
| Inbound (ws_open : bool) (data : Event)
| Captured (ws_open : bool) (read : Outcome Frame)
| KeyboardPoll (ws_open : bool) (fault : TeardownFault)
| EnterPressed.

(** The engine together with the coroutines that have not yet left their
    loop. *)
Record Tasks : Type := mkTasks {
  engine : Engine;
  handling : bool;
  capturing : bool
}.

(** The state in which [run] starts the coroutines: the output stream is
    open and [is_running] is set. *)
Definition started : Tasks :=
  {| engine := set_is_running true (set_output_stream (Some Active) init);
     handling := true;
     capturing := true |}.

Definition step (x : Step) (st : Tasks) : Tasks * Trace :=
  match x with
  | Inbound ws_open data =>
      if handling st then
        match handle_message ws_open data (engine st) with
        | (Returned Next, s1, t1) => (mkTasks s1 true (capturing st), t1)
        | (_, s1, t1) => (mkTasks s1 false (capturing st), t1)
        end
      else (st, [])
  | Captured ws_open read =>
      if capturing st && is_running (engine st) then
        match audio_input_step ws_open read (engine st) with
        | (Returned Again, s1, t1) => (mkTasks s1 (handling st) true, t1)
        | (_, s1, t1) => (mkTasks s1 (handling st) false, t1)
        end
      else (mkTasks (engine st) (handling st) false, [])
  | KeyboardPoll ws_open fault =>
      if is_running (engine st) then
        match keyboard_listener_step ws_open fault (engine st) with
        | (_, s1, t1) => (mkTasks s1 (handling st) (capturing st), t1)
        end
      else (st, [])
  | EnterPressed =>
      (mkTasks (enter_pressed (engine st)) (handling st) (capturing st), [])
  end.

Fixpoint run (schedule : list Step) (st : Tasks) : Tasks * Trace :=
  match schedule with
  | [] => (st, [])
  | x :: rest =>
      let '(st1, t1) := step x st in
      let '(st2, t2) := run rest st1 in
      (st2, t1 ++ t2)
  end.

End WithExternals.
End Main.

(** ** waste/tempCodeRunnerFile.py: class RealtimeLocalASR *)

Module LocalASR.

Definition SAMPLE_RATE : Z := 16000.
Definition CHUNK_SIZE : Z := 1024.
Definition ENERGY_THRESHOLD : Z := 300.
Definition SILENCE_DURATION : Q := 1.
Definition MIN_SPEECH_DURATION : Q := 3 # 10.

Record Engine : Type := mkEngine {
  output_stream : option StreamState;
  is_running : bool;
  is_ai_speaking : bool;
  session_id : option Json;
  speech_buffer : list Frame;
  is_speaking : bool;
  silence_start : option Q;
  interrupt_flag : bool;
  drop_audio_until_cancelled : bool
}.

(** [__init__] *)
Definition init : Engine :=
  {| output_stream := None;
     is_running := false;
     is_ai_speaking := false;
     session_id := None;
     speech_buffer := [];
     is_speaking := false;
     silence_start := None;
     interrupt_flag := false;
     drop_audio_until_cancelled := false |}.

Definition set_output_stream (v : option StreamState) (s : Engine) : Engine :=
  mkEngine v (is_running s) (is_ai_speaking s) (session_id s) (speech_buffer s)
    (is_speaking s) (silence_start s) (interrupt_flag s) (drop_audio_until_cancelled s).

Definition set_is_running (v : bool) (s : Engine) : Engine :=
  mkEngine (output_stream s) v (is_ai_speaking s) (session_id s) (speech_buffer s)
    (is_speaking s) (silence_start s) (interrupt_flag s) (drop_audio_until_cancelled s).

Definition set_is_ai_speaking (v : bool) (s : Engine) : Engine :=
  mkEngine (output_stream s) (is_running s) v (session_id s) (speech_buffer s)
    (is_speaking s) (silence_start s) (interrupt_flag s) (drop_audio_until_cancelled s).

Definition set_session_id (v : option Json) (s : Engine) : Engine :=
  mkEngine (output_stream s) (is_running s) (is_ai_speaking s) v (speech_buffer s)
    (is_speaking s) (silence_start s) (interrupt_flag s) (drop_audio_until_cancelled s).

Definition set_speech_buffer (v : list Frame) (s : Engine) : Engine :=
  mkEngine (output_stream s) (is_running s) (is_ai_speaking s) (session_id s) v
    (is_speaking s) (silence_start s) (interrupt_flag s) (drop_audio_until_cancelled s).

Definition set_is_speaking (v : bool) (s : Engine) : Engine :=
  mkEngine (output_stream s) (is_running s) (is_ai_speaking s) (session_id s)
    (speech_buffer s) v (silence_start s) (interrupt_flag s) (drop_audio_until_cancelled s).

Definition set_silence_start (v : option Q) (s : Engine) : Engine :=
  mkEngine (output_stream s) (is_running s) (is_ai_speaking s) (session_id s)
    (speech_buffer s) (is_speaking s) v (interrupt_flag s) (drop_audio_until_cancelled s).

Definition set_interrupt_flag (v : bool) (s : Engine) : Engine :=
  mkEngine (output_stream s) (is_running s) (is_ai_speaking s) (session_id s)
    (speech_buffer s) (is_speaking s) (silence_start s) v (drop_audio_until_cancelled s).

Definition set_drop_audio_until_cancelled (v : bool) (s : Engine) : Engine :=
  mkEngine (output_stream s) (is_running s) (is_ai_speaking s) (session_id s)
    (speech_buffer s) (is_speaking s) (silence_start s) (interrupt_flag s) v.

(** [calculate_energy]: the samples are converted to [float32] and squared,
    [np.mean] averages the squares and [np.sqrt] takes the root, all in
    [float32]; an empty chunk and a mean that is not positive give 0. *)
Definition calculate_energy (audio_data : Frame) : Q :=
  match audio_data with
  | [] => 0
  | _ =>
      let audio_array := map inject_Z audio_data in
      let energy := Numpy.mean32 (map Numpy.square32 audio_array) in
      if Qgtb energy 0 then Numpy.sqrt32 energy else 0
  end.

(** [self.calculate_energy(audio_data) > ENERGY_THRESHOLD] *)
Definition above_threshold (audio_data : Frame) : bool :=
  Qgtb (calculate_energy audio_data) (inject_Z ENERGY_THRESHOLD).
Arguments above_threshold : simpl never.

(** [len(b''.join(speech_buffer)) / 2 / SAMPLE_RATE]: the seconds of audio a
    buffer holds. *)
Definition buffered_duration (buffer : list Frame) : Q :=
  inject_Z (Z.of_nat (length (concat buffer))) / inject_Z SAMPLE_RATE.

Section WithExternals.
Context {ext : Externals}.

Definition stream_write (pcm : string) : M Engine unit :=
  (s <- get ;;
   match output_stream s with
   | Some Active => emit (StreamWrite pcm)
   | _ => emit (StreamWriteFailed pcm) ;; raise StreamError
   end)%py.

Definition reopen_output_stream (fault : TeardownFault) : M Engine unit :=
  match fault with
  | StopRaises => (emit StreamStopFailed ;; raise StreamError)%py
  | CloseRaises =>
      (emit StreamStop ;; modify (set_output_stream (Some Stopped)) ;;
       emit StreamCloseFailed ;; raise StreamError)%py
  | OpenRaises =>
      (emit StreamStop ;; modify (set_output_stream (Some Stopped)) ;;
       emit StreamClose ;; modify (set_output_stream (Some Closed)) ;;
       emit StreamOpenFailed ;; raise StreamError)%py
  | NoFault =>
      (emit StreamStop ;; modify (set_output_stream (Some Stopped)) ;;
       emit StreamClose ;; modify (set_output_stream (Some Closed)) ;;
       emit StreamOpen ;; modify (set_output_stream (Some Active)))%py
  end.

Definition _send_text_to_openai (ws_open : bool) (text : string) : M Engine unit :=
  (ws_send ws_open (ItemUserMessage text) ;;
   ws_send ws_open (ResponseCreate (Some ["audio"; "text"]%string)))%py.

Definition _process_speech (ws_open : bool) : M Engine unit :=
  (s <- get ;;
   if (Z.of_nat (length (speech_buffer s))
       <? py_int (inject_Z SAMPLE_RATE * MIN_SPEECH_DURATION / inject_Z CHUNK_SIZE))%Z
   then emit (Console TooShort)
   else
     emit (Console Recognizing) ;;
     try_except
       (emit (Transcribe (speech_buffer s)) ;;
        result <- lift (whisper_transcribe (speech_buffer s)) ;;
        let text := py_strip (fst result) in
        let language := snd result in
        if truthy text then
          emit (Console (Heard text language)) ;;
          _send_text_to_openai ws_open text
        else emit (Console NothingRecognized))
       (fun e => emit (Console (RecognizeError e))))%py.

(** One pass through the body of the loop of [start_audio_input]; [now] is
    what [time.time()] gives during the pass. *)
Definition audio_input_step (ws_open : bool) (now : Q) (read : Outcome Frame)
  : M Engine Loop :=
  try_except
    (audio_data <- lift read ;;
     s <- get ;;
     (if negb (is_ai_speaking s) then
        if above_threshold audio_data then
          (if negb (is_speaking s) then
             emit (Console SpeechDetected) ;; modify (set_is_speaking true)
           else ret tt) ;;
          modify (fun s => set_speech_buffer (speech_buffer s ++ [audio_data]) s) ;;
          modify (set_silence_start None)
        else if is_speaking s then
          match silence_start s with
          | None => modify (set_silence_start (Some now))
          | Some since =>
              if Qgtb (now - since) SILENCE_DURATION then
                emit (Console SpeechEnded) ;;
                _process_speech ws_open ;;
                modify (set_speech_buffer []) ;;
                modify (set_is_speaking false) ;;
                modify (set_silence_start None)
              else ret tt
          end
        else modify (fun s => set_speech_buffer (speech_buffer s ++ [audio_data]) s)
      else ret tt) ;;
     emit (Sleep (1 # 1000)) ;;
     ret Again)%py
    (fun e => (s <- get ;;
               (if is_running s then emit (Console (AudioInputError e)) else ret tt) ;;
               ret Break)%py).

(** [start_audio_input] on the chunks the microphone delivers, each with the
    connection state and the clock reading of its pass. *)
Fixpoint start_audio_input (mic : list (bool * Q * Outcome Frame)) (s : Engine)
  : Engine * Trace :=
  match mic with
  | [] => (s, [])
  | (ws_open, now, read) :: rest =>
      if is_running s then
        match audio_input_step ws_open now read s with
        | (Returned Again, s1, t1) =>
            let '(s2, t2) := start_audio_input rest s1 in (s2, t1 ++ t2)
        | (_, s1, t1) => (s1, t1)
        end
      else (s, [])
  end.

Definition _send_function_result (ws_open : bool) (call_id : option string) (result : Json)
  : M Engine unit :=
  (ws_send ws_open (ItemFunctionCallOutput call_id result) ;;
   ws_send ws_open (ResponseCreate None))%py.

Definition enter_pressed (s : Engine) : Engine :=
  if is_ai_speaking s then set_interrupt_flag true s else s.

Definition keyboard_listener_step (ws_open : bool) (fault : TeardownFault) : M Engine unit :=
  (s <- get ;;
   (if interrupt_flag s then
      modify (set_drop_audio_until_cancelled true) ;;
      modify (set_is_ai_speaking false) ;;
      (match output_stream s with
       | Some _ => try_except (reopen_output_stream fault) (fun e => ret tt)
       | None => ret tt
       end) ;;
      try_except
        (ws_send ws_open ResponseCancel)
        (fun e => modify (set_drop_audio_until_cancelled false)) ;;
      modify (set_interrupt_flag false)
    else ret tt) ;;
   emit (Sleep (1 # 20)))%py.

Definition handle_message (ws_open : bool) (data : Event) : M Engine Flow :=
  let event_type := ev_type data in
  if String.eqb event_type "session.created" then
    (id <- lift (session_id_of data) ;; modify (set_session_id id) ;; ret Next)%py
  else if String.eqb event_type "session.updated" then ret Next
  else if String.eqb event_type "response.created" then ret Next
  else if String.eqb event_type "response.done" then
    (modify (set_is_ai_speaking false) ;; ret Next)%py
  else if String.eqb event_type "response.text.delta" then ret Next
  else if String.eqb event_type "response.text.done" then ret Next
  else if String.eqb event_type "response.audio.delta" then
    (s <- get ;;
     if drop_audio_until_cancelled s then ret Next
     else
       modify (set_is_ai_speaking true) ;;
       let audio_b64 := ev_delta data in
       if truthy audio_b64 && bool_decide (is_Some (output_stream s)) then
         audio_data <- lift (b64decode audio_b64) ;;
         try_except (stream_write audio_data) (fun e => ret tt) ;;
         ret Next
       else ret Next)%py
  else if String.eqb event_type "response.audio.done" then
    (modify (set_is_ai_speaking false) ;; ret Next)%py
  else if String.eqb event_type "response.function_call_arguments.delta" then ret Next
  else if String.eqb event_type "response.function_call_arguments.done" then
    let call_id := ev_call_id data in
    let function_name := ev_name data in
    let arguments_str := ev_arguments data in
    try_except
      (arguments <- lift (json_loads arguments_str) ;;
       result <- Tools.execute_function function_name arguments ;;
       if String.eqb function_name "end_conversation" then
         _send_function_result ws_open call_id result ;;
         emit (Sleep 2) ;;
         modify (set_is_running false) ;;
         ret Return
       else
         _send_function_result ws_open call_id result ;;
         ret Next)%py
      (fun e =>
         let error_result := JDict [("error"%string, JStr (str e))] in
         (_send_function_result ws_open call_id error_result ;; ret Next)%py)
  else if String.eqb event_type "response.cancelled" then
    (modify (set_is_ai_speaking false) ;;
     modify (set_drop_audio_until_cancelled false) ;;
     ret Next)%py
  else if String.eqb event_type "error" then
    (error_msg <- lift (error_message_of data) ;; ret Next)%py
  else ret Next.

Fixpoint handle_messages (inbox : list (bool * Event)) (s : Engine) : Engine * Trace :=
  match inbox with
  | [] => (s, [])
  | (ws_open, data) :: rest =>
      match handle_message ws_open data s with
      | (Returned Next, s1, t1) =>
          let '(s2, t2) := handle_messages rest s1 in (s2, t1 ++ t2)
      | (Returned Return, s1, t1) => (s1, t1)
      | (Raised e, s1, t1) => (s1, t1)
      end
  end.

End WithExternals.

(** The engine when [run] starts the coroutines. *)
Definition started : Engine :=
  set_is_running true (set_output_stream (Some Active) init).

End LocalASR.

(** ** waste/realtime_client.py: class RealtimeClient (first client) *)

Module Legacy.

(** The module-level switches of the file. *)
Record Config : Type := {
  INTERRUPT_THRESHOLD : Z;
  ENABLE_ECHO_CANCELLATION : bool;
  ENABLE_GAIN_CONTROL : bool;
  TARGET_GAIN : Q;
  ENABLE_NOISE_GATE : bool;
  NOISE_GATE_THRESHOLD : Z
}.

(** The values the file assigns. *)
Definition shipped : Config :=
  {| INTERRUPT_THRESHOLD := 0;
     ENABLE_ECHO_CANCELLATION := false;
     ENABLE_GAIN_CONTROL := false;
     TARGET_GAIN := 1;
     ENABLE_NOISE_GATE := false;
     NOISE_GATE_THRESHOLD := 30 |}.

Record Engine : Type := mkEngine {
  output_stream : option StreamState;
  is_running : bool;
  is_ai_speaking : bool;
  session_id : option Json;
  cancel_sent : bool
}.

Definition init : Engine :=
  {| output_stream := None;
     is_running := false;
     is_ai_speaking := false;
     session_id := None;
     cancel_sent := false |}.

Definition set_is_ai_speaking (v : bool) (s : Engine) : Engine :=
  mkEngine (output_stream s) (is_running s) v (session_id s) (cancel_sent s).

Definition set_cancel_sent (v : bool) (s : Engine) : Engine :=
  mkEngine (output_stream s) (is_running s) (is_ai_speaking s) (session_id s) v.

Definition ZeroDivisionError : PyExn :=
  {| exn_class := "ZeroDivisionError"; exn_text := "division by zero" |}.

(** [int(math.sqrt(sum_squares / len(samples)))]: the integer part of the
    root of a quotient is the integer root of the integer quotient. *)
Definition calculate_audio_energy (audio_data : Frame) : Outcome Z :=
  match audio_data with
  | [] => Raised ZeroDivisionError
  | _ => Returned (Z.sqrt (sum_squares audio_data / Z.of_nat (length audio_data)))
  end.

Definition apply_gain (audio_data : Frame) (gain : Q) : Frame :=
  map (fun sample => Z.max (-32768) (Z.min 32767 (py_int (inject_Z sample * gain))))
      audio_data.

Definition apply_noise_gate (audio_data : Frame) (threshold : Z) : Outcome Frame :=
  match calculate_audio_energy audio_data with
  | Raised e => Raised e
  | Returned energy =>
      if (energy <? threshold)%Z
      then Returned (map (fun _ => 0%Z) audio_data)
      else Returned audio_data
  end.

Definition preprocess_audio (cfg : Config) (audio_data : Frame) : Outcome Frame :=
  match (if ENABLE_NOISE_GATE cfg
         then apply_noise_gate audio_data (NOISE_GATE_THRESHOLD cfg)
         else Returned audio_data) with
  | Raised e => Raised e
  | Returned processed =>
      if ENABLE_GAIN_CONTROL cfg
      then Returned (apply_gain processed (TARGET_GAIN cfg))
      else Returned processed
  end.

(** How the body of the capture loop goes on after the echo test. *)
Inductive Echo : Type := Transmit | Skip.

(** One pass through the body of the loop of [start_audio_input].
    [ws_closed] is the value of [not self.ws or self.ws.closed] when it is
    tested, [ws_open] tells whether the sends of the pass return. *)
Definition audio_input_step (cfg : Config) (ws_closed ws_open : bool) (read : Outcome Frame)
  : M Engine Loop :=
  try_except
    (audio_data <- lift read ;;
     if ws_closed then ret Break
     else
       s <- get ;;
       echo <- (if is_ai_speaking s && ENABLE_ECHO_CANCELLATION cfg then
                  audio_level <- lift (calculate_audio_energy audio_data) ;;
                  if (audio_level >? INTERRUPT_THRESHOLD cfg)%Z && negb (cancel_sent s) then
                    try_except
                      (ws_send ws_open ResponseCancel ;;
                       modify (set_cancel_sent true) ;;
                       modify (set_is_ai_speaking false))
                      (fun e => ret tt) ;;
                    ret Transmit
                  else ret Skip
                else ret Transmit) ;;
       match echo with
       | Skip => ret Again
       | Transmit =>
           processed_audio <- lift (preprocess_audio cfg audio_data) ;;
           sending <- try_except
                        (ws_send ws_open (InputAudioBufferAppend processed_audio) ;;
                         ret Again)
                        (fun e => s <- get ;;
                                  if is_running s then ret Break else ret Again) ;;
           match sending with
           | Break => ret Break
           | Again => emit (Sleep (1 # 100)) ;; ret Again
           end
       end)%py
    (fun e => ret Break).

End Legacy.

(** ** A laboratory instance of the collaborators

    Used wherever a statement is evaluated on concrete inputs: [json.loads]
    knows the empty object, base64 is the identity, Whisper always hears
    "hello", the data files are missing. *)

Definition JSONDecodeError : PyExn :=
  {| exn_class := "JSONDecodeError"; exn_text := "Expecting value: line 1 column 1 (char 0)" |}.

Definition bench : Externals :=
  {| json_loads := fun s => if String.eqb s "{}" then Returned (JDict [])
                            else Raised JSONDecodeError;
     b64decode := fun s => Returned s;
     whisper_transcribe := fun _ => Returned ("hello"%string, "en"%string);
     py_strip := fun s => s;
     strftime_now := "2025-01-01 12:00:00";
     rng_int := fun a _ => a;
     rng_pos := fun _ => 0%nat;
     query_menu_body := fun _ => Returned (JDict [("error"%string, JStr "菜单文件未找到")]);
     search_books_body := fun _ => Returned (JDict [("error"%string, JStr "书籍数据库未找到")]) |}.

(** An event of the given type whose other fields are absent. *)
Definition event (type : string) : Event :=
  {| ev_type := type;
     ev_session := None;
     ev_transcript := "";
     ev_delta := "";
     ev_text := "";
     ev_call_id := None;
     ev_name := "";
     ev_arguments := "{}";
     ev_error := None |}.

Definition audio_delta (payload : string) : Event :=
  {| ev_type := "response.audio.delta";
     ev_session := None;
     ev_transcript := "";
     ev_delta := payload;
     ev_text := "";
     ev_call_id := None;
     ev_name := "";
     ev_arguments := "{}";
     ev_error := None |}.

Definition error_event (message : string) : Event :=
  {| ev_type := "error";
     ev_session := None;
     ev_transcript := "";
     ev_delta := "";
     ev_text := "";
     ev_call_id := None;
     ev_name := "";
     ev_arguments := "{}";
     ev_error := Some (JDict [("message"%string, JStr message)]) |}.

(** An [error] event whose message is an explicit [null]. *)
Definition null_message_error : Event :=
  {| ev_type := "error";
     ev_session := None;
     ev_transcript := "";
     ev_delta := "";
     ev_text := "";
     ev_call_id := None;
     ev_name := "";
     ev_arguments := "{}";
     ev_error := Some (JDict [("message"%string, JNull)]) |}.

Definition function_call (call_id name arguments : string) : Event :=
  {| ev_type := "response.function_call_arguments.done";
     ev_session := None;
     ev_transcript := "";
     ev_delta := "";
     ev_text := "";
     ev_call_id := Some call_id;
     ev_name := name;
     ev_arguments := arguments;
     ev_error := None |}.

(** A chunk that the microphone delivered without error, with the state of
    the connection and the clock reading of its pass. *)
Definition delivered (c : bool * Q * Frame) : bool * Q * Outcome Frame :=
  (fst (fst c), snd (fst c), Returned (snd c)).

Definition clock (c : bool * Q * Frame) : Q := snd (fst c).

Definition audio (c : bool * Q * Frame) : Frame := snd c.

(** Chunks of [CHUNK_SIZE] samples: silence, and a loud square level. *)
Definition quiet_chunk : Frame := repeat 0%Z 1024.

Definition loud_chunk : Frame := repeat 1000%Z 1024.

(** [n] chunks of the same content read [step_ms] milliseconds apart from
    [start_ms] on, the connection being open; the clock reads seconds. *)
Definition recording (n : nat) (start_ms step_ms : Z) (chunk : Frame)
  : list (bool * Q * Frame) :=
  map (fun k => (true, (start_ms + step_ms * Z.of_nat k) # 1000, chunk)) (seq 0 n).

(** The test the server-VAD engine makes on the message of an [error] event
    (a missing message reads as the default text); an event on which the
    test raises reports nothing. *)
Definition reports_cancellation_failure (data : Event) : bool :=
  match error_message_of data with
  | Returned error_msg =>
      match py_in "Cancellation failed" error_msg with
      | Returned true => true
      | Returned false =>
          match py_in "no active response" error_msg with
          | Returned reported => reported
          | Raised _ => false
          end
      | Raised _ => false
      end
  | Raised _ => false
  end.

(** The state in which an interruption whose cancel request went out leaves
    the server-VAD engine: the suppress flag is set, the AI counts as silent
    and no interruption is pending. *)
Definition suppressing (s : Main.Engine) : Prop :=
  Main.drop_audio_until_cancelled s = true /\
  Main.is_ai_speaking s = false /\
  Main.interrupt_flag s = false.

(** The steps of the server-VAD engine whose handling clears the suppress
    flag: a cancellation confirmation, a completed function call and a
    cancellation-failure error. *)
Definition releases_suppression (x : Main.Step) : bool :=
  match x with
  | Main.Inbound _ data =>
      String.eqb (ev_type data) "response.cancelled"
      || String.eqb (ev_type data) "response.function_call_arguments.done"
      || (String.eqb (ev_type data) "error" && reports_cancellation_failure data)
  | Main.Captured _ _ => false
  | Main.KeyboardPoll _ _ => false
  | Main.EnterPressed => false
  end.

Ltac py_unfold :=
  unfold try_except, bind, get, modify, emit, ret, raise, lift, ws_send in *.

(** ** function_tools.py: the data tools

    [restaurant_menu.json] and [books_database.json] are read as the code
    uses them: a well-formed file is a value of the record types below (the
    fields the code reads with [d[key]] are present, the ones it reads with
    [d.get(key)] may be missing); [None] stands for a file that does not
    exist. *)

Module Catalog.

(** Python truth value of an optional string argument ([None] is false). *)
Definition given (o : option string) : bool :=
  match o with
  | Some s => truthy s
  | None => false
  end.

(** An entry of a category list of the menu file. *)
Record Dish : Type := mkDish {
  dish_name : string;                  (* dish["名称"] *)
  dish_price : Json;                   (* dish["价格"] *)
  dish_description : option string;    (* dish["描述"], dish.get("描述", "") *)
  dish_spicy : option string;          (* dish.get("辣度") *)
  dish_recommended : option bool       (* dish.get("推荐", False) *)
}.

Record MenuData : Type := mkMenuData {
  restaurant_name : string;                   (* menu_data["餐厅名称"] *)
  menu : list (string * list Dish)            (* menu_data["菜单"], in file order *)
}.

(** An element of the list under ["菜品"]. *)
Record MenuEntry : Type := mkMenuEntry {
  entry_category : string;
  entry_name : string;
  entry_price : Json;
  entry_description : string;
  entry_spicy : string;
  entry_recommended : bool
}.

(** What [query_menu] returns: the error dict, or the dict with the
    restaurant, the number of results and the listed dishes. *)
Inductive MenuAnswer : Type :=
| MenuFileMissing
| MenuFound (restaurant : string) (count : nat) (dishes : list MenuEntry).

(** [menu_data["菜单"].keys()] and [menu_data["菜单"][cat]] *)
Definition keys (m : list (string * list Dish)) : list string := map fst m.

Definition dishes_of (cat : string) (m : list (string * list Dish)) : Outcome (list Dish) :=
  match List.find (fun kv => String.eqb (fst kv) cat) m with
  | Some kv => Returned (snd kv)
  | None => Raised (Tools.KeyError cat)
  end.

Section QueryMenu.
Variables (category keyword spicy_level : option string) (recommend_only : bool).

(** The three [continue] tests of the inner loop, in order. *)
Definition skipped (dish : Dish) : bool :=
  if recommend_only && negb (default false (dish_recommended dish)) then true
  else if given spicy_level
          && negb (bool_decide (dish_spicy dish = spicy_level)) then true
  else if given keyword
          && negb (str_in (default ""%string keyword) (dish_name dish))
          && negb (str_in (default ""%string keyword)
                          (default ""%string (dish_description dish))) then true
  else false.

(** The dict appended for a dish that is kept; [dish["描述"]] raises when
    the field is missing. *)
Definition listed (cat : string) (dish : Dish) : Outcome MenuEntry :=
  match dish_description dish with
  | None => Raised (Tools.KeyError "描述")
  | Some description =>
      Returned {| entry_category := cat;
                  entry_name := dish_name dish;
                  entry_price := dish_price dish;
                  entry_description := description;
                  entry_spicy := default "不辣"%string (dish_spicy dish);
                  entry_recommended := default false (dish_recommended dish) |}
  end.

(** The inner loop over the dishes of one category. *)
Fixpoint scan_dishes (cat : string) (dishes : list Dish) (results : list MenuEntry)
  : Outcome (list MenuEntry) :=
  match dishes with
  | [] => Returned results
  | dish :: rest =>
      if skipped dish then scan_dishes cat rest results
      else
        match listed cat dish with
        | Raised e => Raised e
        | Returned entry => scan_dishes cat rest (results ++ [entry])
        end
  end.

(** The outer loop over the categories. *)
Fixpoint scan_categories (m : list (string * list Dish)) (categories : list string)
         (results : list MenuEntry) : Outcome (list MenuEntry) :=
  match categories with
  | [] => Returned results
  | cat :: rest =>
      match dishes_of cat m with
      | Raised e => Raised e
      | Returned dishes =>
          match scan_dishes cat dishes results with
          | Raised e => Raised e
          | Returned results' => scan_categories m rest results'
          end
      end
  end.

Definition query_menu (file : option MenuData) : Outcome MenuAnswer :=
  match file with
  | None => Returned MenuFileMissing
  | Some menu_data =>
      let categories :=
        if given category then
          if bool_decide (default ""%string category ∈ keys (menu menu_data))
          then [default ""%string category]
          else keys (menu menu_data)
        else keys (menu menu_data) in
      match scan_categories (menu menu_data) categories [] with
      | Raised e => Raised e
      | Returned results =>
          Returned (MenuFound (restaurant_name menu_data) (length results) (take 10 results))
      end
  end.

End QueryMenu.

(** An element of [books_data["books"]]. *)
Record Book : Type := mkBook {
  title : string;
  author : string;
  book_category : string;
  year : Json;
  rating : Q;
  pages : Json;
  description : string;
  keywords : list string
}.

(** What [search_books] returns: the error dict, or the number of results
    and the listed books (each result dict carries the fields of the book
    under other keys). *)
Inductive BookAnswer : Type :=
| BookFileMissing
| BooksFound (count : nat) (books : list Book).

(** [results.sort(key=lambda x: x["评分"], reverse=True)]: a stable sort by
    falling rating; a book goes before the first book rated no higher. *)
Fixpoint insert_by_rating (b : Book) (sorted : list Book) : list Book :=
  match sorted with
  | [] => [b]
  | c :: rest =>
      if Qgtb (rating c) (rating b) then c :: insert_by_rating b rest
      else b :: c :: rest
  end.

Definition sort_by_rating (results : list Book) : list Book :=
  fold_right insert_by_rating [] results.

Section SearchBooks.
(** [str.lower] *)
Variable lower : string -> string.
Variables (query category author : option string) (min_rating : option Q).

(** Python truth value of the [min_rating] argument: [None] and 0 are
    false. *)
Definition rating_given : bool :=
  match min_rating with
  | Some r => negb (Qeq_bool r 0)
  | None => false
  end.

(** The [continue] tests of the loop, in order. *)
Definition passed_over (book : Book) : bool :=
  if given category
     && negb (String.eqb (book_category book) (default ""%string category)) then true
  else if given author && negb (str_in (default ""%string author) (Catalog.author book))
  then true
  else if rating_given && Qgtb (default 0%Q min_rating) (rating book) then true
  else if given query then
    let query_lower := lower (default ""%string query) in
    negb (str_in query_lower (lower (title book))
          || str_in query_lower (lower (Catalog.author book))
          || str_in query_lower (lower (description book))
          || existsb (fun keyword => str_in query_lower (lower keyword)) (keywords book))
  else false.

Definition search_books (file : option (list Book)) : BookAnswer :=
  match file with
  | None => BookFileMissing
  | Some books =>
      let results := sort_by_rating (List.filter (fun book => negb (passed_over book)) books) in
      BooksFound (length results) (take 5 results)
  end.

End SearchBooks.

End Catalog.

(** ** function_tools.py: FUNCTION_DEFINITIONS *)

Module Schema.

(** A tool as declared to the server: its name, the names under
    ["properties"] and the list under ["required"]. *)
Record Declaration : Type := {
  decl_name : string;
  decl_properties : list string;
  decl_required : list string
}.

Definition FUNCTION_DEFINITIONS : list Declaration :=
  [ {| decl_name := "end_conversation"; decl_properties := []; decl_required := [] |};
    {| decl_name := "get_weather";
       decl_properties := ["location"; "date"]%string;
       decl_required := ["location"]%string |};
    {| decl_name := "query_menu";
       decl_properties := ["category"; "keyword"; "spicy_level"; "recommend_only"]%string;
       decl_required := [] |};
    {| decl_name := "search_books";
       decl_properties := ["query"; "category"; "author"; "min_rating"]%string;
       decl_required := [] |} ].

End Schema.

(** ** realtime_local_asr.py: the capture loop as a whole *)

Module MainCapture.

(** [start_audio_input] of the server-VAD engine on what the microphone
    delivers, each read with the state of the connection during its pass. *)
Fixpoint start_audio_input (mic : list (bool * Outcome Frame)) (s : Main.Engine)
  : Main.Engine * Trace :=
  match mic with
  | [] => (s, [])
  | (ws_open, read) :: rest =>
      if Main.is_running s then
        match Main.audio_input_step ws_open read s with
        | (Returned Again, s1, t1) =>
            let '(s2, t2) := start_audio_input rest s1 in (s2, t1 ++ t2)
        | (_, s1, t1) => (s1, t1)
        end
      else (s, [])
  end.

End MainCapture.

(** ** waste/realtime_client.py: the event handler and the loops *)

Module LegacyClient.

Definition set_session_id (v : option Json) (s : Legacy.Engine) : Legacy.Engine :=
  Legacy.mkEngine (Legacy.output_stream s) (Legacy.is_running s) (Legacy.is_ai_speaking s)
    v (Legacy.cancel_sent s).

Section WithExternals.
Context {ext : Externals}.

(** [self.output_stream.write(audio_data)] *)
Definition stream_write (pcm : string) : M Legacy.Engine unit :=
  (s <- get ;;
   match Legacy.output_stream s with
   | Some Active => emit (StreamWrite pcm)
   | _ => emit (StreamWriteFailed pcm) ;; raise StreamError
   end)%py.

(** One pass through the body of the loop of [handle_messages]; the item of
    a [conversation.item.created] is taken to be an object, as the server
    sends it. *)
Definition handle_message (data : Event) : M Legacy.Engine Flow :=
  let event_type := ev_type data in
  if String.eqb event_type "session.created" then
    (id <- lift (session_id_of data) ;; modify (set_session_id id) ;; ret Next)%py
  else if String.eqb event_type "session.updated" then ret Next
  else if String.eqb event_type "input_audio_buffer.committed" then ret Next
  else if String.eqb event_type "conversation.item.created" then ret Next
  else if String.eqb event_type "response.created" then
    (modify (Legacy.set_cancel_sent false) ;; ret Next)%py
  else if String.eqb event_type "response.done" then
    (modify (Legacy.set_is_ai_speaking false) ;;
     modify (Legacy.set_cancel_sent false) ;;
     ret Next)%py
  else if String.eqb event_type "conversation.item.input_audio_transcription.completed"
  then ret Next
  else if String.eqb event_type "response.text.delta" then ret Next
  else if String.eqb event_type "response.text.done" then ret Next
  else if String.eqb event_type "response.audio.delta" then
    (modify (Legacy.set_is_ai_speaking true) ;;
     let audio_b64 := ev_delta data in
     if truthy audio_b64 then
       audio_data <- lift (b64decode audio_b64) ;;
       s <- get ;;
       (if bool_decide (is_Some (Legacy.output_stream s))
        then stream_write audio_data
        else ret tt) ;;
       ret Next
     else ret Next)%py
  else if String.eqb event_type "response.audio.done" then
    (modify (Legacy.set_is_ai_speaking false) ;; ret Next)%py
  else if String.eqb event_type "response.cancelled" then
    (modify (Legacy.set_is_ai_speaking false) ;;
     modify (Legacy.set_cancel_sent false) ;;
     ret Next)%py
  else if String.eqb event_type "error" then
    (error_msg <- lift (error_message_of data) ;; ret Next)%py
  else ret Next.

(** [handle_messages]: an exception that leaves the loop body is caught by
    the outer handler, which ends the task. *)
Fixpoint handle_messages (inbox : list Event) (s : Legacy.Engine) : Legacy.Engine * Trace :=
  match inbox with
  | [] => (s, [])
  | data :: rest =>
      match handle_message data s with
      | (Returned Next, s1, t1) =>
          let '(s2, t2) := handle_messages rest s1 in (s2, t1 ++ t2)
      | (Returned Return, s1, t1) => (s1, t1)
      | (Raised e, s1, t1) => (s1, t1)
      end
  end.

End WithExternals.

(** [start_audio_input] on what the microphone delivers; each read comes
    with the value of the connection test and with the fate of the sends of
    its pass. *)
Fixpoint start_audio_input (cfg : Legacy.Config) (mic : list (bool * bool * Outcome Frame))
         (s : Legacy.Engine) : Legacy.Engine * Trace :=
  match mic with
  | [] => (s, [])
  | (ws_closed, ws_open, read) :: rest =>
      if Legacy.is_running s then
        match Legacy.audio_input_step cfg ws_closed ws_open read s with
        | (Returned Again, s1, t1) =>
            let '(s2, t2) := start_audio_input cfg rest s1 in (s2, t1 ++ t2)
        | (_, s1, t1) => (s1, t1)
        end
      else (s, [])
  end.

End LegacyClient.

(** ** waste/test_whisper.py *)

Module TestWhisper.

Definition SAMPLE_RATE : Z := 16000.
Definition CHUNK_SIZE : Z := 1024.

(** [int(SAMPLE_RATE / CHUNK_SIZE * duration)] *)
Definition total_chunks (duration : Z) : Z :=
  py_int (inject_Z SAMPLE_RATE / inject_Z CHUNK_SIZE * inject_Z duration).

(** [np.frombuffer(.., dtype=np.int16).astype(np.float32) / 32768.0]; the
    quotient by a power of two is exact in float32. *)
Definition to_float (samples : Frame) : list Q :=
  map (fun sample => (inject_Z sample / 32768)%Q) samples.

(** [(audio_data * 32768).astype(np.int16)] on values that fit 16 bits *)
Definition to_int16 (audio_data : list Q) : Frame :=
  map (fun x => py_int (x * 32768)%Q) audio_data.

(** [record_audio]: [total_chunks] reads of the stream [device], joined and
    scaled. *)
Definition record_audio (duration : Z) (device : list Frame) : list Q :=
  to_float (concat (take (Z.to_nat (total_chunks duration)) device)).

End TestWhisper.

(** The number of cancel requests that went out. *)
Definition cancels_sent (t : Trace) : nat :=
  length (omap (fun a => match a with WsSend ResponseCancel => Some tt | _ => None end) t).


(** 16-bit samples. *)
Definition int16 (sample : Z) : Prop := (-32768 <= sample <= 32767)%Z.


(** The dishes a query of the menu ranges over, each with its category, in
    the order of the file: those of the requested category when the menu has
    it, all of them otherwise. *)
Definition all_dishes (m : list (string * list Catalog.Dish)) : list (string * Catalog.Dish) :=
  flat_map (fun kv => map (pair (fst kv)) (snd kv)) m.

Definition offered_dishes (category : option string) (m : list (string * list Catalog.Dish))
  : list (string * Catalog.Dish) :=
  if Catalog.given category && bool_decide (default ""%string category ∈ Catalog.keys m)
  then List.filter (fun cd => String.eqb (fst cd) (default ""%string category)) (all_dishes m)
  else all_dishes m.

(** The entry that lists a dish of a category. *)
Definition entry_of (cd : string * Catalog.Dish) : Catalog.MenuEntry :=
  {| Catalog.entry_category := fst cd;
     Catalog.entry_name := Catalog.dish_name (snd cd);
     Catalog.entry_price := Catalog.dish_price (snd cd);
     Catalog.entry_description := default ""%string (Catalog.dish_description (snd cd));
     Catalog.entry_spicy := default "不辣"%string (Catalog.dish_spicy (snd cd));
     Catalog.entry_recommended := default false (Catalog.dish_recommended (snd cd)) |}.

(** What the filters of [query_menu] promise about a listed dish. *)
Definition entry_answers_query (keyword spicy_level : option string) (recommend_only : bool)
           (e : Catalog.MenuEntry) : Prop :=
  (recommend_only = true -> Catalog.entry_recommended e = true) /\
  (Catalog.given spicy_level = true -> spicy_level = Some (Catalog.entry_spicy e)) /\
  (Catalog.given keyword = true ->
   str_in (default ""%string keyword) (Catalog.entry_name e) = true \/
   str_in (default ""%string keyword) (Catalog.entry_description e) = true).

(** What the filters of [search_books] promise about a listed book. *)
Definition book_answers_search (lower : string -> string)
           (query category author : option string) (min_rating : option Q)
           (b : Catalog.Book) : Prop :=
  (Catalog.given category = true -> category = Some (Catalog.book_category b)) /\
  (Catalog.given author = true ->
   str_in (default ""%string author) (Catalog.author b) = true) /\
  (Catalog.rating_given min_rating = true -> (default 0%Q min_rating <= Catalog.rating b)%Q) /\
  (Catalog.given query = true ->
   let query_lower := lower (default ""%string query) in
   str_in query_lower (lower (Catalog.title b)) = true \/
   str_in query_lower (lower (Catalog.author b)) = true \/
   str_in query_lower (lower (Catalog.description b)) = true \/
   Exists (fun keyword => str_in query_lower (lower keyword) = true) (Catalog.keywords b)).

(** [a] is rated at least as high as [b]. *)
Definition rated_no_lower (a b : Catalog.Book) : Prop :=
  (Catalog.rating b <= Catalog.rating a)%Q.

(** ** Data for evaluating the statements on concrete inputs *)

(** The laboratory collaborators with a base64 decoder that rejects
    everything but the empty string. *)
Definition Base64Error : PyExn :=
  {| exn_class := "binascii.Error"; exn_text := "Incorrect padding" |}.

Definition bench_strict : Externals :=
  {| json_loads := json_loads (Externals := bench);
     b64decode := fun s => if String.eqb s "" then Returned s else Raised Base64Error;
     whisper_transcribe := whisper_transcribe (Externals := bench);
     py_strip := py_strip (Externals := bench);
     strftime_now := strftime_now (Externals := bench);
     rng_int := rng_int (Externals := bench);
     rng_pos := rng_pos (Externals := bench);
     query_menu_body := query_menu_body (Externals := bench);
     search_books_body := search_books_body (Externals := bench) |}.

(** A menu of two categories; the last dish has no description. *)
Definition sample_menu : Catalog.MenuData :=
  {| Catalog.restaurant_name := "川香阁";
     Catalog.menu :=
       [ ("凉菜"%string,
          [ Catalog.mkDish "拍黄瓜" (JInt 18) (Some "清爽开胃"%string) None (Some true);
            Catalog.mkDish "口水鸡" (JInt 38) (Some "麻辣鲜香"%string) (Some "中辣"%string)
              None ]);
         ("热菜"%string,
          [ Catalog.mkDish "宫保鸡丁" (JInt 48) (Some "花生与鸡肉"%string)
              (Some "微辣"%string) (Some true);
            Catalog.mkDish "时蔬" (JInt 22) None None None ]) ] |}.

Definition sample_books : list Catalog.Book :=
  [ Catalog.mkBook "Dune" "Frank Herbert" "scifi" (JInt 1965) (43 # 10) (JInt 612)
      "A desert planet" ["desert"; "spice"]%string;
    Catalog.mkBook "Emma" "Jane Austen" "classic" (JInt 1815) (40 # 10) (JInt 474)
      "A matchmaker" ["romance"]%string;
    Catalog.mkBook "Foundation" "Isaac Asimov" "scifi" (JInt 1951) (42 # 10) (JInt 255)
      "The fall of an empire" ["empire"; "psychohistory"]%string;
    Catalog.mkBook "Hyperion" "Dan Simmons" "scifi" (JInt 1989) (43 # 10) (JInt 482)
      "Seven pilgrims" ["pilgrims"]%string ].


(** Whether the lookups of the server-VAD handler can read the payload of
    an event: the session of a [session.created] and the error of an [error]
    must be objects when present, and the message of the error a string or a
    collection. *)
Definition is_object (value : Json) : bool :=
  match value with
  | JDict _ => true
  | _ => false
  end.

Definition searchable (value : Json) : bool :=
  match value with
  | JStr _ | JList _ | JDict _ => true
  | _ => false
  end.

Definition readable_payload (data : Event) : bool :=
  if String.eqb (ev_type data) "session.created"
  then is_object (default (JDict []) (ev_session data))
  else if String.eqb (ev_type data) "error"
  then match error_message_of data with
       | Returned message => searchable message
       | Raised _ => false
       end
  else true.

(** Closes a branch of the handler that goes on with the next event when the
    payload is readable, and raises without effect when it is not. *)
Ltac goes_on :=
  cbn;
  split;
  [ intros H; first [discriminate H | eexists _, _, _; split; [reflexivity|discriminate]]
  | intros H; first [discriminate H | eexists; reflexivity] ].

(** * Properties *)

(** ** The tool dispatcher *)

Section ToolDispatcher.
Context {ext : Externals}.


Lemma call_with_kwargs_unexpected (func : Tools.PyFunction) (kwargs : list (string * Json))
      (k : string) (v : Json) :
  In (k, v) kwargs ->
  existsb (String.eqb k) (Tools.fn_params func) = false ->
  exists msg, Tools.call_with_kwargs func (JDict kwargs) = Raised (Tools.TypeError msg).
Proof.
  intros Hin Hk. unfold Tools.call_with_kwargs.
  destruct (List.find _ kwargs) as [kv|] eqn:Hfind.
  - eexists. reflexivity.
  - exfalso. apply (find_none _ _ Hfind) in Hin. cbn in Hin. rewrite Hk in Hin. discriminate.
Qed.



End ToolDispatcher.

Example execute_function_unknown :
  Tools.execute_function (ext := bench) "order_pizza" (JDict []) tt
  = (Returned (JDict [("error"%string, JStr "未知函数: order_pizza")]), tt, []).
Proof. vm_compute. reflexivity. Qed.

Example execute_function_bad_keyword :
  Tools.execute_function (ext := bench) "end_conversation"
    (JDict [("reason"%string, JStr "bye")]) tt
  = (Returned (JDict [("error"%string,
       JStr "函数执行错误: end_conversation() got an unexpected keyword argument 'reason'")]),
     tt, []).
Proof. vm_compute. reflexivity. Qed.

Example execute_function_not_a_mapping :
  Tools.execute_function (ext := bench) "get_weather" JNull tt
  = (Returned (JDict [("error"%string,
       JStr "函数执行错误: get_weather() argument after ** must be a mapping, not NoneType")]),
     tt, []).
Proof. vm_compute. reflexivity. Qed.

Example execute_function_weather :
  exists rest,
    Tools.execute_function (ext := bench) "get_weather"
      (JDict [("location"%string, JStr "Beijing")]) tt
    = (Returned (JDict (("location"%string, JStr "Beijing") :: rest)), tt, []).
Proof. eexists. vm_compute. reflexivity. Qed.

(** ** Interruption: the suppress flag *)

Section Interruption.
Context {ext : Externals}.

Lemma Main_audio_delta_dropped (ws_open : bool) (data : Event) (s : Main.Engine) :
  ev_type data = "response.audio.delta"%string ->
  Main.drop_audio_until_cancelled s = true ->
  Main.handle_message ws_open data s = (Returned Next, s, []).
Proof.
  intros Ht Hd. unfold Main.handle_message. rewrite Ht. cbn.
  py_unfold. rewrite Hd. reflexivity.
Qed.

Lemma LocalASR_audio_delta_dropped (ws_open : bool) (data : Event) (s : LocalASR.Engine) :
  ev_type data = "response.audio.delta"%string ->
  LocalASR.drop_audio_until_cancelled s = true ->
  LocalASR.handle_message ws_open data s = (Returned Next, s, []).
Proof.
  intros Ht Hd. unfold LocalASR.handle_message. rewrite Ht. cbn.
  py_unfold. rewrite Hd. reflexivity.
Qed.

Lemma Main_audio_delta_played (ws_open : bool) (data : Event) (pcm : string)
      (s : Main.Engine) :
  ev_type data = "response.audio.delta"%string ->
  Main.drop_audio_until_cancelled s = false ->
  truthy (ev_delta data) = true ->
  b64decode (ev_delta data) = Returned pcm ->
  Main.output_stream s = Some Active ->
  Main.handle_message ws_open data s
  = (Returned Next, Main.set_is_ai_speaking true s, [StreamWrite pcm]).
Proof.
  intros Ht Hd Htr Hb Ho. unfold Main.handle_message. rewrite Ht. cbn.
  py_unfold. rewrite Hd, Htr, Ho. cbn. rewrite Hb.
  unfold Main.stream_write. py_unfold. cbn. rewrite Ho. reflexivity.
Qed.

Lemma LocalASR_audio_delta_played (ws_open : bool) (data : Event) (pcm : string)
      (s : LocalASR.Engine) :
  ev_type data = "response.audio.delta"%string ->
  LocalASR.drop_audio_until_cancelled s = false ->
  truthy (ev_delta data) = true ->
  b64decode (ev_delta data) = Returned pcm ->
  LocalASR.output_stream s = Some Active ->
  LocalASR.handle_message ws_open data s
  = (Returned Next, LocalASR.set_is_ai_speaking true s, [StreamWrite pcm]).
Proof.
  intros Ht Hd Htr Hb Ho. unfold LocalASR.handle_message. rewrite Ht. cbn.
  py_unfold. rewrite Hd, Htr, Ho. cbn. rewrite Hb.
  unfold LocalASR.stream_write. py_unfold. cbn. rewrite Ho. reflexivity.
Qed.

(** C1. While [drop_audio_until_cancelled] is set, audio-delta events are
    dropped however many arrive: handling them performs no effect at all (no
    decode, no write to the output stream) and leaves the engine as it was,
    in the server-VAD engine and in the local-VAD engine. *)
Theorem suppressed_audio_is_never_written (inbox : list (bool * Event)) :
  Forall (fun m => ev_type (snd m) = "response.audio.delta"%string) inbox ->
  (forall s : Main.Engine,
      Main.drop_audio_until_cancelled s = true ->
      Main.handle_messages inbox s = (s, [])) /\
  (forall s : LocalASR.Engine,
      LocalASR.drop_audio_until_cancelled s = true ->
      LocalASR.handle_messages inbox s = (s, [])).
Proof.
  induction 1 as [|[ws_open data] rest Hdelta _ [IHm IHl]]; [split; reflexivity|].
  cbn in Hdelta. split; intros s Hdrop; cbn [Main.handle_messages LocalASR.handle_messages].
  - rewrite Main_audio_delta_dropped by assumption. rewrite IHm by assumption. reflexivity.
  - rewrite LocalASR_audio_delta_dropped by assumption. rewrite IHl by assumption.
    reflexivity.
Qed.

End Interruption.

Lemma suppressed_audio_is_never_written_witness :
  let inbox := [(true, audio_delta "UklGRiQAAABXQVZF"); (false, audio_delta "AAAA");
                (true, audio_delta "")] in
  let m := Main.set_drop_audio_until_cancelled true (Main.engine Main.started) in
  let l := LocalASR.set_drop_audio_until_cancelled true
             (LocalASR.set_output_stream (Some Active) LocalASR.init) in
  Forall (fun m => ev_type (snd m) = "response.audio.delta"%string) inbox /\
  Main.handle_messages (ext := bench) inbox m = (m, []) /\
  LocalASR.handle_messages (ext := bench) inbox l = (l, []).
Proof.
  intros inbox m l.
  assert (H : Forall (fun m => ev_type (snd m) = "response.audio.delta"%string) inbox)
    by (repeat constructor).
  split; [exact H|].
  destruct (suppressed_audio_is_never_written (ext := bench) inbox H) as [Hm Hl].
  split; [apply Hm | apply Hl]; reflexivity.
Defined.

(** ** Cancellation failure reported by the server *)

Section CancellationFailure.
Context {ext : Externals}.

(** In the server-VAD engine an error whose message reports a failed
    cancellation clears the flag and does nothing else. *)
Lemma Main_cancellation_failure_clears (ws_open : bool) (data : Event) (message : string)
      (s : Main.Engine) :
  ev_type data = "error"%string ->
  error_message_of data = Returned (JStr message) ->
  str_in "Cancellation failed" message || str_in "no active response" message = true ->
  Main.handle_message ws_open data s
  = (Returned Next, Main.set_drop_audio_until_cancelled false s, []).
Proof.
  intros Ht Hm Hin. unfold Main.handle_message. rewrite Ht. cbn. py_unfold. rewrite Hm. cbn.
  destruct (str_in "Cancellation failed" message); cbn in *; [reflexivity|].
  rewrite Hin. reflexivity.
Qed.

(** In the local-VAD engine the handler of [error] events only prints. *)
Lemma LocalASR_error_is_only_logged (ws_open : bool) (data : Event) (message : Json)
      (s : LocalASR.Engine) :
  ev_type data = "error"%string ->
  error_message_of data = Returned message ->
  LocalASR.handle_message ws_open data s = (Returned Next, s, []).
Proof.
  intros Ht Hm. unfold LocalASR.handle_message. rewrite Ht. cbn. py_unfold. rewrite Hm.
  reflexivity.
Qed.

End CancellationFailure.

(** C2. The error "Cancellation failed: no active response found", received
    while the flag is set: the server-VAD engine clears the flag, the
    local-VAD engine leaves it set (and the engine unchanged), so that the
    audio delta that follows is still dropped. *)
Theorem cancellation_failure_local_asr_stays_muted :
  let data := error_event "Cancellation failed: no active response found" in
  let m := Main.set_drop_audio_until_cancelled true (Main.engine Main.started) in
  let l := LocalASR.set_drop_audio_until_cancelled true
             (LocalASR.set_is_running true
                (LocalASR.set_output_stream (Some Active) LocalASR.init)) in
  Main.handle_message (ext := bench) true data m
  = (Returned Next, Main.set_drop_audio_until_cancelled false m, []) /\
  LocalASR.handle_message (ext := bench) true data l = (Returned Next, l, []) /\
  LocalASR.drop_audio_until_cancelled l = true /\
  LocalASR.handle_messages (ext := bench) [(true, data); (true, audio_delta "AAAA")] l
  = (l, []).
Proof. vm_compute. repeat split. Qed.

(** ** The cancel request cannot be sent *)

Section CancelSendFailure.
Context {ext : Externals}.

(** C10. When the interruption is served and [ws.send] of the cancel request
    raises, the flag set at the start of the interruption is cleared again,
    although no confirmation came: an audio delta that arrives afterwards is
    written to the output stream.  The teardown of the output stream (its
    actions [tear] and the stream object [stream] it leaves) is the same
    whether the send returns or raises.  Both engines with a keyboard
    listener behave so. *)
Theorem cancel_send_failure_unmutes (fault : TeardownFault)
        (m : Main.Engine) (l : LocalASR.Engine) :
  Main.interrupt_flag m = true ->
  LocalASR.interrupt_flag l = true ->
  (exists (stream : option StreamState) (tear : Trace),
      (forall ws_open : bool,
          Main.keyboard_listener_step ws_open fault m
          = (Returned tt,
             Main.mkEngine stream (Main.is_running m) false (Main.session_id m) false ws_open,
             tear ++ [if ws_open then WsSend ResponseCancel else WsSendFailed ResponseCancel;
                      Sleep (1 # 20)])) /\
      (fault = NoFault -> is_Some (Main.output_stream m) ->
       stream = Some Active /\ tear = [StreamStop; StreamClose; StreamOpen]) /\
      (forall (ws_open : bool) (data : Event) (pcm : string),
          ev_type data = "response.audio.delta"%string ->
          truthy (ev_delta data) = true ->
          b64decode (ev_delta data) = Returned pcm ->
          stream = Some Active ->
          played
            (snd (Main.handle_message ws_open data
                    (Main.mkEngine stream (Main.is_running m) false (Main.session_id m)
                       false false)))
          = [pcm])) /\
  (exists (stream : option StreamState) (tear : Trace),
      (forall ws_open : bool,
          LocalASR.keyboard_listener_step ws_open fault l
          = (Returned tt,
             LocalASR.mkEngine stream (LocalASR.is_running l) false (LocalASR.session_id l)
               (LocalASR.speech_buffer l) (LocalASR.is_speaking l) (LocalASR.silence_start l)
               false ws_open,
             tear ++ [if ws_open then WsSend ResponseCancel else WsSendFailed ResponseCancel;
                      Sleep (1 # 20)])) /\
      (fault = NoFault -> is_Some (LocalASR.output_stream l) ->
       stream = Some Active /\ tear = [StreamStop; StreamClose; StreamOpen]) /\
      (forall (ws_open : bool) (data : Event) (pcm : string),
          ev_type data = "response.audio.delta"%string ->
          truthy (ev_delta data) = true ->
          b64decode (ev_delta data) = Returned pcm ->
          stream = Some Active ->
          played
            (snd (LocalASR.handle_message ws_open data
                    (LocalASR.mkEngine stream (LocalASR.is_running l) false
                       (LocalASR.session_id l) (LocalASR.speech_buffer l)
                       (LocalASR.is_speaking l) (LocalASR.silence_start l) false false)))
          = [pcm])).
Proof.
  intros Hm Hl. split.
  - destruct m as [os running speaking sid intr drop]. cbn in Hm. subst intr.
    exists (match os, fault with
            | None, _ => None
            | Some o, StopRaises => Some o
            | Some _, CloseRaises => Some Stopped
            | Some _, OpenRaises => Some Closed
            | Some _, NoFault => Some Active
            end),
           (match os, fault with
            | None, _ => []
            | Some _, StopRaises => [StreamStopFailed]
            | Some _, CloseRaises => [StreamStop; StreamCloseFailed]
            | Some _, OpenRaises => [StreamStop; StreamClose; StreamOpenFailed]
            | Some _, NoFault => [StreamStop; StreamClose; StreamOpen]
            end).
    split; [|split].
    + intros ws_open. destruct os, fault, ws_open; reflexivity.
    + intros -> [o Ho]. cbn in Ho. subst os. split; reflexivity.
    + intros ws_open data pcm Ht Htr Hb Hs.
      erewrite Main_audio_delta_played; eauto.
  - destruct l as [os running speaking sid buf talk since intr drop]. cbn in Hl. subst intr.
    exists (match os, fault with
            | None, _ => None
            | Some o, StopRaises => Some o
            | Some _, CloseRaises => Some Stopped
            | Some _, OpenRaises => Some Closed
            | Some _, NoFault => Some Active
            end),
           (match os, fault with
            | None, _ => []
            | Some _, StopRaises => [StreamStopFailed]
            | Some _, CloseRaises => [StreamStop; StreamCloseFailed]
            | Some _, OpenRaises => [StreamStop; StreamClose; StreamOpenFailed]
            | Some _, NoFault => [StreamStop; StreamClose; StreamOpen]
            end).
    split; [|split].
    + intros ws_open. destruct os, fault, ws_open; reflexivity.
    + intros -> [o Ho]. cbn in Ho. subst os. split; reflexivity.
    + intros ws_open data pcm Ht Htr Hb Hs.
      erewrite LocalASR_audio_delta_played; eauto.
Qed.

End CancelSendFailure.

Lemma cancel_send_failure_unmutes_witness :
  let m := Main.set_interrupt_flag true
             (Main.set_is_ai_speaking true (Main.engine Main.started)) in
  let l := LocalASR.set_interrupt_flag true
             (LocalASR.set_is_ai_speaking true
                (LocalASR.set_is_running true
                   (LocalASR.set_output_stream (Some Active) LocalASR.init))) in
  Main.interrupt_flag m = true /\
  LocalASR.interrupt_flag l = true /\
  Main.drop_audio_until_cancelled
    (snd (fst (Main.keyboard_listener_step false NoFault m))) = false /\
  LocalASR.drop_audio_until_cancelled
    (snd (fst (LocalASR.keyboard_listener_step false NoFault l))) = false.
Proof.
  intros m l.
  assert (Hm : Main.interrupt_flag m = true) by reflexivity.
  assert (Hl : LocalASR.interrupt_flag l = true) by reflexivity.
  destruct (cancel_send_failure_unmutes (ext := bench) NoFault m l Hm Hl)
    as [(sm & tm & Em & _) (sl & tl & El & _)].
  split; [exact Hm|]. split; [exact Hl|].
  rewrite (Em false), (El false). split; reflexivity.
Defined.

(** ** How long the suppress flag stays set *)

Section FlagLifetime.
Context {ext : Externals}.

Lemma Main_handle_message_keeps_suppression (ws_open : bool) (data : Event)
      (s : Main.Engine) :
  suppressing s ->
  releases_suppression (Main.Inbound ws_open data) = false ->
  suppressing (snd (fst (Main.handle_message ws_open data s))).
Proof.
  intros (Hd & Hai & Hi). destruct s as [os running ai sid intr drop].
  cbn in Hd, Hai, Hi. subst drop ai intr.
  unfold releases_suppression, reports_cancellation_failure, Main.handle_message.
  cbv zeta.
  repeat match goal with
         | |- context [String.eqb (ev_type data) ?lit] =>
             destruct (String.eqb (ev_type data) lit) eqn:?; cbv iota; cbn [orb andb];
             try (intros H; discriminate H);
             try solve [intros _; cbn -[Tools.execute_function]; repeat split]
         end.
  all: intros H; py_unfold; cbn in *.
  all: try destruct (session_id_of data).
  all: try (destruct (error_message_of data) as [error_msg|];
            [destruct (py_in "Cancellation failed" error_msg) as [[|]|];
             [|destruct (py_in "no active response" error_msg) as [[|]|]|]|]).
  all: cbn in *; try discriminate; repeat split.
Qed.

Lemma Main_audio_input_step_keeps_flags (ws_open : bool) (read : Outcome Frame)
      (s : Main.Engine) :
  suppressing s ->
  suppressing (snd (fst (Main.audio_input_step ws_open read s))).
Proof.
  intros (Hd & Hai & Hi). destruct s as [os running ai sid intr drop].
  cbn in Hd, Hai, Hi. subst drop ai intr.
  destruct read, ws_open; cbn; repeat split.
Qed.

Lemma Main_keyboard_poll_is_idle (ws_open : bool) (fault : TeardownFault)
      (s : Main.Engine) :
  suppressing s ->
  suppressing (snd (fst (Main.keyboard_listener_step ws_open fault s))).
Proof.
  intros (Hd & Hai & Hi). destruct s as [os running ai sid intr drop].
  cbn in Hd, Hai, Hi. subst drop ai intr. cbn. repeat split.
Qed.

Lemma Main_step_keeps_suppression (x : Main.Step) (st : Main.Tasks) :
  suppressing (Main.engine st) ->
  releases_suppression x = false ->
  suppressing (Main.engine (fst (Main.step x st))).
Proof.
  intros Hs Hx. destruct x as [ws_open data|ws_open read|ws_open fault|]; cbn [Main.step].
  - destruct (Main.handling st); [|exact Hs].
    pose proof (Main_handle_message_keeps_suppression ws_open data _ Hs Hx) as Hk.
    destruct (Main.handle_message ws_open data (Main.engine st)) as [[r s1] t1].
    destruct r as [[]|e]; exact Hk.
  - destruct (Main.capturing st && Main.is_running (Main.engine st)); [|exact Hs].
    pose proof (Main_audio_input_step_keeps_flags ws_open read _ Hs) as Hk.
    destruct (Main.audio_input_step ws_open read (Main.engine st)) as [[r s1] t1].
    destruct r as [[]|e]; exact Hk.
  - destruct (Main.is_running (Main.engine st)); [|exact Hs].
    pose proof (Main_keyboard_poll_is_idle ws_open fault _ Hs) as Hk.
    destruct (Main.keyboard_listener_step ws_open fault (Main.engine st)) as [[r s1] t1].
    exact Hk.
  - cbn. unfold Main.enter_pressed. destruct Hs as (Hd & Hai & Hi). rewrite Hai.
    repeat split; assumption.
Qed.

Lemma suppression_is_kept (schedule : list Main.Step) (st : Main.Tasks) :
  suppressing (Main.engine st) ->
  Forall (fun x => releases_suppression x = false) schedule ->
  suppressing (Main.engine (fst (Main.run schedule st))).
Proof.
  intros Hs Hall. revert st Hs.
  induction Hall as [|x rest Hx _ IH]; intros st Hs; [exact Hs|].
  cbn [Main.run].
  pose proof (Main_step_keeps_suppression x st Hs Hx) as Hk.
  destruct (Main.step x st) as [st1 t1]. cbn in Hk.
  specialize (IH st1 Hk).
  destruct (Main.run rest st1) as [st2 t2]. exact IH.
Qed.

(** The keyboard poll that serves an interruption and gets its cancel
    request out leaves the engine suppressing. *)
Lemma interruption_starts_suppression (fault : TeardownFault) (s : Main.Engine) :
  Main.interrupt_flag s = true ->
  suppressing (snd (fst (Main.keyboard_listener_step true fault s))).
Proof.
  intros Hi. destruct s as [os running ai sid intr drop]. cbn in Hi. subst intr.
  destruct os, fault; cbn; repeat split.
Qed.

(** C3, as amended.  Once the keyboard poll has served an interruption (the
    cancel request went out), the suppress flag is set, and it is still set
    after every schedule of engine steps (inbound events, captured frames,
    keyboard polls, key presses) in which no cancellation confirmation, no
    cancellation-failure error and no completed function call is handled;
    sending a function result resets the flag. *)
Theorem suppress_flag_stays_set (fault : TeardownFault) (schedule : list Main.Step)
        (st : Main.Tasks) :
  Main.is_running (Main.engine st) = true ->
  Main.interrupt_flag (Main.engine st) = true ->
  Forall (fun x => releases_suppression x = false) schedule ->
  Main.drop_audio_until_cancelled
    (Main.engine (fst (Main.run (Main.KeyboardPoll true fault :: schedule) st))) = true.
Proof.
  intros Hrun Hi Hall. cbn [Main.run Main.step]. rewrite Hrun.
  pose proof (interruption_starts_suppression fault (Main.engine st) Hi) as Hs.
  destruct (Main.keyboard_listener_step true fault (Main.engine st)) as [[r s1] t1].
  cbn [fst snd] in Hs.
  pose proof (suppression_is_kept schedule
                (Main.mkTasks s1 (Main.handling st) (Main.capturing st)) Hs Hall)
    as (Hd & _).
  destruct (Main.run schedule _) as [st2 t2]. exact Hd.
Qed.

End FlagLifetime.

Lemma suppress_flag_stays_set_witness :
  let speaking :=
    fst (Main.run (ext := bench)
           [Main.Inbound true (audio_delta "AAAA"); Main.EnterPressed] Main.started) in
  let schedule :=
    [Main.Inbound true (audio_delta "BBBB"); Main.Captured true (Returned [0; 12; -7]%Z);
     Main.Inbound true (event "response.audio.done"); Main.Inbound true (event "response.done");
     Main.Inbound true (error_event "rate limit reached"); Main.EnterPressed;
     Main.KeyboardPoll false NoFault; Main.Inbound true (event "session.updated")] in
  Main.is_running (Main.engine speaking) = true /\
  Main.interrupt_flag (Main.engine speaking) = true /\
  Forall (fun x => releases_suppression x = false) schedule /\
  Main.drop_audio_until_cancelled
    (Main.engine
       (fst (Main.run (ext := bench) (Main.KeyboardPoll true NoFault :: schedule) speaking)))
  = true.
Proof.
  intros speaking schedule.
  assert (Hrun : Main.is_running (Main.engine speaking) = true) by reflexivity.
  assert (Hi : Main.interrupt_flag (Main.engine speaking) = true) by reflexivity.
  assert (Hall : Forall (fun x => releases_suppression x = false) schedule)
    by (repeat constructor).
  split; [exact Hrun|]. split; [exact Hi|]. split; [exact Hall|].
  exact (suppress_flag_stays_set (ext := bench) NoFault schedule speaking Hrun Hi Hall).
Defined.

(** C3, as stated, fails: after the keyboard poll has served an interruption
    and set the flag, the handling of a completed function call clears it,
    although the event is neither a cancellation confirmation nor an
    error. *)
Lemma function_result_clears_suppress_flag :
  let speaking :=
    fst (Main.run (ext := bench)
           [Main.Inbound true (audio_delta "AAAA"); Main.EnterPressed] Main.started) in
  let interrupted :=
    fst (Main.run (ext := bench) [Main.KeyboardPoll true NoFault] speaking) in
  let data := function_call "call_1" "get_weather" "{}" in
  Main.interrupt_flag (Main.engine speaking) = true /\
  Main.drop_audio_until_cancelled (Main.engine interrupted) = true /\
  ev_type data <> "response.cancelled"%string /\
  ev_type data <> "error"%string /\
  Main.drop_audio_until_cancelled
    (Main.engine (fst (Main.run (ext := bench) [Main.Inbound true data] interrupted)))
  = false.
Proof.
  cbv zeta. split; [vm_compute; reflexivity|]. split; [vm_compute; reflexivity|].
  split; [discriminate|]. split; [discriminate|]. vm_compute. reflexivity.
Qed.

(** ** The end-conversation tool call *)

Section EndConversation.
Context {ext : Externals}.

Lemma execute_function_returns (S : Type) (function_name : string) (arguments : Json)
      (s : S) :
  exists result : Json,
    Tools.execute_function function_name arguments s = (Returned result, s, []).
Proof.
  unfold Tools.execute_function.
  destruct (bool_decide (function_name ∈ dom Tools.FUNCTION_MAP)); cbn [negb].
  - py_unfold. destruct (Tools.getitem function_name) as [func|e]; [|eauto].
    destruct (Tools.call_with_kwargs func arguments); eauto.
  - unfold ret. eauto.
Qed.

(** After the handler has returned with [is_running] cleared, no coroutine
    performs any effect. *)
Lemma Main_stopped_is_silent (schedule : list Main.Step) (st : Main.Tasks) :
  Main.is_running (Main.engine st) = false ->
  Main.handling st = false ->
  snd (Main.run schedule st) = [].
Proof.
  revert st. induction schedule as [|x rest IH]; intros st Hrun Hh; [reflexivity|].
  cbn [Main.run].
  assert (Hstep : snd (Main.step x st) = [] /\
                  Main.is_running (Main.engine (fst (Main.step x st))) = false /\
                  Main.handling (fst (Main.step x st)) = false).
  { destruct x as [ws_open data|ws_open read|ws_open fault|]; cbn [Main.step].
    - rewrite Hh. auto.
    - rewrite Hrun, andb_false_r. auto.
    - rewrite Hrun. auto.
    - cbn. unfold Main.enter_pressed.
      destruct (Main.is_ai_speaking (Main.engine st)); auto. }
  destruct (Main.step x st) as [st1 t1]. cbn in Hstep. destruct Hstep as (-> & Hr1 & Hh1).
  specialize (IH st1 Hr1 Hh1).
  destruct (Main.run rest st1) as [st2 t2]. cbn in IH. subst t2. reflexivity.
Qed.

(** C8, as amended.  A function-call-arguments-done event that names
    [end_conversation], whose arguments string is valid JSON, handled while
    the connection takes the sends: the engine sends one function result (and
    the response request that goes with it), waits two seconds, clears
    [is_running] and leaves the handler; nothing follows the wait, and no
    later step of any coroutine sends a response request or a function
    result. *)
Theorem end_conversation_shuts_down (data : Event) (arguments : Json) (st : Main.Tasks) :
  ev_type data = "response.function_call_arguments.done"%string ->
  ev_name data = "end_conversation"%string ->
  json_loads (ev_arguments data) = Returned arguments ->
  Main.handling st = true ->
  exists result : Json,
    let stopped :=
      Main.mkTasks
        (Main.set_is_running false
           (Main.set_drop_audio_until_cancelled false (Main.engine st)))
        false (Main.capturing st) in
    Main.step (Main.Inbound true data) st
    = (stopped,
       [WsSend (ItemFunctionCallOutput (ev_call_id data) result);
        WsSend (ResponseCreate None);
        Sleep 2]) /\
    forall schedule : list Main.Step,
      Forall (fun m => is_response_create m = false /\ is_function_output m = false)
             (send_calls (snd (Main.run schedule stopped))).
Proof.
  intros Ht Hn Hj Hh.
  destruct (execute_function_returns Main.Engine "end_conversation" arguments
              (Main.engine st)) as [result Hres].
  exists result. cbv zeta. split.
  - cbn [Main.step]. rewrite Hh. unfold Main.handle_message. rewrite Ht, Hn.
    cbn -[Tools.execute_function]. rewrite Hj. py_unfold.
    cbn -[Tools.execute_function]. rewrite Hres. reflexivity.
  - intros schedule. rewrite Main_stopped_is_silent by reflexivity. constructor.
Qed.

End EndConversation.

Lemma end_conversation_shuts_down_witness :
  let data := function_call "call_7" "end_conversation" "{}" in
  ev_type data = "response.function_call_arguments.done"%string /\
  ev_name data = "end_conversation"%string /\
  json_loads (Externals := bench) (ev_arguments data) = Returned (JDict []) /\
  Main.handling Main.started = true /\
  Main.is_running (Main.engine (fst (Main.step (ext := bench) (Main.Inbound true data)
                                       Main.started))) = false.
Proof.
  intros data.
  assert (Ht : ev_type data = "response.function_call_arguments.done"%string) by reflexivity.
  assert (Hn : ev_name data = "end_conversation"%string) by reflexivity.
  assert (Hj : json_loads (Externals := bench) (ev_arguments data) = Returned (JDict []))
    by reflexivity.
  assert (Hh : Main.handling Main.started = true) by reflexivity.
  destruct (end_conversation_shuts_down (ext := bench) data (JDict []) Main.started
              Ht Hn Hj Hh) as [result [Hstep _]].
  repeat (split; [assumption|]).
  rewrite Hstep. reflexivity.
Defined.

(** C8, as stated, fails.  An event that names [end_conversation] with an
    empty arguments string makes [json.loads] raise: the engine sends the
    error as the function result together with a response request, does not
    wait, keeps [is_running] set and goes on handling events.  And when the
    connection refuses the sends, no function result goes out, the handler
    ends on the exception and [is_running] stays set. *)
Lemma end_conversation_without_shutdown :
  let malformed := function_call "call_9" "end_conversation" "" in
  let wellformed := function_call "call_7" "end_conversation" "{}" in
  ev_name malformed = "end_conversation"%string /\
  Main.step (ext := bench) (Main.Inbound true malformed) Main.started
  = (Main.started,
     [WsSend (ItemFunctionCallOutput (Some "call_9"%string)
                (JDict [("error"%string,
                         JStr "Expecting value: line 1 column 1 (char 0)")]));
      WsSend (ResponseCreate None)]) /\
  Main.is_running (Main.engine Main.started) = true /\
  ev_name wellformed = "end_conversation"%string /\
  Main.step (ext := bench) (Main.Inbound false wellformed) Main.started
  = (Main.mkTasks (Main.engine Main.started) false true,
     [WsSendFailed
        (ItemFunctionCallOutput (Some "call_7"%string)
           (JDict [("status"%string, JStr "conversation_ended");
                   ("message"%string, JStr "好的，再见！祝你有美好的一天！");
                   ("timestamp"%string, JStr "2025-01-01 12:00:00")]));
      WsSendFailed
        (ItemFunctionCallOutput (Some "call_7"%string)
           (JDict [("error"%string, JStr "connection closed")]))]).
Proof. vm_compute. repeat split. Qed.

(** ** What a captured frame sends *)

Section Capture.

Lemma Legacy_energy_defined (audio_data : Frame) :
  audio_data <> [] ->
  exists level : Z, Legacy.calculate_audio_energy audio_data = Returned level.
Proof. destruct audio_data; [congruence|]. intros _. eexists. reflexivity. Qed.

Lemma Legacy_preprocess_defined (cfg : Legacy.Config) (audio_data : Frame) :
  audio_data <> [] ->
  exists processed : Frame, Legacy.preprocess_audio cfg audio_data = Returned processed.
Proof.
  intros Hne. destruct (Legacy_energy_defined audio_data Hne) as [level Hlevel].
  unfold Legacy.preprocess_audio, Legacy.apply_noise_gate. rewrite Hlevel.
  destruct (Legacy.ENABLE_NOISE_GATE cfg), (Legacy.ENABLE_GAIN_CONTROL cfg),
    (level <? Legacy.NOISE_GATE_THRESHOLD cfg)%Z; eauto.
Qed.

(** C4, as amended.  A frame read by the capture loop of the server-VAD
    engine causes no send while [is_ai_speaking] is set and exactly one
    append-audio send otherwise.  In the first client a frame read while the
    connection test passes is skipped only if [is_ai_speaking] is set, the
    echo-cancellation switch is on and barge-in is not triggered (the level
    does not exceed the threshold, or a cancel request is already out); in
    every other case exactly one append-audio send is made, with the
    preprocessed frame. *)
Theorem captured_frame_transmission (cfg : Legacy.Config) (ws_open : bool)
        (audio_data : Frame) (m : Main.Engine) (l : Legacy.Engine) :
  audio_data <> [] ->
  send_calls (snd (Main.audio_input_step ws_open (Returned audio_data) m))
  = (if Main.is_ai_speaking m then [] else [InputAudioBufferAppend audio_data]) /\
  exists (level : Z) (processed : Frame),
    Legacy.calculate_audio_energy audio_data = Returned level /\
    Legacy.preprocess_audio cfg audio_data = Returned processed /\
    filter (fun msg => is_append msg = true)
      (send_calls (snd (Legacy.audio_input_step cfg false ws_open (Returned audio_data) l)))
    = (if Legacy.is_ai_speaking l && Legacy.ENABLE_ECHO_CANCELLATION cfg
          && negb ((level >? Legacy.INTERRUPT_THRESHOLD cfg)%Z && negb (Legacy.cancel_sent l))
       then []
       else [InputAudioBufferAppend processed]).
Proof.
  intros Hne. split.
  - unfold Main.audio_input_step. py_unfold.
    destruct (Main.is_ai_speaking m), ws_open; reflexivity.
  - destruct (Legacy_energy_defined audio_data Hne) as [level Hlevel].
    destruct (Legacy_preprocess_defined cfg audio_data Hne) as [processed Hproc].
    exists level, processed. split; [exact Hlevel|]. split; [exact Hproc|].
    destruct l as [os running speaking sid cancelling].
    unfold Legacy.audio_input_step. py_unfold. cbn. rewrite Hlevel, Hproc.
    destruct speaking, (Legacy.ENABLE_ECHO_CANCELLATION cfg),
      (level >? Legacy.INTERRUPT_THRESHOLD cfg)%Z, cancelling, ws_open, running;
      reflexivity.
Qed.

(** With the switches as the file sets them the first client sends every
    frame, whether the AI speaks or not. *)
Lemma Legacy_shipped_sends_every_frame (ws_open : bool) (audio_data : Frame)
      (l : Legacy.Engine) :
  send_calls (snd (Legacy.audio_input_step Legacy.shipped false ws_open
                     (Returned audio_data) l))
  = [InputAudioBufferAppend audio_data].
Proof.
  destruct l as [os running speaking sid cancelling].
  unfold Legacy.audio_input_step. py_unfold. cbn. rewrite andb_false_r.
  destruct ws_open, running; reflexivity.
Qed.

End Capture.

Lemma captured_frame_transmission_witness :
  let audio_data := [120; -340; 15; 0]%Z in
  let m := Main.engine Main.started in
  let l := Legacy.mkEngine (Some Active) true false None false in
  audio_data <> [] /\
  send_calls (snd (Main.audio_input_step true (Returned audio_data) m))
  = [InputAudioBufferAppend audio_data].
Proof.
  intros audio_data m l.
  assert (Hne : audio_data <> []) by discriminate.
  split; [exact Hne|].
  exact (proj1 (captured_frame_transmission Legacy.shipped true audio_data m l Hne)).
Defined.

(** C4, as stated, fails in the first client.  With the switches as the
    file sets them, a frame read while [is_ai_speaking] is set is sent; and
    a frame read while the AI is silent is not sent when the connection test
    finds the socket closed (the loop ends instead). *)
Lemma legacy_client_transmits_while_ai_speaks :
  let audio_data := [120; -340; 15; 0]%Z in
  let speaking := Legacy.mkEngine (Some Active) true true None false in
  let silent := Legacy.mkEngine (Some Active) true false None false in
  Legacy.is_ai_speaking speaking = true /\
  Legacy.audio_input_step Legacy.shipped false true (Returned audio_data) speaking
  = (Returned Again, speaking,
     [WsSend (InputAudioBufferAppend audio_data); Sleep (1 # 100)]) /\
  Legacy.is_ai_speaking silent = false /\
  Legacy.audio_input_step Legacy.shipped true false (Returned audio_data) silent
  = (Returned Break, silent, []).
Proof. vm_compute. repeat split. Qed.

(** ** The utterance segmenter *)

Section Segmenter.
Context {ext : Externals}.

Lemma min_speech_chunks :
  py_int (inject_Z LocalASR.SAMPLE_RATE * LocalASR.MIN_SPEECH_DURATION
          / inject_Z LocalASR.CHUNK_SIZE) = 4%Z.
Proof. reflexivity. Qed.

Lemma transcribed_app (t1 t2 : Trace) :
  transcribed (t1 ++ t2) = transcribed t1 ++ transcribed t2.
Proof. apply omap_app. Qed.

Lemma utterances_closed_app (t1 t2 : Trace) :
  utterances_closed (t1 ++ t2) = (utterances_closed t1 + utterances_closed t2)%nat.
Proof. unfold utterances_closed. rewrite omap_app, length_app. reflexivity. Qed.

(** [_process_speech] always returns and leaves the engine as it was; the
    transcriber is called exactly when the buffer holds four chunks or
    more. *)
Lemma process_speech_outcome (ws_open : bool) (s : LocalASR.Engine) :
  exists t : Trace,
    LocalASR._process_speech ws_open s = (Returned tt, s, t) /\
    transcribed t
    = (if (Z.of_nat (length (LocalASR.speech_buffer s)) <? 4)%Z
       then [] else [LocalASR.speech_buffer s]) /\
    utterances_closed t = 0%nat.
Proof.
  unfold LocalASR._process_speech. py_unfold. rewrite min_speech_chunks.
  destruct (Z.of_nat (length (LocalASR.speech_buffer s)) <? 4)%Z.
  - eexists. repeat split.
  - unfold LocalASR._send_text_to_openai. py_unfold.
    destruct (whisper_transcribe (LocalASR.speech_buffer s)) as [[text language]|e]; cbn.
    + destruct (truthy (py_strip text)), ws_open; cbn; eexists; repeat split.
    + eexists. repeat split.
Qed.

(** A chunk that was read never ends the loop and touches neither
    [is_running] nor [is_ai_speaking]. *)
Lemma delivered_step_goes_on (ws_open : bool) (now : Q) (audio_data : Frame)
      (s : LocalASR.Engine) :
  exists (s1 : LocalASR.Engine) (t1 : Trace),
    LocalASR.audio_input_step ws_open now (Returned audio_data) s = (Returned Again, s1, t1) /\
    LocalASR.is_running s1 = LocalASR.is_running s /\
    LocalASR.is_ai_speaking s1 = LocalASR.is_ai_speaking s.
Proof.
  destruct (process_speech_outcome ws_open s) as (tp & Hp & _).
  unfold LocalASR.audio_input_step. py_unfold. cbn -[LocalASR._process_speech].
  destruct (LocalASR.is_ai_speaking s) eqn:Hai; cbn -[LocalASR._process_speech]; [eauto|].
  destruct (LocalASR.above_threshold audio_data); cbn -[LocalASR._process_speech].
  - destruct (LocalASR.is_speaking s); cbn -[LocalASR._process_speech];
      eexists _, _; repeat split; exact Hai.
  - destruct (LocalASR.is_speaking s); cbn -[LocalASR._process_speech];
      [|eexists _, _; repeat split; exact Hai].
    destruct (LocalASR.silence_start s) as [since|]; cbn -[LocalASR._process_speech];
      [|eexists _, _; repeat split; exact Hai].
    destruct (Qgtb (now - since) LocalASR.SILENCE_DURATION); cbn -[LocalASR._process_speech];
      [|eexists _, _; repeat split; exact Hai].
    rewrite Hp. cbn -[LocalASR._process_speech]. eexists _, _; repeat split; exact Hai.
Qed.

Lemma start_audio_input_app (chunks : list (bool * Q * Frame))
      (rest : list (bool * Q * Outcome Frame)) (s : LocalASR.Engine) :
  LocalASR.is_running s = true ->
  LocalASR.start_audio_input (map delivered chunks ++ rest) s
  = (let '(s1, t1) := LocalASR.start_audio_input (map delivered chunks) s in
     let '(s2, t2) := LocalASR.start_audio_input rest s1 in
     (s2, t1 ++ t2)) /\
  LocalASR.is_running (fst (LocalASR.start_audio_input (map delivered chunks) s)) = true.
Proof.
  revert s. induction chunks as [|[[ws_open now] audio_data] chunks IH]; intros s Hrun.
  - cbn. destruct (LocalASR.start_audio_input rest s). auto.
  - cbn [map app delivered fst snd LocalASR.start_audio_input]. rewrite Hrun.
    destruct (delivered_step_goes_on ws_open now audio_data s) as (s1 & t1 & -> & Hr1 & _).
    rewrite Hrun in Hr1. destruct (IH s1 Hr1) as [-> Hr2].
    destruct (LocalASR.start_audio_input (map delivered chunks) s1) as [s2 t2].
    destruct (LocalASR.start_audio_input rest s2) as [s3 t3].
    rewrite app_assoc. auto.
Qed.

Lemma background_chunks_accumulate (chunks : list (bool * Q * Frame))
      (s : LocalASR.Engine) :
  LocalASR.is_running s = true ->
  LocalASR.is_ai_speaking s = false ->
  LocalASR.is_speaking s = false ->
  Forall (fun c => LocalASR.above_threshold (audio c) = false) chunks ->
  LocalASR.start_audio_input (map delivered chunks) s
  = (LocalASR.set_speech_buffer (LocalASR.speech_buffer s ++ map audio chunks) s,
     map (fun _ => Sleep (1 # 1000)) chunks).
Proof.
  intros Hrun Hai Hsp Hall. revert s Hrun Hai Hsp.
  induction Hall as [|[[ws_open now] audio_data] chunks Hq _ IH]; intros s Hrun Hai Hsp.
  - cbn. rewrite app_nil_r. destruct s; reflexivity.
  - cbn in Hq. cbn [map delivered fst snd LocalASR.start_audio_input]. rewrite Hrun.
    unfold LocalASR.audio_input_step. py_unfold. cbn. rewrite Hai, Hq, Hsp. cbn.
    rewrite IH by assumption. cbn. rewrite <- app_assoc. reflexivity.
Qed.

Lemma loud_chunks_accumulate (c : bool * Q * Frame) (chunks : list (bool * Q * Frame))
      (s : LocalASR.Engine) :
  LocalASR.is_running s = true ->
  LocalASR.is_ai_speaking s = false ->
  Forall (fun c => LocalASR.above_threshold (audio c) = true) (c :: chunks) ->
  exists t : Trace,
    LocalASR.start_audio_input (map delivered (c :: chunks)) s
    = (LocalASR.mkEngine (LocalASR.output_stream s) true false (LocalASR.session_id s)
         (LocalASR.speech_buffer s ++ map audio (c :: chunks)) true None
         (LocalASR.interrupt_flag s) (LocalASR.drop_audio_until_cancelled s),
       t) /\
    transcribed t = [] /\ utterances_closed t = 0%nat.
Proof.
  intros Hrun Hai Hall. revert c s Hrun Hai Hall.
  induction chunks as [|c' chunks IH]; intros [[ws_open now] audio_data] s Hrun Hai Hall;
    inversion Hall as [|? ? Hc Hrest]; subst; cbn in Hc;
    destruct s as [os running ai sid buf talking since intr drop];
    cbn in Hrun, Hai; subst running ai.
  - cbn [map delivered fst snd LocalASR.start_audio_input LocalASR.is_running].
    unfold LocalASR.audio_input_step. py_unfold. cbn. rewrite Hc. cbn.
    destruct talking; cbn; eexists; repeat split.
  - change (map delivered ((ws_open, now, audio_data) :: c' :: chunks))
      with ((ws_open, now, Returned audio_data) :: map delivered (c' :: chunks)).
    cbn [LocalASR.start_audio_input LocalASR.is_running].
    unfold LocalASR.audio_input_step. py_unfold. cbn -[map LocalASR.start_audio_input].
    rewrite Hc. cbn -[map LocalASR.start_audio_input].
    destruct talking; cbn -[map LocalASR.start_audio_input].
    all: match goal with
         | |- context [LocalASR.start_audio_input _ ?s1] =>
             destruct (IH c' s1 eq_refl eq_refl Hrest) as (t & -> & Ht & Hu)
         end.
    all: cbn -[map]; eexists; split;
      [rewrite <- app_assoc; reflexivity|].
    all: unfold transcribed, utterances_closed in *; cbn -[map];
      rewrite ?Ht, ?Hu; split; reflexivity.
Qed.

Lemma transcribed_cons_console (n : Note) (t : Trace) :
  transcribed (Console n :: t) = transcribed t.
Proof. reflexivity. Qed.

Lemma transcribed_cons_sleep (d : Q) (t : Trace) :
  transcribed (Sleep d :: t) = transcribed t.
Proof. reflexivity. Qed.

Lemma utterances_closed_cons_ended (t : Trace) :
  utterances_closed (Console SpeechEnded :: t) = S (utterances_closed t).
Proof. reflexivity. Qed.

Lemma utterances_closed_cons_sleep (d : Q) (t : Trace) :
  utterances_closed (Sleep d :: t) = utterances_closed t.
Proof. reflexivity. Qed.

Lemma sleeping_is_quiet (A : Type) (l : list A) (d : Q) :
  transcribed (map (fun _ => Sleep d) l) = [] /\
  utterances_closed (map (fun _ => Sleep d) l) = 0%nat.
Proof. induction l as [|x l [IH1 IH2]]; split; auto. Qed.

(** While an utterance is open, silence that outlasts [SILENCE_DURATION]
    closes it exactly once; the transcriber gets the buffer if it holds four
    chunks or more. *)
Lemma silence_closes_once (since : Q) (chunks : list (bool * Q * Frame))
      (s : LocalASR.Engine) :
  LocalASR.is_running s = true ->
  LocalASR.is_ai_speaking s = false ->
  LocalASR.is_speaking s = true ->
  LocalASR.silence_start s = Some since ->
  Forall (fun c => LocalASR.above_threshold (audio c) = false) chunks ->
  Exists (fun c => Qgtb (clock c - since) LocalASR.SILENCE_DURATION = true) chunks ->
  exists (s' : LocalASR.Engine) (t : Trace),
    LocalASR.start_audio_input (map delivered chunks) s = (s', t) /\
    transcribed t
    = (if (Z.of_nat (length (LocalASR.speech_buffer s)) <? 4)%Z
       then [] else [LocalASR.speech_buffer s]) /\
    utterances_closed t = 1%nat.
Proof.
  intros Hrun Hai Hsp Hsince Hall Hex.
  induction Hall as [|[[ws_open now] audio_data] chunks Hq Hrest IH];
    [inversion Hex|].
  cbn in Hq. cbn [map delivered fst snd LocalASR.start_audio_input]. rewrite Hrun.
  unfold LocalASR.audio_input_step. py_unfold. cbn -[LocalASR._process_speech].
  rewrite Hai, Hq, Hsp, Hsince. cbn -[LocalASR._process_speech].
  destruct (Qgtb (now - since) LocalASR.SILENCE_DURATION) eqn:Hlate;
    cbn -[LocalASR._process_speech].
  - destruct (process_speech_outcome ws_open s) as (tp & -> & Htp & Hup).
    cbn -[LocalASR.start_audio_input].
    rewrite background_chunks_accumulate by (assumption || reflexivity).
    destruct (sleeping_is_quiet _ chunks (1 # 1000)) as [Hs1 Hs2].
    eexists _, _. split; [reflexivity|].
    rewrite transcribed_cons_console, utterances_closed_cons_ended.
    rewrite !transcribed_app, !utterances_closed_app, Htp, Hup, Hs1, Hs2.
    cbn. rewrite !app_nil_r. split; reflexivity.
  - inversion Hex as [? ? Hhead|? ? Htail]; subst;
      [cbn in Hhead; congruence|].
    destruct (IH Htail) as (s' & t & -> & Ht & Hu).
    eexists _, _. split; [reflexivity|].
    rewrite transcribed_cons_sleep, utterances_closed_cons_sleep, Ht, Hu.
    split; reflexivity.
Qed.

Lemma last_reading_is_late (since latest : Q) (chunks : list (bool * Q * Frame)) :
  last (map clock chunks) = Some latest ->
  (LocalASR.SILENCE_DURATION < latest - since)%Q ->
  Exists (fun c => Qgtb (clock c - since) LocalASR.SILENCE_DURATION = true) chunks.
Proof.
  intros Hlast Hlate. induction chunks as [|c chunks IH]; [discriminate|].
  destruct chunks as [|c' chunks].
  - cbn in Hlast. injection Hlast as <-. constructor 1.
    unfold Qgtb. apply negb_true_iff. apply not_true_iff_false. intros Hle.
    apply Qle_bool_iff in Hle. lra.
  - constructor 2. apply IH. exact Hlast.
Qed.

(** C6. Five chunks below the threshold, ten above, then twenty below whose
    clock readings span more than [SILENCE_DURATION], fed to the capture loop
    of a freshly started engine while the AI is silent: the loop closes
    exactly one utterance, and the buffer handed to the transcriber is the
    five pre-roll chunks followed by the ten loud ones. *)
Theorem one_utterance_is_segmented (pre loud post : list (bool * Q * Frame))
        (first latest : Q) (s : LocalASR.Engine) :
  LocalASR.is_running s = true ->
  LocalASR.is_ai_speaking s = false ->
  LocalASR.is_speaking s = false ->
  LocalASR.speech_buffer s = [] ->
  length pre = 5%nat -> length loud = 10%nat -> length post = 20%nat ->
  Forall (fun c => LocalASR.above_threshold (audio c) = false) pre ->
  Forall (fun c => LocalASR.above_threshold (audio c) = true) loud ->
  Forall (fun c => LocalASR.above_threshold (audio c) = false) post ->
  head (map clock post) = Some first ->
  last (map clock post) = Some latest ->
  (LocalASR.SILENCE_DURATION < latest - first)%Q ->
  let t := snd (LocalASR.start_audio_input (map delivered (pre ++ loud ++ post)) s) in
  utterances_closed t = 1%nat /\
  transcribed t = [map audio pre ++ map audio loud].
Proof.
  intros Hrun Hai Hsp Hbuf Lpre Lloud Lpost Qpre Qloud Qpost Hfirst Hlast Hspan t.
  subst t. rewrite !map_app.
  destruct (start_audio_input_app pre (map delivered loud ++ map delivered post) s Hrun)
    as [-> _].
  rewrite (background_chunks_accumulate pre s Hrun Hai Hsp Qpre), Hbuf. cbn [app].
  set (s1 := LocalASR.set_speech_buffer (map audio pre) s).
  assert (Hrun1 : LocalASR.is_running s1 = true) by exact Hrun.
  assert (Hai1 : LocalASR.is_ai_speaking s1 = false) by exact Hai.
  destruct (start_audio_input_app loud (map delivered post) s1 Hrun1) as [-> _].
  destruct loud as [|c loud]; [discriminate|].
  destruct (loud_chunks_accumulate c loud s1 Hrun1 Hai1 Qloud) as (t2 & -> & Ht2 & Hu2).
  set (s2 := LocalASR.mkEngine _ _ _ _ _ _ _ _ _).
  destruct post as [|[[ws_open now] quiet] post]; [discriminate|].
  cbn in Hfirst. injection Hfirst as <-.
  inversion Qpost as [|? ? Hq Qrest]; subst. cbn in Hq.
  assert (Hex : Exists (fun c => Qgtb (clock c - now) LocalASR.SILENCE_DURATION = true) post).
  { destruct post as [|c' post];
      [|exact (last_reading_is_late now latest (c' :: post) Hlast Hspan)].
    cbn in Hlast. injection Hlast as <-. exfalso. unfold LocalASR.SILENCE_DURATION in Hspan.
    lra. }
  cbn [map delivered fst snd LocalASR.start_audio_input]. cbn [LocalASR.is_running s2].
  unfold LocalASR.audio_input_step. py_unfold. cbn -[LocalASR.start_audio_input map].
  rewrite Hq. cbn -[LocalASR.start_audio_input map].
  match goal with
  | |- context [LocalASR.start_audio_input _ ?s3] =>
      destruct (silence_closes_once now post s3 eq_refl eq_refl eq_refl eq_refl Qrest Hex)
        as (s' & t3 & -> & Ht3 & Hu3)
  end.
  subst s2 s1.
  cbn [LocalASR.speech_buffer LocalASR.set_silence_start LocalASR.set_speech_buffer] in Ht3.
  rewrite length_app, !length_map, Lpre in Ht3. cbn [length] in Lloud.
  replace (Z.of_nat (5 + length (c :: loud)) <? 4)%Z with false in Ht3
    by (symmetry; apply Z.ltb_ge; lia).
  cbn [snd]. destruct (sleeping_is_quiet _ pre (1 # 1000)) as [Hs1 Hs2].
  rewrite !utterances_closed_app, !transcribed_app, Hs1, Hs2, Ht2, Hu2.
  rewrite transcribed_cons_sleep, utterances_closed_cons_sleep.
  rewrite Ht3, Hu3. split; reflexivity.
Qed.

(** C7, as amended.  While the segmenter is not speaking (and the AI is
    silent) every chunk below the threshold is appended to the buffer and
    none is removed: after any run of such chunks the buffer is the old
    buffer followed by all of them. *)
Theorem background_buffer_keeps_every_chunk (chunks : list (bool * Q * Frame))
        (s : LocalASR.Engine) :
  LocalASR.is_running s = true ->
  LocalASR.is_ai_speaking s = false ->
  LocalASR.is_speaking s = false ->
  Forall (fun c => LocalASR.above_threshold (audio c) = false) chunks ->
  let s' := fst (LocalASR.start_audio_input (map delivered chunks) s) in
  LocalASR.speech_buffer s' = LocalASR.speech_buffer s ++ map audio chunks /\
  length (LocalASR.speech_buffer s') = (length (LocalASR.speech_buffer s) + length chunks)%nat /\
  LocalASR.is_speaking s' = false.
Proof.
  intros Hrun Hai Hsp Hall s'. subst s'.
  rewrite background_chunks_accumulate by assumption. cbn.
  rewrite length_app, length_map. auto.
Qed.

End Segmenter.

Lemma recording_level (level : bool) (n : nat) (start_ms step_ms : Z) (chunk : Frame) :
  LocalASR.above_threshold chunk = level ->
  Forall (fun c => LocalASR.above_threshold (audio c) = level)
         (recording n start_ms step_ms chunk).
Proof.
  intros Hlevel. unfold recording. apply Forall_map. apply Forall_forall.
  intros k _. exact Hlevel.
Qed.

Lemma quiet_chunk_is_below : LocalASR.above_threshold quiet_chunk = false.
Proof. vm_compute. reflexivity. Qed.

Lemma loud_chunk_is_above : LocalASR.above_threshold loud_chunk = true.
Proof. vm_compute. reflexivity. Qed.

Lemma one_utterance_is_segmented_witness :
  let pre := recording 5 0 64 quiet_chunk in
  let loud := recording 10 320 64 loud_chunk in
  let post := recording 20 960 64 quiet_chunk in
  let t := snd (LocalASR.start_audio_input (ext := bench)
                  (map delivered (pre ++ loud ++ post)) LocalASR.started) in
  (LocalASR.SILENCE_DURATION < (2176 # 1000) - (960 # 1000))%Q /\
  utterances_closed t = 1%nat /\
  transcribed t = [map audio pre ++ map audio loud].
Proof.
  intros pre loud post t.
  assert (Hspan : (LocalASR.SILENCE_DURATION < (2176 # 1000) - (960 # 1000))%Q)
    by (vm_compute; reflexivity).
  split; [exact Hspan|].
  apply (one_utterance_is_segmented (ext := bench) pre loud post (960 # 1000) (2176 # 1000)
           LocalASR.started); try reflexivity.
  - apply recording_level, quiet_chunk_is_below.
  - apply recording_level, loud_chunk_is_above.
  - apply recording_level, quiet_chunk_is_below.
Defined.

Lemma background_buffer_keeps_every_chunk_witness :
  let chunks := recording 50 0 64 quiet_chunk in
  Forall (fun c => LocalASR.above_threshold (audio c) = false) chunks /\
  length (LocalASR.speech_buffer
            (fst (LocalASR.start_audio_input (ext := bench) (map delivered chunks)
                    LocalASR.started))) = 50%nat.
Proof.
  intros chunks.
  assert (Hall : Forall (fun c => LocalASR.above_threshold (audio c) = false) chunks)
    by apply recording_level, quiet_chunk_is_below.
  split; [exact Hall|].
  destruct (background_buffer_keeps_every_chunk (ext := bench) chunks LocalASR.started
              eq_refl eq_refl eq_refl Hall) as (_ & Hlen & _).
  exact Hlen.
Defined.

(** C7, as stated, fails: no number bounds the chunks the buffer retains
    during silence. *)
Lemma background_buffer_has_no_bound :
  ~ exists bound : nat,
      forall chunks : list (bool * Q * Frame),
        Forall (fun c => LocalASR.above_threshold (audio c) = false) chunks ->
        (length (LocalASR.speech_buffer
                   (fst (LocalASR.start_audio_input (ext := bench) (map delivered chunks)
                           LocalASR.started))) <= bound)%nat.
Proof.
  intros [bound Hbound].
  specialize (Hbound (recording (S bound) 0 64 quiet_chunk)
                (recording_level false _ _ _ _ quiet_chunk_is_below)).
  rewrite (background_chunks_accumulate (ext := bench)) in Hbound;
    [|reflexivity|reflexivity|reflexivity|apply recording_level, quiet_chunk_is_below].
  cbn [fst LocalASR.speech_buffer LocalASR.set_speech_buffer LocalASR.started
       LocalASR.set_is_running LocalASR.set_output_stream LocalASR.init app] in Hbound.
  unfold recording in Hbound. rewrite !length_map, length_seq in Hbound. lia.
Qed.

(** ** The minimum speech duration *)

(** Utterances of fewer than four chunks never reach the transcriber. *)
Lemma short_buffer_skips_transcriber (ext : Externals) (ws_open : bool)
      (s : LocalASR.Engine) :
  (length (LocalASR.speech_buffer s) < 4)%nat ->
  transcribed (snd (LocalASR._process_speech ws_open s)) = [].
Proof.
  intros Hshort. destruct (process_speech_outcome ws_open s) as (t & -> & Ht & _).
  cbn [snd]. rewrite Ht. replace (Z.of_nat (length (LocalASR.speech_buffer s)) <? 4)%Z with true;
    [reflexivity|]. symmetry. apply Z.ltb_lt. lia.
Qed.

(** C5.  Four loud chunks (4096 samples, 0.256 s at 16 kHz) followed by
    silence that outlasts [SILENCE_DURATION]: the utterance is shorter than
    [MIN_SPEECH_DURATION] and is handed to the transcriber all the same,
    because the test compares the chunk count with the truncated quotient
    [int(16000 * 0.3 / 1024) = 4]. *)
Theorem four_chunk_utterance_is_transcribed :
  let buffer := repeat loud_chunk 4 in
  let mic := recording 4 0 64 loud_chunk ++ recording 2 500 1500 quiet_chunk in
  (LocalASR.buffered_duration buffer < LocalASR.MIN_SPEECH_DURATION)%Q /\
  transcribed (snd (LocalASR.start_audio_input (ext := bench) (map delivered mic)
                      LocalASR.started))
  = [buffer].
Proof. cbv zeta. split; vm_compute; reflexivity. Qed.

(** * Further properties of the code *)

(** ** The weather tool and the declared schemas *)

Section ToolTables.
Context {ext : Externals}.




Lemma FUNCTION_MAP_lookups :
  Tools.FUNCTION_MAP !! "end_conversation"%string = Some Tools.end_conversation /\
  Tools.FUNCTION_MAP !! "get_weather"%string = Some Tools.get_weather /\
  Tools.FUNCTION_MAP !! "query_menu"%string = Some Tools.query_menu /\
  Tools.FUNCTION_MAP !! "search_books"%string = Some Tools.search_books.
Proof. repeat split; vm_compute; reflexivity. Qed.

Lemma call_with_kwargs_binds (func : Tools.PyFunction) (kwargs : list (string * Json)) :
  Forall (fun kv => In (fst kv) (Tools.fn_params func)) kwargs ->
  Tools.call_with_kwargs func (JDict kwargs) = Tools.fn_body func kwargs.
Proof.
  intros Hall. unfold Tools.call_with_kwargs.
  destruct (List.find _ kwargs) as [kv|] eqn:Hfind; [|reflexivity].
  apply find_some in Hfind as [Hin Hbad]. rewrite List.Forall_forall in Hall.
  apply Hall in Hin. apply negb_true_iff in Hbad.
  assert (existsb (String.eqb (fst kv)) (Tools.fn_params func) = true); [|congruence].
  apply existsb_exists. exists (fst kv). split; [exact Hin|apply String.eqb_refl].
Qed.

(** X2. The tools declared to the server and the dispatcher agree: every
    declaration names a function of [FUNCTION_MAP] whose parameters are the
    declared properties, so an argument object that uses declared property
    names only is never rejected for its shape: the call reaches the body of
    the tool. *)
Theorem declared_arguments_are_accepted (decl : Schema.Declaration)
        (kwargs : list (string * Json)) :
  In decl Schema.FUNCTION_DEFINITIONS ->
  Forall (fun kv => In (fst kv) (Schema.decl_properties decl)) kwargs ->
  exists func : Tools.PyFunction,
    Tools.FUNCTION_MAP !! Schema.decl_name decl = Some func /\
    Tools.fn_name func = Schema.decl_name decl /\
    Tools.fn_params func = Schema.decl_properties decl /\
    Tools.call_with_kwargs func (JDict kwargs) = Tools.fn_body func kwargs.
Proof.
  intros Hdecl Hkeys.
  destruct FUNCTION_MAP_lookups as (He & Hw & Hm & Hb).
  destruct Hdecl as [<-|[<-|[<-|[<-|[]]]]]; cbn [Schema.decl_name Schema.decl_properties] in *.
  - exists Tools.end_conversation. split; [exact He|]. split; [reflexivity|].
    split; [reflexivity|]. apply call_with_kwargs_binds. exact Hkeys.
  - exists Tools.get_weather. split; [exact Hw|]. split; [reflexivity|].
    split; [reflexivity|]. apply call_with_kwargs_binds. exact Hkeys.
  - exists Tools.query_menu. split; [exact Hm|]. split; [reflexivity|].
    split; [reflexivity|]. apply call_with_kwargs_binds. exact Hkeys.
  - exists Tools.search_books. split; [exact Hb|]. split; [reflexivity|].
    split; [reflexivity|]. apply call_with_kwargs_binds. exact Hkeys.
Qed.

End ToolTables.

Lemma declared_arguments_are_accepted_witness :
  let decl := {| Schema.decl_name := "get_weather";
                 Schema.decl_properties := ["location"; "date"]%string;
                 Schema.decl_required := ["location"]%string |} in
  let kwargs := [("date"%string, JStr "明天")] in
  In decl Schema.FUNCTION_DEFINITIONS /\
  Forall (fun kv => In (fst kv) (Schema.decl_properties decl)) kwargs /\
  exists func : Tools.PyFunction,
    Tools.FUNCTION_MAP (ext := bench) !! "get_weather"%string = Some func /\
    Tools.call_with_kwargs func (JDict kwargs) = Tools.fn_body func kwargs.
Proof.
  intros decl kwargs.
  assert (Hd : In decl Schema.FUNCTION_DEFINITIONS) by (right; left; reflexivity).
  assert (Hk : Forall (fun kv => In (fst kv) (Schema.decl_properties decl)) kwargs)
    by (repeat constructor; right; left; reflexivity).
  split; [exact Hd|]. split; [exact Hk|].
  destruct (declared_arguments_are_accepted (ext := bench) decl kwargs Hd Hk)
    as (func & Hf & _ & _ & Hc).
  exists func. split; assumption.
Defined.

(** ** The menu query *)

Section MenuQueries.
Variables (category keyword spicy_level : option string) (recommend_only : bool).

Notation skipped := (Catalog.skipped keyword spicy_level recommend_only).
Notation scan_dishes := (Catalog.scan_dishes keyword spicy_level recommend_only).
Notation scan_categories := (Catalog.scan_categories keyword spicy_level recommend_only).
Notation query_menu := (Catalog.query_menu category keyword spicy_level recommend_only).

Notation answers_query := (entry_answers_query keyword spicy_level recommend_only).

Lemma kept_dish_answers_query (cat : string) (dish : Catalog.Dish) (e : Catalog.MenuEntry) :
  skipped dish = false ->
  Catalog.listed cat dish = Returned e ->
  answers_query e /\ Catalog.entry_category e = cat.
Proof.
  unfold Catalog.skipped, Catalog.listed, entry_answers_query. intros Hkept Hlisted.
  destruct (recommend_only && negb (default false (Catalog.dish_recommended dish))) eqn:Hr;
    [discriminate|].
  destruct (Catalog.given spicy_level
            && negb (bool_decide (Catalog.dish_spicy dish = spicy_level))) eqn:Hs;
    [discriminate|].
  destruct (Catalog.given keyword
            && negb (str_in (default ""%string keyword) (Catalog.dish_name dish))
            && negb (str_in (default ""%string keyword)
                            (default ""%string (Catalog.dish_description dish)))) eqn:Hk;
    [discriminate|].
  destruct (Catalog.dish_description dish) as [description|]; [|discriminate Hlisted].
  injection Hlisted as <-. cbn in *.
  split; [|reflexivity]. split; [|split].
  - intros ->. cbn in Hr. apply negb_false_iff in Hr. exact Hr.
  - intros Hg. rewrite Hg in Hs. cbn in Hs. apply negb_false_iff, bool_decide_eq_true in Hs.
    rewrite <- Hs. destruct (Catalog.dish_spicy dish) as [spicy|]; [reflexivity|].
    rewrite <- Hs in Hg. discriminate.
  - intros Hg. rewrite Hg in Hk. cbn in Hk.
    destruct (str_in (default ""%string keyword) (Catalog.dish_name dish)); [left; reflexivity|].
    cbn in Hk. apply negb_false_iff in Hk. right. exact Hk.
Qed.

Lemma scan_dishes_keeps (P : Catalog.MenuEntry -> Prop) (cat : string)
      (dishes : list Catalog.Dish) (results results' : list Catalog.MenuEntry) :
  (forall dish e, skipped dish = false -> Catalog.listed cat dish = Returned e -> P e) ->
  Forall P results ->
  scan_dishes cat dishes results = Returned results' ->
  Forall P results'.
Proof.
  intros Hkept. revert results. induction dishes as [|dish rest IH]; intros results Hres Hscan.
  - cbn in Hscan. injection Hscan as <-. exact Hres.
  - cbn in Hscan. destruct (skipped dish) eqn:Hs; [exact (IH _ Hres Hscan)|].
    destruct (Catalog.listed cat dish) as [e|err] eqn:Hl; [|discriminate].
    apply (IH (results ++ [e])); [|exact Hscan].
    apply Forall_app. split; [exact Hres|]. constructor; [|constructor]. eauto.
Qed.

Lemma scan_categories_keeps (P : Catalog.MenuEntry -> Prop) (m : list (string * list Catalog.Dish))
      (categories : list string) (results results' : list Catalog.MenuEntry) :
  (forall cat dish e, In cat categories -> skipped dish = false ->
                      Catalog.listed cat dish = Returned e -> P e) ->
  Forall P results ->
  scan_categories m categories results = Returned results' ->
  Forall P results'.
Proof.
  revert results. induction categories as [|cat rest IH]; intros results Hkept Hres Hscan.
  - cbn in Hscan. injection Hscan as <-. exact Hres.
  - cbn in Hscan. destruct (Catalog.dishes_of cat m) as [dishes|err]; [|discriminate].
    destruct (scan_dishes cat dishes results) as [mid|err] eqn:Hmid; [|discriminate].
    apply (IH mid); [| |exact Hscan].
    + intros c dish e Hc. apply Hkept. right. exact Hc.
    + apply (scan_dishes_keeps P cat dishes results mid); [|exact Hres|exact Hmid].
      intros dish e. apply Hkept. left. reflexivity.
Qed.

Lemma dishes_of_member (m : list (string * list Catalog.Dish)) (cat : string)
      (dishes : list Catalog.Dish) :
  List.NoDup (Catalog.keys m) ->
  In (cat, dishes) m ->
  Catalog.dishes_of cat m = Returned dishes.
Proof.
  unfold Catalog.dishes_of, Catalog.keys.
  induction m as [|[k v] m IH]; intros Hnd Hin; [destruct Hin|].
  cbn in *. inversion Hnd as [|? ? Hfresh Hrest]; subst.
  destruct Hin as [Heq|Hin].
  - injection Heq as -> ->. rewrite String.eqb_refl. reflexivity.
  - destruct (String.eqb k cat) eqn:Hk; [|apply IH; assumption].
    apply String.eqb_eq in Hk. subst k. exfalso. apply Hfresh.
    apply in_map_iff. exists (cat, dishes). split; [reflexivity|exact Hin].
Qed.

Notation kept := (fun cd : string * Catalog.Dish => negb (skipped (snd cd))).

Lemma listed_entry (cat : string) (dish : Catalog.Dish) (e : Catalog.MenuEntry) :
  Catalog.listed cat dish = Returned e -> e = entry_of (cat, dish).
Proof.
  unfold Catalog.listed, entry_of. cbn [fst snd].
  destruct (Catalog.dish_description dish); [|discriminate].
  intros H. injection H as <-. reflexivity.
Qed.

Lemma scan_dishes_matches (cat : string) (dishes : list Catalog.Dish)
      (results results' : list Catalog.MenuEntry) :
  scan_dishes cat dishes results = Returned results' ->
  results' = results ++ map entry_of (List.filter kept (map (pair cat) dishes)).
Proof.
  revert results. induction dishes as [|dish rest IH]; intros results Hscan.
  - cbn in Hscan. injection Hscan as <-. cbn. rewrite app_nil_r. reflexivity.
  - cbn [Catalog.scan_dishes] in Hscan. cbn [map List.filter snd].
    destruct (skipped dish) eqn:Hs; cbn [negb].
    + exact (IH _ Hscan).
    + destruct (Catalog.listed cat dish) as [e|err] eqn:Hl; [|discriminate].
      apply listed_entry in Hl. subst e. rewrite (IH _ Hscan), <- app_assoc. reflexivity.
Qed.

Lemma scan_categories_matches (m : list (string * list Catalog.Dish))
      (chosen : list (string * list Catalog.Dish)) (results results' : list Catalog.MenuEntry) :
  List.NoDup (Catalog.keys m) ->
  (forall kv, In kv chosen -> In kv m) ->
  scan_categories m (Catalog.keys chosen) results = Returned results' ->
  results' = results ++ map entry_of (List.filter kept (all_dishes chosen)).
Proof.
  intros Hnd. revert results. induction chosen as [|[cat dishes] rest IH];
    intros results Hsub Hscan.
  - cbn in Hscan. injection Hscan as <-. cbn. rewrite app_nil_r. reflexivity.
  - cbn [Catalog.keys map fst Catalog.scan_categories] in Hscan.
    rewrite (dishes_of_member m cat dishes Hnd (Hsub _ (or_introl eq_refl))) in Hscan.
    destruct (scan_dishes cat dishes results) as [mid|err] eqn:Hmid; [|discriminate].
    apply scan_dishes_matches in Hmid. subst mid.
    fold (Catalog.keys rest) in Hscan.
    rewrite (IH _ (fun kv H => Hsub kv (or_intror H)) Hscan).
    unfold all_dishes. cbn [flat_map fst snd].
    rewrite List.filter_app, map_app, <- app_assoc. reflexivity.
Qed.

Lemma dishes_of_category (m : list (string * list Catalog.Dish)) (c : string) :
  List.NoDup (Catalog.keys m) -> In c (Catalog.keys m) ->
  exists dishes : list Catalog.Dish,
    In (c, dishes) m /\
    List.filter (fun cd => String.eqb (fst cd) c) (all_dishes m) = map (pair c) dishes.
Proof.
  unfold Catalog.keys, all_dishes.
  induction m as [|[k v] m IH]; intros Hnd Hin; [destruct Hin|].
  cbn [map fst flat_map snd] in *. inversion Hnd as [|? ? Hfresh Hrest]; subst.
  rewrite List.filter_app.
  assert (Hown : forall b : bool, String.eqb k c = b ->
            List.filter (fun cd : string * Catalog.Dish => String.eqb (fst cd) c) (map (pair k) v)
            = if b then map (pair k) v else []).
  { intros b Hb. induction v as [|d v IHv]; [destruct b; reflexivity|].
    cbn [map List.filter fst]. rewrite Hb, IHv. destruct b; reflexivity. }
  destruct (String.eqb k c) eqn:Hk.
  - apply String.eqb_eq in Hk. subst k. exists v. split; [left; reflexivity|].
    rewrite (Hown true eq_refl).
    assert (Hnone : List.filter (fun cd : string * Catalog.Dish => String.eqb (fst cd) c)
                      (flat_map (fun kv => map (pair (fst kv)) (snd kv)) m) = []).
    { clear - Hfresh. induction m as [|[k' v'] m IHm]; [reflexivity|].
      cbn [flat_map fst snd map] in *.
      rewrite List.filter_app, IHm by (intros H; apply Hfresh; right; exact H).
      rewrite app_nil_r.
      assert (Hk' : String.eqb k' c = false)
        by (apply String.eqb_neq; intros ->; apply Hfresh; left; reflexivity).
      clear - Hk'. induction v' as [|d v' IHv]; [reflexivity|].
      cbn [map List.filter fst]. rewrite Hk'. exact IHv. }
    rewrite Hnone, app_nil_r. reflexivity.
  - destruct Hin as [->|Hin]; [rewrite String.eqb_refl in Hk; discriminate|].
    destruct (IH Hrest Hin) as (dishes & Hd & Hf). exists dishes.
    split; [right; exact Hd|]. rewrite (Hown false eq_refl). exact Hf.
Qed.

(** X3. When [query_menu] returns a listing over a menu (an object, so its
    categories are distinct), it names the restaurant of the file, the count
    it reports is the number of all dishes on offer that pass the filters,
    and the dishes it lists are the first ten of them, in the order of the
    file, each with its own fields.  Every listed dish answers the query: it
    is recommended if only recommended dishes were asked for, has the
    requested spice level, contains the keyword in its name or description,
    and belongs to the requested category when the menu has that category. *)
Theorem query_menu_listing (menu_data : Catalog.MenuData) (restaurant : string)
        (count : nat) (dishes : list Catalog.MenuEntry) :
  List.NoDup (Catalog.keys (Catalog.menu menu_data)) ->
  query_menu (Some menu_data) = Returned (Catalog.MenuFound restaurant count dishes) ->
  let matches := List.filter kept (offered_dishes category (Catalog.menu menu_data)) in
  restaurant = Catalog.restaurant_name menu_data /\
  count = length matches /\
  dishes = map entry_of (take 10 matches) /\
  length dishes = Nat.min 10 count /\
  Forall (fun e =>
            answers_query e /\
            In (Catalog.entry_category e) (Catalog.keys (Catalog.menu menu_data)) /\
            (forall c, category = Some c -> truthy c = true ->
                       In c (Catalog.keys (Catalog.menu menu_data)) ->
                       Catalog.entry_category e = c))
         dishes.
Proof.
  intros Hnd. unfold Catalog.query_menu.
  set (categories := if Catalog.given category then _ else _).
  destruct (scan_categories (Catalog.menu menu_data) categories []) as [results|err] eqn:Hscan;
    [|discriminate].
  intros Hret. injection Hret as <- <- <-. cbv zeta.
  assert (Hres : results
                 = map entry_of (List.filter kept
                                   (offered_dishes category (Catalog.menu menu_data)))).
  { unfold offered_dishes. subst categories.
    destruct (Catalog.given category) eqn:Hg; cbn [andb].
    - destruct (bool_decide _) eqn:Hin.
      + apply bool_decide_eq_true, list_elem_of_In in Hin.
        destruct (dishes_of_category _ _ Hnd Hin) as (ds & Hmem & ->).
        change [default ""%string category]
          with (Catalog.keys [(default ""%string category, ds)]) in Hscan.
        apply (scan_categories_matches _ _ _ _ Hnd) in Hscan.
        * rewrite Hscan. unfold all_dishes. cbn [flat_map fst snd app].
          rewrite app_nil_r. reflexivity.
        * intros kv [<-|[]]. exact Hmem.
      + apply (scan_categories_matches _ _ _ _ Hnd) in Hscan; [exact Hscan|auto].
    - apply (scan_categories_matches _ _ _ _ Hnd) in Hscan; [exact Hscan|auto]. }
  split; [reflexivity|]. split; [rewrite Hres, length_map; reflexivity|].
  split; [rewrite Hres; apply firstn_map|]. split; [apply length_take|].
  apply Forall_take.
  eapply scan_categories_keeps; [|apply List.Forall_nil|exact Hscan].
  cbv beta. intros cat dish e Hcat Hkept Hlisted.
  destruct (kept_dish_answers_query cat dish e Hkept Hlisted) as [Hans ->].
  split; [exact Hans|].
  subst categories. split.
  - destruct (Catalog.given category); [|exact Hcat].
    destruct (bool_decide _) eqn:Hin; [|exact Hcat].
    apply bool_decide_eq_true, list_elem_of_In in Hin.
    destruct Hcat as [<-|[]]. exact Hin.
  - intros c -> Hc Hin. cbn [Catalog.given default] in Hcat. rewrite Hc in Hcat.
    rewrite bool_decide_eq_true_2 in Hcat by (apply list_elem_of_In; exact Hin).
    destruct Hcat as [<-|[]]. reflexivity.
Qed.

(** X4. A category that the menu does not have is not an error and does not
    give an empty answer: the query then runs over the whole menu, exactly
    as if no category had been given. *)
Theorem query_menu_unknown_category (c : string) (menu_data : Catalog.MenuData) :
  ~ In c (Catalog.keys (Catalog.menu menu_data)) ->
  Catalog.query_menu (Some c) keyword spicy_level recommend_only (Some menu_data)
  = Catalog.query_menu None keyword spicy_level recommend_only (Some menu_data).
Proof.
  intros Hnot. unfold Catalog.query_menu. cbn [Catalog.given default].
  rewrite bool_decide_eq_false_2 by (rewrite list_elem_of_In; exact Hnot).
  destruct (truthy c); reflexivity.
Qed.

Lemma scan_dishes_missing_description (cat : string) (dishes : list Catalog.Dish)
      (results : list Catalog.MenuEntry) (dish : Catalog.Dish) :
  In dish dishes ->
  skipped dish = false ->
  Catalog.dish_description dish = None ->
  scan_dishes cat dishes results = Raised (Tools.KeyError "描述").
Proof.
  intros Hin Hkept Hnone. revert results.
  induction dishes as [|d rest IH]; intros results; [destruct Hin|].
  cbn. destruct Hin as [->|Hin].
  - rewrite Hkept. unfold Catalog.listed. rewrite Hnone. reflexivity.
  - destruct (skipped d); [apply IH, Hin|].
    unfold Catalog.listed. destruct (Catalog.dish_description d); [apply IH, Hin|reflexivity].
Qed.

Lemma scan_dishes_raises_only_KeyError (cat : string) (dishes : list Catalog.Dish)
      (results : list Catalog.MenuEntry) (e : PyExn) :
  scan_dishes cat dishes results = Raised e -> e = Tools.KeyError "描述".
Proof.
  revert results. induction dishes as [|d rest IH]; intros results; [discriminate|].
  cbn. destruct (skipped d); [apply IH|].
  unfold Catalog.listed. destruct (Catalog.dish_description d); [apply IH|congruence].
Qed.

(** X5. The keyword test tolerates a dish without description, the listing
    does not: if any dish that passes the filters lacks the field, the whole
    query (over all categories) raises [KeyError] for it instead of
    returning the other dishes. *)
Theorem query_menu_missing_description (menu_data : Catalog.MenuData) (cat : string)
        (dishes : list Catalog.Dish) (dish : Catalog.Dish) :
  List.NoDup (Catalog.keys (Catalog.menu menu_data)) ->
  Catalog.given category = false ->
  In (cat, dishes) (Catalog.menu menu_data) ->
  In dish dishes ->
  skipped dish = false ->
  Catalog.dish_description dish = None ->
  query_menu (Some menu_data) = Raised (Tools.KeyError "描述").
Proof.
  intros Hnd Hcat Hin Hdish Hkept Hnone. unfold Catalog.query_menu. rewrite Hcat.
  enough (Hraise : forall cats results,
             (forall c, In c cats -> In c (Catalog.keys (Catalog.menu menu_data))) ->
             In cat cats ->
             scan_categories (Catalog.menu menu_data) cats results
             = Raised (Tools.KeyError "描述")).
  { rewrite Hraise; [reflexivity|auto|].
    unfold Catalog.keys. apply in_map_iff. exists (cat, dishes). auto. }
  induction cats as [|c rest IH]; intros results Hsub Hmem; [destruct Hmem|].
  cbn.
  assert (Hc : exists ds, In (c, ds) (Catalog.menu menu_data)).
  { specialize (Hsub c (or_introl eq_refl)). unfold Catalog.keys in Hsub.
    apply in_map_iff in Hsub as ([k ds] & Hk & Hm). cbn in Hk. subst k. eauto. }
  destruct Hc as [ds Hds]. rewrite (dishes_of_member _ _ _ Hnd Hds).
  destruct (scan_dishes c ds results) as [mid|e] eqn:Hscan.
  - destruct Hmem as [->|Hmem].
    + assert (ds = dishes) as ->.
      { pose proof (dishes_of_member _ _ _ Hnd Hds) as H1.
        pose proof (dishes_of_member _ _ _ Hnd Hin) as H2. congruence. }
      rewrite (scan_dishes_missing_description cat dishes results dish) in Hscan by assumption.
      discriminate.
    + apply IH; [|exact Hmem]. intros c' Hc'. apply Hsub. right. exact Hc'.
  - rewrite (scan_dishes_raises_only_KeyError _ _ _ _ Hscan). reflexivity.
Qed.

End MenuQueries.

(** ** The book search *)

Section BookSearch.
Variable lower : string -> string.
Variables (query category author : option string) (min_rating : option Q).

Notation passed_over := (Catalog.passed_over lower query category author min_rating).
Notation search_books := (Catalog.search_books lower query category author min_rating).
Notation answers := (book_answers_search lower query category author min_rating).

Lemma Qgtb_false (a b : Q) : Qgtb a b = false -> (a <= b)%Q.
Proof. unfold Qgtb. intros H. apply negb_false_iff, Qle_bool_iff in H. exact H. Qed.

Lemma Qgtb_true (a b : Q) : Qgtb a b = true -> (b < a)%Q.
Proof.
  unfold Qgtb. intros H. apply negb_true_iff in H. apply Qnot_le_lt. intros Hle.
  apply Qle_bool_iff in Hle. congruence.
Qed.

Lemma insert_by_rating_perm (b : Catalog.Book) (l : list Catalog.Book) :
  Permutation (Catalog.insert_by_rating b l) (b :: l).
Proof.
  induction l as [|c l IH]; [reflexivity|]. cbn.
  destruct (Qgtb (Catalog.rating c) (Catalog.rating b)); [|reflexivity].
  rewrite IH. apply perm_swap.
Qed.

Lemma sort_by_rating_perm (l : list Catalog.Book) : Permutation (Catalog.sort_by_rating l) l.
Proof.
  induction l as [|b l IH]; [reflexivity|]. cbn.
  rewrite insert_by_rating_perm. apply perm_skip. exact IH.
Qed.

Lemma insert_by_rating_sorted (b : Catalog.Book) (l : list Catalog.Book) :
  StronglySorted rated_no_lower l -> StronglySorted rated_no_lower (Catalog.insert_by_rating b l).
Proof.
  induction 1 as [|c l Hsorted IH Hall]; cbn; [repeat constructor|].
  destruct (Qgtb (Catalog.rating c) (Catalog.rating b)) eqn:Hcmp.
  - constructor; [exact IH|].
    rewrite (insert_by_rating_perm b l). constructor; [|exact Hall].
    unfold rated_no_lower. apply Qlt_le_weak, Qgtb_true, Hcmp.
  - apply Qgtb_false in Hcmp. constructor; [constructor; assumption|].
    constructor; [exact Hcmp|].
    eapply List.Forall_impl; [|exact Hall]. unfold rated_no_lower. cbv beta. intros d Hd.
    eapply Qle_trans; eassumption.
Qed.

Lemma sort_by_rating_sorted (l : list Catalog.Book) :
  StronglySorted rated_no_lower (Catalog.sort_by_rating l).
Proof.
  induction l as [|b l IH]; [constructor|]. cbn. apply insert_by_rating_sorted, IH.
Qed.

Lemma strongly_sorted_split (l1 l2 : list Catalog.Book) :
  StronglySorted rated_no_lower (l1 ++ l2) ->
  StronglySorted rated_no_lower l1 /\
  Forall (fun a => Forall (rated_no_lower a) l2) l1.
Proof.
  induction l1 as [|a l1 IH]; cbn; intros Hs; [split; constructor|].
  inversion Hs as [|? ? Hrest Hall]; subst.
  destruct (IH Hrest) as [Hs1 Hcross]. apply Forall_app in Hall as [Ha1 Ha2].
  split; constructor; assumption.
Qed.

Lemma kept_book_answers (b : Catalog.Book) : passed_over b = false -> answers b.
Proof.
  unfold Catalog.passed_over, book_answers_search. intros Hkept.
  destruct (Catalog.given category
            && negb (String.eqb (Catalog.book_category b) (default ""%string category)))
    eqn:Hc; [discriminate|].
  destruct (Catalog.given author
            && negb (str_in (default ""%string author) (Catalog.author b))) eqn:Ha;
    [discriminate|].
  destruct (Catalog.rating_given min_rating
            && Qgtb (default 0%Q min_rating) (Catalog.rating b)) eqn:Hr; [discriminate|].
  split; [|split; [|split]].
  - intros Hg. rewrite Hg in Hc. cbn in Hc. apply negb_false_iff, String.eqb_eq in Hc.
    destruct category as [c|]; [|discriminate]. cbn in Hc. congruence.
  - intros Hg. rewrite Hg in Ha. cbn in Ha. apply negb_false_iff in Ha. exact Ha.
  - intros Hg. rewrite Hg in Hr. cbn in Hr. apply Qgtb_false, Hr.
  - intros Hg. rewrite Hg in Hkept. cbv zeta in *. apply negb_false_iff in Hkept.
    apply orb_true_iff in Hkept as [Hkept|Hkw].
    + apply orb_true_iff in Hkept as [Hkept|Hd]; [|auto].
      apply orb_true_iff in Hkept as [Ht|Hau]; auto.
    + right. right. right. apply existsb_exists in Hkw as (k & Hin & Hk).
      apply List.Exists_exists. eauto.
Qed.

(** X6. When [search_books] finds the file, the count it reports is the
    number of all books that pass the filters, at most five books are
    listed, each of them a book of the file that answers the search, in
    order of falling rating; and the books that pass the filters but are not
    listed are all rated no higher than every listed one. *)
Theorem search_books_listing (books : list Catalog.Book) (count : nat)
        (found : list Catalog.Book) :
  search_books (Some books) = Catalog.BooksFound count found ->
  count = length (List.filter (fun b => negb (passed_over b)) books) /\
  length found = Nat.min 5 count /\
  Forall (fun b => In b books /\ answers b) found /\
  StronglySorted rated_no_lower found /\
  exists rest : list Catalog.Book,
    Permutation (found ++ rest) (List.filter (fun b => negb (passed_over b)) books) /\
    Forall (fun a => Forall (rated_no_lower a) rest) found.
Proof.
  unfold Catalog.search_books. cbv zeta.
  set (matching := List.filter (fun b => negb (passed_over b)) books).
  intros Hret. injection Hret as <- <-.
  pose proof (sort_by_rating_perm matching) as Hlen.
  pose proof (sort_by_rating_perm matching) as Hperm.
  pose proof (sort_by_rating_sorted matching) as Hsorted.
  rewrite <- (take_drop 5 (Catalog.sort_by_rating matching)) in Hperm, Hsorted.
  apply strongly_sorted_split in Hsorted as [Hs1 Hcross].
  split; [apply Permutation_length, Hlen|]. split; [apply length_take|].
  split; [|split; [exact Hs1|]].
  - apply List.Forall_forall. intros b Hb.
    assert (Hin : In b matching).
    { apply (Permutation_in b Hperm). apply in_or_app. left. exact Hb. }
    apply filter_In in Hin as [Hin Hkept]. split; [exact Hin|].
    apply kept_book_answers, negb_true_iff, Hkept.
  - exists (drop 5 (Catalog.sort_by_rating matching)). split; assumption.
Qed.

End BookSearch.

(** ** The event handlers *)

Section EventHandlers.
Context {ext : Externals}.


Lemma tool_result_exists (S : Type) (function_name : string) (arguments : Json) (s : S) :
  exists result : Json,
    Tools.execute_function function_name arguments s = (Returned result, s, []).
Proof.
  unfold Tools.execute_function.
  destruct (bool_decide (function_name ∈ dom Tools.FUNCTION_MAP)); cbn [negb].
  - py_unfold. destruct (Tools.getitem function_name) as [func|e]; [|eauto].
    destruct (Tools.call_with_kwargs func arguments); eauto.
  - unfold ret. eauto.
Qed.

(** X8. While the connection takes the sends and the audio payload decodes,
    the only events that make the handler of the server-VAD engine raise are
    those whose payload the lookups cannot read: a [session.created] whose
    session is present but not an object, and an [error] whose error is
    present but not an object or whose message is present but neither a
    string nor a collection (an explicit null, say); such an event leaves
    the engine as it was, with nothing sent or played.  Every other event is
    handled to the end, and the only one after which the handler returns
    instead of going on is a completed call of [end_conversation]. *)
Theorem handler_only_leaves_on_end_conversation (data : Event) (s : Main.Engine) :
  (forall e : PyExn, b64decode (ev_delta data) <> Raised e) ->
  (readable_payload data = true ->
   exists (flow : Flow) (s' : Main.Engine) (t : Trace),
     Main.handle_message true data s = (Returned flow, s', t) /\
     (flow = Return ->
      ev_type data = "response.function_call_arguments.done"%string /\
      ev_name data = "end_conversation"%string)) /\
  (readable_payload data = false ->
   exists e : PyExn, Main.handle_message true data s = (Raised e, s, [])).
Proof.
  intros Hdecodes. unfold readable_payload, Main.handle_message. cbv zeta.
  repeat match goal with
         | |- context [String.eqb (ev_type data) ?lit] =>
             let E := fresh "E" in
             destruct (String.eqb (ev_type data) lit) eqn:E; cbv iota;
             [apply String.eqb_eq in E; try rewrite E;
              repeat match goal with
                     | |- context [String.eqb (String ?c ?a) ?b] =>
                         let v := eval vm_compute in (String.eqb (String c a) b) in
                         change (String.eqb (String c a) b) with v
                     end; cbv iota|];
             cbn [andb]; try solve [goes_on]
         end.
  - (* session.created *)
    py_unfold. unfold session_id_of, py_get.
    destruct (ev_session data) as [[]|]; goes_on.
  - (* error *)
    py_unfold. unfold error_message_of, py_get, searchable.
    destruct (ev_error data) as [[| | | | | |kv]|]; try goes_on.
    cbn -[py_in str_in]. destruct (List.find _ kv) as [[k [| | | |message|l|d]]|];
      cbn -[py_in str_in]; try goes_on.
    + cbn [py_in]. destruct (str_in "Cancellation failed" message); [goes_on|].
      destruct (str_in "no active response" message); goes_on.
    + cbn [py_in]. destruct (existsb _ l); [goes_on|]. destruct (existsb _ l); goes_on.
    + cbn [py_in]. destruct (existsb _ d); [goes_on|]. destruct (existsb _ d); goes_on.
  - (* response.audio.delta *)
    split; [intros _|intros H; discriminate H].
    py_unfold. destruct (Main.drop_audio_until_cancelled s);
      [eexists _, _, _; split; [reflexivity|discriminate]|].
    destruct (truthy (ev_delta data) && bool_decide (is_Some (Main.output_stream s)));
      [|eexists _, _, _; split; [reflexivity|discriminate]].
    destruct (b64decode (ev_delta data)) as [pcm|e] eqn:Hb;
      [|exfalso; exact (Hdecodes e eq_refl)].
    unfold Main.stream_write. py_unfold. cbn.
    destruct (Main.output_stream s) as [[]|]; cbn;
      eexists _, _, _; (split; [reflexivity|discriminate]).
  - (* response.function_call_arguments.done *)
    split; [intros _|intros H; discriminate H].
    py_unfold. cbn -[Tools.execute_function].
    destruct (json_loads (ev_arguments data)) as [arguments|e].
    + destruct (tool_result_exists Main.Engine (ev_name data) arguments s) as [result ->].
      destruct (String.eqb (ev_name data) "end_conversation") eqn:Hn; cbn.
      * apply String.eqb_eq in Hn. eexists _, _, _. split; [reflexivity|]. auto.
      * eexists _, _, _. split; [reflexivity|discriminate].
    + cbn. eexists _, _, _. split; [reflexivity|discriminate].
Qed.

(** X9. An audio delta whose payload is not valid base64 ends the handling
    of events for good, in the server-VAD and in the local-VAD engine: the
    decode error leaves the loop, the events that follow are never handled,
    and the engine is left marked as "AI speaking". *)
Theorem undecodable_audio_ends_handling (ws_open : bool) (data : Event) (e : PyExn)
        (rest : list (bool * Event)) (m : Main.Engine) (l : LocalASR.Engine) :
  ev_type data = "response.audio.delta"%string ->
  truthy (ev_delta data) = true ->
  b64decode (ev_delta data) = Raised e ->
  Main.drop_audio_until_cancelled m = false ->
  is_Some (Main.output_stream m) ->
  LocalASR.drop_audio_until_cancelled l = false ->
  is_Some (LocalASR.output_stream l) ->
  Main.handle_messages ((ws_open, data) :: rest) m = (Main.set_is_ai_speaking true m, []) /\
  LocalASR.handle_messages ((ws_open, data) :: rest) l
  = (LocalASR.set_is_ai_speaking true l, []).
Proof.
  intros Ht Htr Hb Hdm Hom Hdl Hol. split.
  - cbn [Main.handle_messages]. unfold Main.handle_message. rewrite Ht. cbn.
    py_unfold. rewrite Hdm, Htr, (bool_decide_eq_true_2 _ Hom). cbn. rewrite Hb. reflexivity.
  - cbn [LocalASR.handle_messages]. unfold LocalASR.handle_message. rewrite Ht. cbn.
    py_unfold. rewrite Hdl, Htr, (bool_decide_eq_true_2 _ Hol). cbn. rewrite Hb. reflexivity.
Qed.

(** X10. A write to an output stream that is not active (stopped, or closed
    after a failed reopening) is survived by the server-VAD engine, whose
    handler swallows the error and goes on, and is fatal in the first
    client, whose handler lets the error end the event loop. *)
Theorem failed_write_is_swallowed_or_fatal (ws_open : bool) (data : Event) (pcm : string)
        (stream : StreamState) (m : Main.Engine) (g : Legacy.Engine) :
  ev_type data = "response.audio.delta"%string ->
  truthy (ev_delta data) = true ->
  b64decode (ev_delta data) = Returned pcm ->
  stream <> Active ->
  Main.drop_audio_until_cancelled m = false ->
  Main.output_stream m = Some stream ->
  Legacy.output_stream g = Some stream ->
  Main.handle_message ws_open data m
  = (Returned Next, Main.set_is_ai_speaking true m, [StreamWriteFailed pcm]) /\
  LegacyClient.handle_message data g
  = (Raised StreamError, Legacy.set_is_ai_speaking true g, [StreamWriteFailed pcm]).
Proof.
  intros Ht Htr Hb Hs Hd Hom Hog. split.
  - unfold Main.handle_message. rewrite Ht. cbn. py_unfold. rewrite Hd, Htr, Hom. cbn.
    rewrite Hb. unfold Main.stream_write. py_unfold. cbn. rewrite Hom.
    destruct stream; [congruence|reflexivity|reflexivity].
  - unfold LegacyClient.handle_message. rewrite Ht. cbn. py_unfold. rewrite Htr, Hb. cbn.
    rewrite Hog. cbn. unfold LegacyClient.stream_write. py_unfold. cbn. rewrite Hog.
    destruct stream; [congruence|reflexivity|reflexivity].
Qed.

(** X11. Every completed function call is answered exactly once while the
    connection takes the sends: whatever the function name and the
    arguments string (unknown function, malformed JSON, a tool that raises),
    the engine sends one function result carrying the call id of the event,
    followed by one response request, and nothing else; the server-VAD
    engine also clears the suppress flag. *)
Theorem function_call_is_answered_once (data : Event) (m : Main.Engine)
        (l : LocalASR.Engine) :
  ev_type data = "response.function_call_arguments.done"%string ->
  (exists (result : Json) (flow : Flow) (m' : Main.Engine) (t : Trace),
      Main.handle_message true data m = (Returned flow, m', t) /\
      sent t = [ItemFunctionCallOutput (ev_call_id data) result; ResponseCreate None] /\
      Main.drop_audio_until_cancelled m' = false) /\
  (exists (result : Json) (flow : Flow) (l' : LocalASR.Engine) (t : Trace),
      LocalASR.handle_message true data l = (Returned flow, l', t) /\
      sent t = [ItemFunctionCallOutput (ev_call_id data) result; ResponseCreate None] /\
      LocalASR.drop_audio_until_cancelled l' = LocalASR.drop_audio_until_cancelled l).
Proof.
  intros Ht. split.
  - unfold Main.handle_message. rewrite Ht. cbn -[Tools.execute_function]. py_unfold.
    destruct (json_loads (ev_arguments data)) as [arguments|e].
    + destruct (tool_result_exists Main.Engine (ev_name data) arguments m) as [result ->].
      exists result.
      destruct (String.eqb (ev_name data) "end_conversation"); cbn;
        eexists _, _, _; repeat split.
    + cbn. eexists _, _, _, _; repeat split.
  - unfold LocalASR.handle_message. rewrite Ht. cbn -[Tools.execute_function]. py_unfold.
    destruct (json_loads (ev_arguments data)) as [arguments|e].
    + destruct (tool_result_exists LocalASR.Engine (ev_name data) arguments l)
        as [result ->].
      exists result.
      destruct (String.eqb (ev_name data) "end_conversation"); cbn;
        eexists _, _, _; repeat split.
    + cbn. eexists _, _, _, _; repeat split.
Qed.

End EventHandlers.

(** ** Interruption and capture in the server-VAD engine *)

Section Barge.
Context {ext : Externals}.

(** X12. A whole interruption: while the AI speaks, the return key, the
    keyboard poll that serves it and the server's confirmation together
    replace the output stream by a fresh one, send exactly one cancel
    request and bring the engine back to listening: the AI is marked
    silent, and neither the interrupt flag nor the suppress flag is left
    set. *)
Theorem interruption_round_trip (ws_open : bool) (data : Event) (stream : StreamState)
        (st : Main.Tasks) :
  ev_type data = "response.cancelled"%string ->
  Main.handling st = true ->
  Main.is_running (Main.engine st) = true ->
  Main.is_ai_speaking (Main.engine st) = true ->
  Main.output_stream (Main.engine st) = Some stream ->
  Main.run [Main.EnterPressed; Main.KeyboardPoll true NoFault; Main.Inbound ws_open data] st
  = (Main.mkTasks
       (Main.mkEngine (Some Active) true false (Main.session_id (Main.engine st)) false false)
       true (Main.capturing st),
     [StreamStop; StreamClose; StreamOpen; WsSend ResponseCancel; Sleep (1 # 20)]).
Proof.
  intros Ht Hh Hrun Hai Hos. destruct st as [[os running ai sid intr drop] handling capturing].
  cbn in Hh, Hrun, Hai, Hos. subst handling running ai os.
  cbn [Main.run Main.step Main.enter_pressed Main.engine Main.is_ai_speaking
       Main.set_interrupt_flag Main.is_running Main.output_stream Main.session_id
       Main.interrupt_flag Main.drop_audio_until_cancelled Main.handling Main.capturing].
  unfold Main.keyboard_listener_step, Main.reopen_output_stream. py_unfold. cbn.
  unfold Main.handle_message. rewrite Ht. reflexivity.
Qed.

(** X13. Keys pressed while the AI is silent do nothing: however the return
    key and the keyboard polls interleave, the engine is left as it was and
    the polls only sleep; no cancel request is sent and the output stream is
    not touched. *)
Theorem keys_while_silent_do_nothing (schedule : list Main.Step) (st : Main.Tasks) :
  Main.is_ai_speaking (Main.engine st) = false ->
  Main.interrupt_flag (Main.engine st) = false ->
  Forall (fun x => x = Main.EnterPressed \/
                   exists ws_open fault, x = Main.KeyboardPoll ws_open fault) schedule ->
  fst (Main.run schedule st) = st /\
  Forall (fun a => a = Sleep (1 # 20)) (snd (Main.run schedule st)).
Proof.
  intros Hai Hi Hall. induction Hall as [|x rest Hx _ IH]; [split; [reflexivity|constructor]|].
  cbn [Main.run].
  assert (Hstep : fst (Main.step x st) = st /\ Forall (fun a => a = Sleep (1 # 20))
                                                   (snd (Main.step x st))).
  { destruct st as [[os running ai sid intr drop] handling capturing].
    cbn in Hai, Hi. subst ai intr.
    destruct Hx as [->|(ws_open & fault & ->)]; cbn; [split; [reflexivity|constructor]|].
    destruct running; cbn; split; try reflexivity; repeat constructor. }
  destruct (Main.step x st) as [st1 t1]. cbn in Hstep. destruct Hstep as [-> Ht1].
  destruct (Main.run rest st) as [st2 t2]. cbn in IH. destruct IH as [-> Ht2].
  split; [reflexivity|]. apply Forall_app. split; assumption.
Qed.

Lemma Main_capture_sends (frames : list Frame) (rest : list (bool * Outcome Frame))
      (s : Main.Engine) :
  Main.is_running s = true ->
  Main.is_ai_speaking s = false ->
  MainCapture.start_audio_input (map (fun f => (true, Returned f)) frames ++ rest) s
  = (let '(s', t) := MainCapture.start_audio_input rest s in
     (s', concat (map (fun f => [WsSend (InputAudioBufferAppend f); Sleep (1 # 1000)]) frames)
            ++ t)).
Proof.
  intros Hrun Hai. induction frames as [|f frames IH].
  - cbn. destruct (MainCapture.start_audio_input rest s). reflexivity.
  - cbn [map app MainCapture.start_audio_input]. rewrite Hrun.
    unfold Main.audio_input_step. py_unfold. cbn. rewrite Hai. cbn.
    rewrite IH. destruct (MainCapture.start_audio_input rest s). reflexivity.
Qed.

Lemma sent_appends (frames : list Frame) :
  sent (concat (map (fun f => [WsSend (InputAudioBufferAppend f); Sleep (1 # 1000)]) frames))
  = map InputAudioBufferAppend frames.
Proof. induction frames as [|f frames IH]; [reflexivity|]. cbn. f_equal. exact IH. Qed.

(** X14. While the AI is silent the capture loop sends the frames one by one
    in the order they were read, with nothing in between; the first send
    that the connection refuses ends the loop, so no frame read after it is
    ever sent. *)
Theorem frames_are_sent_in_capture_order (frames : list Frame) (refused : Frame)
        (later : list (bool * Outcome Frame)) (s : Main.Engine) :
  Main.is_running s = true ->
  Main.is_ai_speaking s = false ->
  sent (snd (MainCapture.start_audio_input (map (fun f => (true, Returned f)) frames) s))
  = map InputAudioBufferAppend frames /\
  MainCapture.start_audio_input
    (map (fun f => (true, Returned f)) frames ++ (false, Returned refused) :: later) s
  = (s, concat (map (fun f => [WsSend (InputAudioBufferAppend f); Sleep (1 # 1000)]) frames)
          ++ [WsSendFailed (InputAudioBufferAppend refused)]).
Proof.
  intros Hrun Hai. split.
  - rewrite <- (app_nil_r (map _ frames)). rewrite Main_capture_sends by assumption.
    cbn. rewrite app_nil_r. apply sent_appends.
  - rewrite Main_capture_sends by assumption.
    cbn [MainCapture.start_audio_input]. rewrite Hrun.
    unfold Main.audio_input_step. py_unfold. cbn. rewrite Hai. reflexivity.
Qed.

End Barge.

(** ** The local segmenter *)

Section LocalSegmenter.
Context {ext : Externals}.

(** X15. While the AI is speaking the local-VAD capture loop is deaf:
    whatever the microphone delivers, loud or quiet, nothing is buffered, no
    utterance is opened or closed and nothing is sent; each pass only
    sleeps. *)
Theorem local_vad_is_deaf_while_ai_speaks (chunks : list (bool * Q * Frame))
        (s : LocalASR.Engine) :
  LocalASR.is_running s = true ->
  LocalASR.is_ai_speaking s = true ->
  LocalASR.start_audio_input (map delivered chunks) s
  = (s, map (fun _ => Sleep (1 # 1000)) chunks).
Proof.
  intros Hrun Hai. induction chunks as [|[[ws_open now] audio_data] chunks IH]; [reflexivity|].
  cbn [map delivered fst snd LocalASR.start_audio_input]. rewrite Hrun.
  unfold LocalASR.audio_input_step. py_unfold. cbn. rewrite Hai. cbn. rewrite IH. reflexivity.
Qed.

Lemma step_transcribes_long_buffers (ws_open : bool) (now : Q) (read : Outcome Frame)
      (s : LocalASR.Engine) :
  Forall (fun buffer => (4 <= length buffer)%nat)
         (transcribed (snd (LocalASR.audio_input_step ws_open now read s))).
Proof.
  destruct (process_speech_outcome ws_open s) as (tp & Hp & Htp & _).
  unfold LocalASR.audio_input_step. py_unfold.
  destruct read as [audio_data|e]; cbn -[LocalASR._process_speech];
    [|destruct (LocalASR.is_running s); constructor].
  destruct (LocalASR.is_ai_speaking s); cbn -[LocalASR._process_speech]; [constructor|].
  destruct (LocalASR.above_threshold audio_data); cbn -[LocalASR._process_speech].
  - destruct (LocalASR.is_speaking s); cbn; constructor.
  - destruct (LocalASR.is_speaking s); cbn -[LocalASR._process_speech]; [|constructor].
    destruct (LocalASR.silence_start s) as [since|]; cbn -[LocalASR._process_speech];
      [|constructor].
    destruct (Qgtb (now - since) LocalASR.SILENCE_DURATION); cbn -[LocalASR._process_speech];
      [|constructor].
    rewrite Hp. cbn -[transcribed].
    rewrite transcribed_cons_console, !transcribed_app, Htp. cbn -[Z.ltb Z.of_nat].
    rewrite !app_nil_r.
    destruct (Z.of_nat (length (LocalASR.speech_buffer s)) <? 4)%Z eqn:Hlen; [constructor|].
    apply Z.ltb_ge in Hlen. constructor; [lia|constructor].
Qed.

(** X16. Whatever the microphone delivers and whatever state the engine is
    in, every buffer that the capture loop hands to the transcriber holds at
    least four chunks. *)
Theorem transcriber_gets_four_chunks_or_more (mic : list (bool * Q * Outcome Frame))
        (s : LocalASR.Engine) :
  Forall (fun buffer => (4 <= length buffer)%nat)
         (transcribed (snd (LocalASR.start_audio_input mic s))).
Proof.
  revert s. induction mic as [|[[ws_open now] read] mic IH]; intros s; [constructor|].
  cbn [LocalASR.start_audio_input]. destruct (LocalASR.is_running s); [|constructor].
  pose proof (step_transcribes_long_buffers ws_open now read s) as Hstep.
  destruct (LocalASR.audio_input_step ws_open now read s) as [[r s1] t1]. cbn [snd] in Hstep.
  destruct r as [[]|e]; try exact Hstep.
  specialize (IH s1). destruct (LocalASR.start_audio_input mic s1) as [s2 t2].
  cbn [snd] in *. rewrite transcribed_app. apply Forall_app. split; assumption.
Qed.

(** X17. Silence that has not yet lasted longer than [SILENCE_DURATION]
    leaves an open utterance untouched: the quiet chunks are not added to the
    buffer, the silence timer keeps its start, nothing is closed, transcribed
    or sent. *)
Theorem short_silence_keeps_utterance_open (since : Q) (chunks : list (bool * Q * Frame))
        (s : LocalASR.Engine) :
  LocalASR.is_running s = true ->
  LocalASR.is_ai_speaking s = false ->
  LocalASR.is_speaking s = true ->
  LocalASR.silence_start s = Some since ->
  Forall (fun c => LocalASR.above_threshold (audio c) = false /\
                   (clock c - since <= LocalASR.SILENCE_DURATION)%Q) chunks ->
  LocalASR.start_audio_input (map delivered chunks) s
  = (s, map (fun _ => Sleep (1 # 1000)) chunks).
Proof.
  intros Hrun Hai Hsp Hsince Hall.
  induction Hall as [|[[ws_open now] audio_data] chunks [Hq Hshort] _ IH]; [reflexivity|].
  cbn in Hq, Hshort. cbn [map delivered fst snd LocalASR.start_audio_input]. rewrite Hrun.
  unfold LocalASR.audio_input_step. py_unfold. cbn -[LocalASR._process_speech].
  rewrite Hai, Hq, Hsp, Hsince. cbn -[LocalASR._process_speech].
  replace (Qgtb (now - since) LocalASR.SILENCE_DURATION) with false.
  - cbn. rewrite IH. reflexivity.
  - symmetry. unfold Qgtb. apply negb_false_iff, Qle_bool_iff, Hshort.
Qed.

(** X18. Speech restarts the silence timer: when a loud chunk arrives while
    the timer of an open utterance is running, it is added to the buffer and
    the timer is stopped, so the quiet chunk that follows does not close the
    utterance, however long ago the earlier silence began; it starts the
    timer afresh at its own clock reading. *)
Theorem speech_restarts_silence_timer (since : Q) (loud quiet : bool * Q * Frame)
        (s : LocalASR.Engine) :
  LocalASR.is_running s = true ->
  LocalASR.is_ai_speaking s = false ->
  LocalASR.is_speaking s = true ->
  LocalASR.silence_start s = Some since ->
  LocalASR.above_threshold (audio loud) = true ->
  LocalASR.above_threshold (audio quiet) = false ->
  LocalASR.start_audio_input (map delivered [loud; quiet]) s
  = (LocalASR.set_silence_start (Some (clock quiet))
       (LocalASR.set_speech_buffer (LocalASR.speech_buffer s ++ [audio loud]) s),
     [Sleep (1 # 1000); Sleep (1 # 1000)]).
Proof.
  intros Hrun Hai Hsp Hsince Hl Hq.
  destruct loud as [[w1 t1] f1], quiet as [[w2 t2] f2]. cbn in Hl, Hq.
  destruct s as [os running ai sid buf talking start intr drop].
  cbn in Hrun, Hai, Hsp, Hsince. subst running ai talking start.
  cbn [map delivered fst snd LocalASR.start_audio_input LocalASR.is_running].
  unfold LocalASR.audio_input_step. py_unfold. cbn. rewrite Hl. cbn. rewrite Hq. reflexivity.
Qed.

(** X19. What closing an utterance sends.  When silence has outlasted
    [SILENCE_DURATION] and the buffer holds four chunks or more, the engine
    forwards the transcription if it is not empty after stripping, as one
    user message followed by one response request for audio and text; an
    empty transcription or a failure of the transcriber sends nothing.  In
    every case the loop goes on with an empty buffer, not speaking, the
    timer stopped. *)
Theorem closing_forwards_transcription (since now : Q) (audio_data : Frame)
        (s : LocalASR.Engine) :
  LocalASR.is_ai_speaking s = false ->
  LocalASR.is_speaking s = true ->
  LocalASR.silence_start s = Some since ->
  LocalASR.above_threshold audio_data = false ->
  (LocalASR.SILENCE_DURATION < now - since)%Q ->
  (4 <= length (LocalASR.speech_buffer s))%nat ->
  exists t : Trace,
    LocalASR.audio_input_step true now (Returned audio_data) s
    = (Returned Again,
       LocalASR.set_silence_start None
         (LocalASR.set_is_speaking false (LocalASR.set_speech_buffer [] s)),
       t) /\
    transcribed t = [LocalASR.speech_buffer s] /\
    sent t
    = match whisper_transcribe (LocalASR.speech_buffer s) with
      | Returned (text, language) =>
          if truthy (py_strip text)
          then [ItemUserMessage (py_strip text);
                ResponseCreate (Some ["audio"; "text"]%string)]
          else []
      | Raised _ => []
      end.
Proof.
  intros Hai Hsp Hsince Hq Hlate Hlen.
  assert (Hcmp : Qgtb (now - since) LocalASR.SILENCE_DURATION = true).
  { unfold Qgtb. apply negb_true_iff, not_true_iff_false. intros Hle.
    apply Qle_bool_iff in Hle. lra. }
  assert (Hlong : (Z.of_nat (length (LocalASR.speech_buffer s)) <? 4)%Z = false)
    by (apply Z.ltb_ge; lia).
  unfold LocalASR.audio_input_step. py_unfold. cbn -[LocalASR._process_speech].
  rewrite Hai, Hq, Hsp, Hsince. cbn -[LocalASR._process_speech]. rewrite Hcmp.
  unfold LocalASR._process_speech, LocalASR._send_text_to_openai. py_unfold.
  rewrite min_speech_chunks, Hlong.
  destruct (whisper_transcribe (LocalASR.speech_buffer s)) as [[text language]|e]; cbn.
  - destruct (truthy (py_strip text)); cbn; eexists; repeat split.
  - eexists; repeat split.
Qed.

(** X20. A failing read of the microphone ends the capture loop: the chunks
    read before it are processed as usual, the error is reported once, and
    nothing that the device would deliver afterwards is read. *)
Theorem read_error_ends_capture (chunks : list (bool * Q * Frame)) (ws_open : bool) (now : Q)
        (e : PyExn) (later : list (bool * Q * Outcome Frame)) (s : LocalASR.Engine) :
  LocalASR.is_running s = true ->
  LocalASR.start_audio_input (map delivered chunks ++ (ws_open, now, Raised e) :: later) s
  = (fst (LocalASR.start_audio_input (map delivered chunks) s),
     snd (LocalASR.start_audio_input (map delivered chunks) s)
       ++ [Console (AudioInputError e)]).
Proof.
  intros Hrun.
  destruct (start_audio_input_app chunks ((ws_open, now, Raised e) :: later) s Hrun)
    as [-> Hrun1].
  destruct (LocalASR.start_audio_input (map delivered chunks) s) as [s1 t1].
  cbn [fst snd] in *. cbn [LocalASR.start_audio_input]. rewrite Hrun1.
  unfold LocalASR.audio_input_step. py_unfold. cbn. rewrite Hrun1. reflexivity.
Qed.

Lemma sum_squares_bounds (bound : Z) (samples : Frame) :
  (0 <= bound)%Z ->
  (Forall (fun x => (Z.abs x <= bound)%Z) samples ->
   (sum_squares samples <= bound * bound * Z.of_nat (length samples))%Z) /\
  (Forall (fun x => (bound < Z.abs x)%Z) samples -> samples <> [] ->
   (bound * bound * Z.of_nat (length samples) < sum_squares samples)%Z).
Proof.
  intros Hb. split.
  - induction 1 as [|x l Hx _ IH]; [cbn; lia|].
    cbn [sum_squares fold_right length]. fold (sum_squares l).
    assert (x * x <= bound * bound)%Z by nia. lia.
  - induction 1 as [|x l Hx Hl IH]; [congruence|]. intros _.
    cbn [sum_squares fold_right length]. fold (sum_squares l).
    assert (bound * bound < x * x)%Z by nia.
    destruct l as [|y l]; [cbn; lia|].
    specialize (IH ltac:(discriminate)). lia.
Qed.

End LocalSegmenter.

(** ** The energy test in [float32] *)

Section Rounding.
Local Open Scope Q_scope.

Lemma pow2_pos (e : Z) : 0 < 2 ^ e.
Proof. apply Qpower_0_lt. reflexivity. Qed.

Lemma pow2_add (a b : Z) : 2 ^ (a + b) == 2 ^ a * 2 ^ b.
Proof. apply Qpower_plus. discriminate. Qed.

Lemma pow2_le (a b : Z) : (a <= b)%Z -> 2 ^ a <= 2 ^ b.
Proof. intros H. apply Qpower_le_compat_l; [exact H|]. discriminate. Qed.

Lemma pow2_inject (z : Z) : (0 <= z)%Z -> 2 ^ z == inject_Z (2 ^ z).
Proof. intros H. symmetry. apply (Zpower_Qpower 2 z H). Qed.

Lemma pow2_succ (a : Z) : 2 ^ (a + 1) == 2 * 2 ^ a.
Proof. rewrite pow2_add. change (2 ^ 1) with (2 * 1). ring. Qed.

Lemma Q_as_quotient (q : Q) : q == inject_Z (Qnum q) / inject_Z (Zpos (Qden q)).
Proof. destruct q as [a b]. cbn [Qnum Qden]. rewrite <- Qmake_Qdiv. reflexivity. Qed.

Lemma ilog2_spec (q : Q) :
  0 < q -> 2 ^ Numpy.ilog2 q <= q /\ q < 2 ^ (Numpy.ilog2 q + 1).
Proof.
  intros Hq. unfold Numpy.ilog2.
  set (a := Qnum q). set (b := Zpos (Qden q)).
  assert (Ha : (0 < a)%Z) by (destruct q as [n d]; unfold Qlt in Hq; cbn in *; lia).
  assert (Hb : (0 < b)%Z) by (subst b; lia).
  destruct (Z.log2_spec a Ha) as [Ha1 Ha2]. destruct (Z.log2_spec b Hb) as [Hb1 Hb2].
  set (la := Z.log2 a) in *. set (lb := Z.log2 b) in *.
  assert (Hla : (0 <= la)%Z) by apply Z.log2_nonneg.
  assert (Hlb : (0 <= lb)%Z) by apply Z.log2_nonneg.
  assert (Eq : q == inject_Z a / inject_Z b) by apply Q_as_quotient.
  assert (Hbq : 0 < inject_Z b) by (change (inject_Z 0 < inject_Z b); rewrite <- Zlt_Qlt; exact Hb).
  assert (Pa1 : 2 ^ la <= inject_Z a) by (rewrite pow2_inject, <- Zle_Qle; assumption).
  assert (Pa2 : inject_Z a < 2 ^ (la + 1)) by (rewrite pow2_inject, <- Zlt_Qlt; [rewrite Z.add_1_r; assumption|lia]).
  assert (Pb1 : 2 ^ lb <= inject_Z b) by (rewrite pow2_inject, <- Zle_Qle; assumption).
  assert (Pb2 : inject_Z b < 2 ^ (lb + 1)) by (rewrite pow2_inject, <- Zlt_Qlt; [rewrite Z.add_1_r; assumption|lia]).
  assert (Hqb : q * inject_Z b == inject_Z a).
  { rewrite Eq. field. intros H0. rewrite H0 in Hbq. apply (Qlt_irrefl 0), Hbq. }
  pose proof (pow2_pos lb) as Plb. pose proof (pow2_pos (la - lb)) as Pd.
  pose proof (pow2_pos (la - lb - 1)) as Pd1.
  assert (E1 : 2 ^ la == 2 ^ (la - lb) * 2 ^ lb) by (rewrite <- pow2_add; f_equiv; lia).
  assert (E2 : 2 ^ (la - lb) == 2 * 2 ^ (la - lb - 1)) by (rewrite <- pow2_succ; f_equiv; lia).
  assert (E3 : 2 ^ (la - lb + 1) == 2 * 2 ^ (la - lb)) by apply pow2_succ.
  assert (E4 : 2 ^ (la + 1) == 2 * 2 ^ la) by apply pow2_succ.
  assert (E5 : 2 ^ (lb + 1) == 2 * 2 ^ lb) by apply pow2_succ.
  assert (Up : q < 2 ^ (la - lb + 1)).
  { rewrite E3. apply Qnot_le_lt. intros Hc.
    assert (2 * 2 ^ (la - lb) * 2 ^ lb <= q * inject_Z b) by nra.
    rewrite Hqb, <- Qmult_assoc, <- E1 in H. lra. }
  assert (Low : 2 ^ (la - lb - 1) < q).
  { apply Qnot_le_lt. intros Hc.
    assert (q * inject_Z b < 2 ^ (la - lb - 1) * (2 * 2 ^ lb)) by nra.
    rewrite Hqb in H.
    assert (2 ^ (la - lb - 1) * (2 * 2 ^ lb) == 2 ^ la) by (rewrite E1, E2; ring).
    lra. }
  destruct (Qle_bool (2 ^ (la - lb)) q) eqn:Hle.
  - apply Qle_bool_iff in Hle. split; [exact Hle|exact Up].
  - assert (Hlt : q < 2 ^ (la - lb)).
    { apply Qnot_le_lt. intros Hc. apply Qle_bool_iff in Hc. congruence. }
    split; [apply Qlt_le_weak; exact Low|].
    replace (la - lb - 1 + 1)%Z with (la - lb)%Z by lia. exact Hlt.
Qed.

Lemma rne_floor (x : Q) :
  (Qfloor x <= Numpy.rne x <= Qfloor x + 1)%Z /\
  (Numpy.rne x = (Qfloor x + 1)%Z -> inject_Z (Qfloor x) < x).
Proof.
  unfold Numpy.rne.
  destruct (Qcompare_spec (x - inject_Z (Qfloor x)) (1 # 2)) as [H|H|H].
  - destruct (Z.even (Qfloor x)); (split; [lia|intros _; lra || lia]).
  - split; [lia|intros E; lia].
  - split; [lia|intros _; lra].
Qed.

Lemma rne_le (x : Q) (G : Z) : x <= inject_Z G -> (Numpy.rne x <= G)%Z.
Proof.
  intros H. destruct (rne_floor x) as [[_ Hup] Hstrict].
  pose proof (Qfloor_le x) as Hf.
  assert (HfG : (Qfloor x <= G)%Z) by (rewrite Zle_Qle; lra).
  destruct (Z.eq_dec (Numpy.rne x) (Qfloor x + 1)%Z) as [E|E]; [|lia].
  specialize (Hstrict E).
  assert ((Qfloor x < G)%Z) by (rewrite Zlt_Qlt; lra). lia.
Qed.

Lemma rne_ge (x : Q) (G : Z) : inject_Z G <= x -> (G <= Numpy.rne x)%Z.
Proof.
  intros H. destruct (rne_floor x) as [[Hlow _] _].
  apply Qfloor_resp_le in H. rewrite Qfloor_Z in H. lia.
Qed.

Lemma representable_scaled (prec : Z) (F : Q) (s : Z) :
  (0 < prec)%Z -> Numpy.representable prec F -> 2 ^ (s + prec - 1) <= F ->
  exists G : Z, F == inject_Z G * 2 ^ s.
Proof.
  intros Hp (m & j & Hm & HF) Hlow.
  assert (Hj : (s <= j)%Z).
  { apply Z.nlt_ge. intros Hlt.
    assert (Hm' : inject_Z m < 2 ^ prec).
    { rewrite pow2_inject by lia. rewrite <- Zlt_Qlt. lia. }
    pose proof (pow2_pos j) as Pj. pose proof (pow2_le j (s - 1) ltac:(lia)) as Pjs.
    pose proof (pow2_pos prec) as Pp.
    assert (E : 2 ^ (s + prec - 1) == 2 ^ prec * 2 ^ (s - 1))
      by (rewrite <- pow2_add; f_equiv; lia).
    rewrite E, HF in Hlow.
    assert (inject_Z m * 2 ^ j < 2 ^ prec * 2 ^ j) by nra.
    assert (2 ^ prec * 2 ^ j <= 2 ^ prec * 2 ^ (s - 1)) by nra.
    lra. }
  exists (m * 2 ^ (j - s))%Z.
  rewrite HF, inject_Z_mult, <- pow2_inject by lia.
  rewrite <- Qmult_assoc, <- pow2_add. do 2 f_equiv. lia.
Qed.

Lemma round_pos_spec (prec : Z) (q : Q) :
  (0 < prec)%Z -> 0 < q ->
  let u := 2 ^ (Numpy.ilog2 q - prec + 1) in
  0 < u /\ 2 ^ (prec - 1) * u <= q /\ 2 ^ (prec - 1) * u <= Numpy.round_pos prec q.
Proof.
  intros Hp Hq u. destruct (ilog2_spec q Hq) as [Hlow _].
  pose proof (pow2_pos (Numpy.ilog2 q - prec + 1)) as Pu. fold u in Pu.
  assert (E : 2 ^ Numpy.ilog2 q == 2 ^ (prec - 1) * u).
  { unfold u. rewrite <- pow2_add. f_equiv. lia. }
  split; [exact Pu|]. split; [rewrite <- E; exact Hlow|].
  unfold Numpy.round_pos. fold u.
  assert (Hg : (2 ^ (prec - 1) <= Numpy.rne (q / u)%Q)%Z).
  { apply rne_ge. rewrite <- pow2_inject by lia. apply Qle_shift_div_l; [exact Pu|].
    rewrite <- E. exact Hlow. }
  rewrite Zle_Qle, <- pow2_inject in Hg by lia. nra.
Qed.

(** Rounding never crosses a representable number. *)
Lemma round_to_le (prec : Z) (q F : Q) :
  (0 < prec)%Z -> 0 <= q -> Numpy.representable prec F -> q <= F ->
  Numpy.round_to prec q <= F.
Proof.
  intros Hp Hq HF Hle. unfold Numpy.round_to.
  destruct q as [[|a|a] b]; cbn [Qnum].
  - unfold Qle in *. cbn in *. lia.
  - set (q := Z.pos a # b) in *.
    assert (Hq0 : 0 < q) by reflexivity.
    destruct (round_pos_spec prec q Hp Hq0) as (Pu & Hlow & _).
    set (s := (Numpy.ilog2 q - prec + 1)%Z) in *.
    destruct (representable_scaled prec F s Hp HF) as [G HG].
    { replace (s + prec - 1)%Z with (Numpy.ilog2 q) by (subst s; lia).
      destruct (ilog2_spec q Hq0) as [H _]. lra. }
    unfold Numpy.round_pos. fold s.
    assert (Hr : (Numpy.rne (q / 2 ^ s)%Q <= G)%Z).
    { apply rne_le. apply Qle_shift_div_r; [exact Pu|]. rewrite <- HG. exact Hle. }
    rewrite Zle_Qle in Hr. rewrite HG. nra.
  - exfalso. unfold Qle in Hq. cbn in Hq. lia.
Qed.

Lemma round_to_ge (prec : Z) (q F : Q) :
  (0 < prec)%Z -> 0 <= q -> Numpy.representable prec F -> F <= q ->
  F <= Numpy.round_to prec q.
Proof.
  intros Hp Hq HF Hle. unfold Numpy.round_to.
  destruct q as [[|a|a] b]; cbn [Qnum].
  - unfold Qle in *. cbn in *. lia.
  - set (q := Z.pos a # b) in *.
    assert (Hq0 : 0 < q) by reflexivity.
    destruct (round_pos_spec prec q Hp Hq0) as (Pu & Hlow & Hround).
    set (s := (Numpy.ilog2 q - prec + 1)%Z) in *.
    destruct (Qlt_le_dec F (2 ^ (prec - 1) * 2 ^ s)) as [Hsmall|Hbig]; [lra|].
    destruct (representable_scaled prec F s Hp HF) as [G HG].
    { replace (s + prec - 1)%Z with ((prec - 1) + s)%Z by lia. rewrite pow2_add. exact Hbig. }
    unfold Numpy.round_pos. fold s.
    assert (Hr : (G <= Numpy.rne (q / 2 ^ s)%Q)%Z).
    { apply rne_ge. apply Qle_shift_div_l; [exact Pu|]. rewrite <- HG. exact Hle. }
    rewrite Zle_Qle in Hr. rewrite HG. nra.
  - exfalso. unfold Qle in Hq. cbn in Hq. lia.
Qed.

Lemma sqrt_pos_between (prec : Z) (q : Q) (G H : Z) :
  0 < q ->
  let u := 2 ^ (Numpy.ilog2 q / 2 - prec + 1) in
  (0 <= H)%Z -> (0 <= G)%Z ->
  inject_Z (2 * H) * inject_Z (2 * H) <= 4 * q / (u * u) ->
  4 * q / (u * u) <= inject_Z (2 * G) * inject_Z (2 * G) ->
  inject_Z H * u <= Numpy.sqrt_pos prec q <= inject_Z G * u.
Proof.
  intros Hq u HH HG Hlow Hup. unfold Numpy.sqrt_pos. fold u.
  set (x := 4 * q / (u * u)) in *.
  set (k := Z.sqrt (Qfloor x)).
  assert (Pu : 0 < u) by apply pow2_pos.
  assert (Hk1 : (2 * H <= k)%Z).
  { unfold k. rewrite <- (Z.sqrt_square (2 * H)) by lia. apply Z.sqrt_le_mono.
    rewrite <- inject_Z_mult in Hlow. apply Qfloor_resp_le in Hlow.
    rewrite Qfloor_Z in Hlow. exact Hlow. }
  assert (Hk2 : (k <= 2 * G)%Z).
  { unfold k. rewrite <- (Z.sqrt_square (2 * G)) by lia. apply Z.sqrt_le_mono.
    rewrite <- inject_Z_mult in Hup. apply Qfloor_resp_le in Hup.
    rewrite Qfloor_Z in Hup. exact Hup. }
  assert (Hm : (H <= (if Z.odd k && Qeq_bool (inject_Z (k * k)) x && Z.odd ((k + 1) / 2)
                      then (k - 1) / 2 else (k + 1) / 2) <= G)%Z).
  { clearbody k. destruct (Z.odd k) eqn:Hodd; cbn [andb].
    - apply Z.odd_spec in Hodd as [j Hj].
      destruct (Qeq_bool _ x && Z.odd ((k + 1) / 2)); clear - Hk1 Hk2 Hj;
        Z.div_mod_to_equations; lia.
    - clear - Hk1 Hk2. Z.div_mod_to_equations. lia. }
  destruct Hm as [Hm1 Hm2]. rewrite Zle_Qle in Hm1, Hm2. split; nra.
Qed.

(** The rounded root never crosses a representable number either. *)
Lemma sqrt_to_le (prec : Z) (q F : Q) :
  (0 < prec)%Z -> 0 < q -> Numpy.representable prec F -> 0 <= F -> q <= F * F ->
  Numpy.sqrt_to prec q <= F.
Proof.
  intros Hp Hq HF HF0 Hle.
  assert (Hs : Numpy.sqrt_to prec q = Numpy.sqrt_pos prec q).
  { unfold Numpy.sqrt_to. destruct q as [[|a|a] b]; cbn [Qnum]; try reflexivity;
      exfalso; unfold Qlt in Hq; cbn in Hq; lia. }
  rewrite Hs. destruct (ilog2_spec q Hq) as [Hlow _].
  set (e := Numpy.ilog2 q) in *. set (s := (e / 2 - prec + 1)%Z).
  assert (Pu : 0 < 2 ^ s) by apply pow2_pos.
  assert (Hhalf : 2 ^ (e / 2) * 2 ^ (e / 2) <= 2 ^ e).
  { rewrite <- pow2_add. apply pow2_le. pose proof (Z.mul_div_le e 2 ltac:(lia)). lia. }
  assert (P2 : 0 < 2 ^ (e / 2)) by apply pow2_pos.
  assert (HFlow : 2 ^ (s + prec - 1) <= F).
  { replace (s + prec - 1)%Z with (e / 2)%Z by (subst s; lia).
    apply Qnot_lt_le. intros Hc. assert (F * F < 2 ^ (e / 2) * 2 ^ (e / 2)) by nra. lra. }
  destruct (representable_scaled prec F s Hp HF HFlow) as [G HG].
  assert (HG0 : (0 <= G)%Z).
  { rewrite Zle_Qle. apply Qnot_lt_le. intros Hc. change (inject_Z 0) with 0 in Hc.
    assert (inject_Z G * 2 ^ s < 0) by nra. lra. }
  assert (E4 : 2 ^ (e / 2) == 2 ^ (prec - 1) * 2 ^ s)
    by (rewrite <- pow2_add; f_equiv; subst s; lia).
  pose proof (pow2_pos (prec - 1)) as Pp.
  destruct (sqrt_pos_between prec q G 0 Hq ltac:(lia) HG0) as [_ Hup].
  - fold e s. change (inject_Z (2 * 0)) with 0. rewrite Qmult_0_l.
    apply Qle_shift_div_l; [nra|]. lra.
  - fold e s. apply Qle_shift_div_r; [nra|]. rewrite inject_Z_mult.
    change (inject_Z 2) with 2. rewrite HG in Hle. nra.
  - fold e s in Hup. rewrite HG. exact Hup.
Qed.

Lemma sqrt_to_ge (prec : Z) (q F : Q) :
  (0 < prec)%Z -> 0 < q -> Numpy.representable prec F -> 0 <= F -> F * F <= q ->
  F <= Numpy.sqrt_to prec q.
Proof.
  intros Hp Hq HF HF0 Hle.
  assert (Hs : Numpy.sqrt_to prec q = Numpy.sqrt_pos prec q).
  { unfold Numpy.sqrt_to. destruct q as [[|a|a] b]; cbn [Qnum]; try reflexivity;
      exfalso; unfold Qlt in Hq; cbn in Hq; lia. }
  rewrite Hs. destruct (ilog2_spec q Hq) as [Hlow Hhigh].
  set (e := Numpy.ilog2 q) in *. set (s := (e / 2 - prec + 1)%Z).
  assert (Pu : 0 < 2 ^ s) by apply pow2_pos.
  assert (Hhalf : 2 ^ (e / 2) * 2 ^ (e / 2) <= 2 ^ e).
  { rewrite <- pow2_add. apply pow2_le. pose proof (Z.mul_div_le e 2 ltac:(lia)). lia. }
  assert (P2 : 0 < 2 ^ (e / 2)) by apply pow2_pos.
  assert (E4 : 2 ^ (e / 2) == 2 ^ (prec - 1) * 2 ^ s)
    by (rewrite <- pow2_add; f_equiv; subst s; lia).
  pose proof (pow2_pos (prec - 1)) as Pp.
  assert (E5 : 2 ^ (prec - 1) == inject_Z (2 ^ (prec - 1))) by (apply pow2_inject; lia).
  assert (Hbig : exists G : Z, (0 <= G)%Z /\ q <= inject_Z G * 2 ^ s * (inject_Z G * 2 ^ s)).
  { exists (2 ^ (prec + 1))%Z. split; [apply Z.pow_nonneg; lia|].
    rewrite <- pow2_inject, <- pow2_add by lia.
    assert (2 ^ (e + 1) <= 2 ^ (prec + 1 + s) * 2 ^ (prec + 1 + s)).
    { rewrite <- pow2_add. apply pow2_le. subst s.
      pose proof (Z.mul_succ_div_gt e 2 ltac:(lia)). lia. }
    lra. }
  destruct Hbig as (G & HG0 & HGq).
  destruct (Qlt_le_dec F (2 ^ (e / 2))) as [Hsmall|Hlarge].
  - destruct (sqrt_pos_between prec q G (2 ^ (prec - 1)) Hq ltac:(lia) HG0) as [Hlo _].
    + fold e s. apply Qle_shift_div_l; [nra|]. rewrite inject_Z_mult, <- E5.
      change (inject_Z 2) with 2. rewrite E4 in Hhalf. nra.
    + fold e s. apply Qle_shift_div_r; [nra|]. rewrite inject_Z_mult.
      change (inject_Z 2) with 2. nra.
    + fold e s in Hlo. rewrite <- E5, <- E4 in Hlo. lra.
  - assert (HFlow : 2 ^ (s + prec - 1) <= F).
    { replace (s + prec - 1)%Z with (e / 2)%Z by (subst s; lia). exact Hlarge. }
    destruct (representable_scaled prec F s Hp HF HFlow) as [H HH].
    assert (HH0 : (0 <= H)%Z).
    { rewrite Zle_Qle. apply Qnot_lt_le. intros Hc. change (inject_Z 0) with 0 in Hc.
      assert (inject_Z H * 2 ^ s < 0) by nra. lra. }
    destruct (sqrt_pos_between prec q G H Hq HH0 HG0) as [Hlo _].
    + fold e s. apply Qle_shift_div_l; [nra|]. rewrite inject_Z_mult.
      change (inject_Z 2) with 2. rewrite HH in Hle. nra.
    + fold e s. apply Qle_shift_div_r; [nra|]. rewrite inject_Z_mult.
      change (inject_Z 2) with 2. nra.
    + fold e s in Hlo. rewrite HH. exact Hlo.
Qed.

(** *** Sums of bounded terms

    [W k x] reads: [x] is within the bound for a sum of [k] terms.  The
    bound passes through every addition as long as at most [N] terms are
    added, whatever the order of the additions. *)
Section Summation.
Variable W : nat -> Q -> Prop.
Variable N : nat.
Hypothesis W_zero : W 0 0.
Hypothesis W_add : forall (j k : nat) (x y : Q),
  (j + k <= N)%nat -> W j x -> W k y -> W (j + k) (Numpy.add32 x y).

Lemma fold_left_add32_W (l : list Q) (k : nat) (acc : Q) :
  (k + length l <= N)%nat -> W k acc -> Forall (W 1) l ->
  W (k + length l) (fold_left Numpy.add32 l acc).
Proof.
  revert k acc. induction l as [|x l IH]; intros k acc Hn Hacc Hall; cbn [fold_left length] in *.
  - rewrite Nat.add_0_r. exact Hacc.
  - inversion Hall as [|? ? Hx Hl]; subst.
    replace (k + S (length l))%nat with ((k + 1) + length l)%nat by lia.
    apply IH; [lia| |exact Hl]. apply W_add; [lia|exact Hacc|exact Hx].
Qed.

Lemma zip_with_add32_W (c : nat) (r row : list Q) :
  (c + 1 <= N)%nat -> Forall (W c) r -> Forall (W 1) row ->
  Forall (W (c + 1)) (zip_with Numpy.add32 r row).
Proof.
  intros Hn Hr. revert row. induction Hr as [|x r Hx _ IH]; intros row Hrow; [constructor|].
  destruct row as [|y row]; [constructor|]. inversion Hrow; subst. cbn [zip_with].
  constructor; [apply W_add; assumption|apply IH; assumption].
Qed.

Lemma Forall_take_drop {A} (P : A -> Prop) (n : nat) (l : list A) :
  Forall P l -> Forall P (take n l) /\ Forall P (drop n l).
Proof. intros H. split; [apply Forall_take|apply Forall_drop]; exact H. Qed.

Lemma unrolled_W (rows c : nat) (r a : list Q) :
  (c + rows <= N)%nat -> length r = 8%nat -> (8 * rows <= length a)%nat ->
  Forall (W c) r -> Forall (W 1) a ->
  let '(r', rest) := Numpy.unrolled r a rows in
  length r' = 8%nat /\ Forall (W (c + rows)) r' /\ Forall (W 1) rest /\
  length rest = (length a - 8 * rows)%nat.
Proof.
  revert c r a. induction rows as [|rows IH]; intros c r a Hn Hlen Ha Hr Hall; cbn [Numpy.unrolled].
  - rewrite Nat.add_0_r. repeat split; try assumption. lia.
  - destruct (Forall_take_drop (W 1) 8 a Hall) as [Ht Hd].
    specialize (IH (c + 1)%nat (zip_with Numpy.add32 r (take 8 a)) (drop 8 a)).
    destruct (Numpy.unrolled _ _ rows) as [r' rest].
    destruct IH as (L & F & R & Len).
    + lia.
    + rewrite length_zip_with, length_take. lia.
    + rewrite length_drop. lia.
    + apply zip_with_add32_W; [lia|exact Hr|exact Ht].
    + exact Hd.
    + replace (c + S rows)%nat with (c + 1 + rows)%nat by lia.
      repeat split; try assumption. rewrite Len, length_drop. lia.
Qed.

Lemma block_sum_W (a : list Q) :
  (8 <= length a)%nat -> (length a <= N)%nat -> Forall (W 1) a ->
  W (length a) (Numpy.block_sum a).
Proof.
  intros H8 HN Hall. unfold Numpy.block_sum.
  destruct (Forall_take_drop (W 1) 8 a Hall) as [Ht Hd].
  pose proof (Nat.div_mod_eq (length a) 8) as Hdm.
  pose proof (Nat.mod_upper_bound (length a) 8 ltac:(lia)) as Hmod.
  assert (Hq : (1 <= length a / 8)%nat).
  { destruct (length a / 8)%nat; lia. }
  pose proof (unrolled_W (length a / 8 - 1) 1 (take 8 a) (drop 8 a)) as Hu.
  destruct (Numpy.unrolled (take 8 a) (drop 8 a) (length a / 8 - 1)) as [r rest].
  destruct Hu as (L & F & R & Len).
  - lia.
  - rewrite length_take. lia.
  - rewrite length_drop. lia.
  - exact Ht.
  - exact Hd.
  - replace (1 + (length a / 8 - 1))%nat with (length a / 8)%nat in F by lia.
    set (c := (length a / 8)%nat) in *.
    destruct r as [|r0 [|r1 [|r2 [|r3 [|r4 [|r5 [|r6 [|r7 [|? ?]]]]]]]]]; try discriminate L.
    repeat match goal with H : Forall _ (_ :: _) |- _ => inversion H; clear H; subst end.
    rewrite length_drop in Len.
    replace (length a) with (8 * c + length rest)%nat at 1 by lia.
    apply fold_left_add32_W; [lia| |exact R].
    replace (8 * c)%nat with (((c + c) + (c + c)) + ((c + c) + (c + c)))%nat by lia.
    repeat (apply W_add; [lia| |]); assumption.
Qed.

Lemma pairwise_sum_rec_W (depth : nat) (a : list Q) :
  (length a <= 128 + depth)%nat -> (length a <= N)%nat -> Forall (W 1) a ->
  W (length a) (Numpy.pairwise_sum_rec depth a).
Proof.
  revert a. induction depth as [|d IH]; intros a Hd HN Hall; cbn [Numpy.pairwise_sum_rec].
  - destruct (Nat.ltb_spec (length a) 8).
    + apply (fold_left_add32_W a 0 0); [lia|exact W_zero|exact Hall].
    + destruct (Nat.leb_spec (length a) 128); [|cbn in Hd; lia].
      apply block_sum_W; assumption.
  - destruct (Nat.ltb_spec (length a) 8).
    + apply (fold_left_add32_W a 0 0); [lia|exact W_zero|exact Hall].
    + destruct (Nat.leb_spec (length a) 128); [apply block_sum_W; assumption|].
      set (n2 := (length a / 2 - (length a / 2) mod 8)%nat).
      pose proof (Nat.div_mod_eq (length a) 2) as Hdm.
      pose proof (Nat.mod_upper_bound (length a) 2 ltac:(lia)) as Hm2.
      pose proof (Nat.mod_upper_bound (length a / 2) 8 ltac:(lia)) as Hm8.
      destruct (Forall_take_drop (W 1) n2 a Hall) as [Ht Hdr].
      assert (Lt : length (take n2 a) = n2) by (rewrite length_take; subst n2; lia).
      assert (Ld : length (drop n2 a) = (length a - n2)%nat) by apply length_drop.
      replace (length a) with (length (take n2 a) + length (drop n2 a))%nat at 1
        by (rewrite Lt, Ld; subst n2; lia).
      apply W_add.
      * rewrite Lt, Ld. subst n2. lia.
      * apply IH; [rewrite Lt; subst n2; lia|rewrite Lt; subst n2; lia|exact Ht].
      * apply IH; [rewrite Ld; subst n2; lia|rewrite Ld; lia|exact Hdr].
Qed.

Lemma pairwise_sum_W (a : list Q) :
  (length a <= N)%nat -> Forall (W 1) a -> W (length a) (Numpy.pairwise_sum a).
Proof.
  intros HN Hall. apply pairwise_sum_rec_W; [lia|exact HN|exact Hall].
Qed.

End Summation.

(** The bound on the number of splits is never reached: from [128 + d]
    elements on, one more level changes nothing, and [pairwise_sum] starts
    with as many levels as the array has elements. *)
Lemma pairwise_sum_depth (d : nat) (a : list Q) :
  (length a <= 128 + d)%nat ->
  Numpy.pairwise_sum_rec (S d) a = Numpy.pairwise_sum_rec d a.
Proof.
  revert a. induction d as [|d IH]; intros a Hlen.
  - cbn [Numpy.pairwise_sum_rec].
    destruct (Nat.ltb_spec (length a) 8); [reflexivity|].
    destruct (Nat.leb_spec (length a) 128); [reflexivity|lia].
  - change (Numpy.pairwise_sum_rec (S (S d)) a) with
      (let n := length a in
       if (n <? 8)%nat then fold_left Numpy.add32 a 0
       else if (n <=? 128)%nat then Numpy.block_sum a
       else let n2 := (n / 2 - (n / 2) mod 8)%nat in
            Numpy.add32 (Numpy.pairwise_sum_rec (S d) (take n2 a))
                        (Numpy.pairwise_sum_rec (S d) (drop n2 a))).
    change (Numpy.pairwise_sum_rec (S d) a) with
      (let n := length a in
       if (n <? 8)%nat then fold_left Numpy.add32 a 0
       else if (n <=? 128)%nat then Numpy.block_sum a
       else let n2 := (n / 2 - (n / 2) mod 8)%nat in
            Numpy.add32 (Numpy.pairwise_sum_rec d (take n2 a))
                        (Numpy.pairwise_sum_rec d (drop n2 a))).
    cbv zeta.
    destruct (Nat.ltb_spec (length a) 8); [reflexivity|].
    destruct (Nat.leb_spec (length a) 128); [reflexivity|].
    pose proof (Nat.div_mod_eq (length a) 2) as Hdm.
    pose proof (Nat.mod_upper_bound (length a) 2 ltac:(lia)) as Hm2.
    pose proof (Nat.mod_upper_bound (length a / 2) 8 ltac:(lia)) as Hm8.
    rewrite !IH; [reflexivity| |].
    + rewrite length_drop. lia.
    + rewrite length_take. lia.
Qed.

Lemma Qgtb_lt (a b : Q) : b < a -> Qgtb a b = true.
Proof.
  intros H. unfold Qgtb. apply negb_true_iff. destruct (Qle_bool a b) eqn:E; [|reflexivity].
  apply Qle_bool_iff in E. lra.
Qed.

Lemma Qgtb_le (a b : Q) : a <= b -> Qgtb a b = false.
Proof. intros H. unfold Qgtb. apply negb_false_iff, Qle_bool_iff. exact H. Qed.

Lemma count_as_Q (j k : nat) :
  inject_Z (Z.of_nat (j + k)) == inject_Z (Z.of_nat j) + inject_Z (Z.of_nat k).
Proof. rewrite Nat2Z.inj_add, inject_Z_plus. reflexivity. Qed.

(** The sum of at most 1024 squares, none above 300 * 300, is computed
    without ever exceeding the exact bound, which is representable. *)
Lemma squares_within (a : list Q) :
  (length a <= 1024)%nat -> Forall (fun x => 0 <= x <= 90000) a ->
  0 <= Numpy.pairwise_sum a <= inject_Z (Z.of_nat (length a)) * 90000.
Proof.
  intros Hn Hall.
  apply (pairwise_sum_W (fun k x => 0 <= x <= inject_Z (Z.of_nat k) * 90000) 1024).
  - change (inject_Z (Z.of_nat 0)) with 0. lra.
  - intros j k x y Hjk [Hx0 Hx] [Hy0 Hy]. unfold Numpy.add32, Numpy.float32. split.
    + apply round_to_ge; [lia|lra| |lra]. exists 0%Z, 0%Z. split; [reflexivity|ring].
    + apply round_to_le; [lia|lra| |rewrite count_as_Q; lra].
      exists (Z.of_nat (j + k) * 5625)%Z, 4%Z. split; [lia|].
      rewrite inject_Z_mult. change (2 ^ 4) with 16. change (inject_Z 5625) with 5625. ring.
  - exact Hn.
  - eapply List.Forall_impl; [|exact Hall]. cbv beta. intros x Hx.
    change (inject_Z (Z.of_nat 1)) with 1. lra.
Qed.

(** The sum of at most 1024 squares, none below 90112 (as the squares of
    samples beyond 300 are), never falls below the exact bound. *)
Lemma squares_beyond (a : list Q) :
  (length a <= 1024)%nat -> Forall (fun x => 90112 <= x) a ->
  inject_Z (Z.of_nat (length a)) * 90112 <= Numpy.pairwise_sum a.
Proof.
  intros Hn Hall.
  apply (pairwise_sum_W (fun k x => inject_Z (Z.of_nat k) * 90112 <= x) 1024).
  - change (inject_Z (Z.of_nat 0)) with 0. lra.
  - intros j k x y Hjk Hx Hy. unfold Numpy.add32, Numpy.float32.
    assert (Hj : 0 <= inject_Z (Z.of_nat j))
      by (change 0 with (inject_Z 0); rewrite <- Zle_Qle; lia).
    assert (Hk : 0 <= inject_Z (Z.of_nat k))
      by (change 0 with (inject_Z 0); rewrite <- Zle_Qle; lia).
    apply round_to_ge; [lia|nra| |rewrite count_as_Q; lra].
    exists (Z.of_nat (j + k) * 11)%Z, 13%Z. split; [lia|].
    rewrite inject_Z_mult. change (2 ^ 13) with 8192. change (inject_Z 11) with 11. ring.
  - exact Hn.
  - eapply List.Forall_impl; [|exact Hall]. cbv beta. intros x Hx.
    change (inject_Z (Z.of_nat 1)) with 1. lra.
Qed.

Lemma mean32_between (lo hi : Q) (a : list Q) :
  a <> [] -> 0 <= lo ->
  Numpy.representable 24 lo -> Numpy.representable 24 hi ->
  Numpy.representable 53 lo -> Numpy.representable 53 hi ->
  inject_Z (Z.of_nat (length a)) * lo <= Numpy.pairwise_sum a
  <= inject_Z (Z.of_nat (length a)) * hi ->
  lo <= Numpy.mean32 a <= hi.
Proof.
  intros Hne Hlo Rlo Rhi Rlo' Rhi' [Hlow Hup]. unfold Numpy.mean32, Numpy.float32, Numpy.float64.
  set (n := inject_Z (Z.of_nat (length a))) in *.
  assert (Hn : 0 < n).
  { unfold n. change 0 with (inject_Z 0). rewrite <- Zlt_Qlt.
    destruct a; [congruence|cbn [length]; lia]. }
  set (S := Numpy.pairwise_sum a) in *.
  assert (H1 : lo <= S / n) by (apply Qle_shift_div_l; [exact Hn|lra]).
  assert (H2 : S / n <= hi) by (apply Qle_shift_div_r; [exact Hn|lra]).
  assert (H3 : lo <= Numpy.round_to 53 (S / n)) by (apply round_to_ge; [lia|lra|assumption..]).
  assert (H4 : Numpy.round_to 53 (S / n) <= hi) by (apply round_to_le; [lia|lra|assumption..]).
  split; [apply round_to_ge|apply round_to_le]; (lia || lra || assumption).
Qed.

End Rounding.

(** The rounding does reach the test elsewhere: for 1022 samples of 300 with
    one of 299 and one of 301 the exact mean of the squares exceeds the
    square of the threshold, yet the computed energy is 300 and the chunk is
    taken for silence. *)
Example rounding_reaches_the_energy_test :
  let audio_data := (repeat 300 1022 ++ [299; 301])%Z in
  (LocalASR.ENERGY_THRESHOLD * LocalASR.ENERGY_THRESHOLD * Z.of_nat (length audio_data)
   < sum_squares audio_data)%Z /\
  (LocalASR.calculate_energy audio_data == 300)%Q /\
  LocalASR.above_threshold audio_data = false.
Proof. cbv zeta. split; [|split]; vm_compute; reflexivity. Qed.

(** X21. The energy test of the local VAD follows the amplitudes: of the
    chunks that a read of [CHUNK_SIZE] samples can deliver, one whose
    samples all stay within the threshold in absolute value (the empty chunk
    included) is never taken for speech, and a non-empty one whose samples
    all exceed it always is; the rounding of the [float32] computation does
    not reach the test. *)
Theorem energy_follows_amplitude (audio_data : Frame) :
  (Z.of_nat (length audio_data) <= LocalASR.CHUNK_SIZE)%Z ->
  (Forall (fun x => (Z.abs x <= LocalASR.ENERGY_THRESHOLD)%Z) audio_data ->
   LocalASR.above_threshold audio_data = false) /\
  (audio_data <> [] ->
   Forall (fun x => (LocalASR.ENERGY_THRESHOLD < Z.abs x)%Z) audio_data ->
   LocalASR.above_threshold audio_data = true).
Proof.
  intros Hlen. unfold LocalASR.CHUNK_SIZE in Hlen.
  unfold LocalASR.above_threshold, LocalASR.calculate_energy, LocalASR.ENERGY_THRESHOLD.
  destruct audio_data as [|x l]; [split; [reflexivity|congruence]|].
  set (samples := x :: l) in *.
  set (a := map Numpy.square32 (map inject_Z samples)).
  assert (La : length a = length samples) by (unfold a; rewrite !length_map; reflexivity).
  assert (Hne : a <> []) by discriminate.
  assert (R0 : forall prec, (0 < prec)%Z -> Numpy.representable prec 0).
  { intros prec Hp. exists 0%Z, 0%Z. split; [apply Z.pow_pos_nonneg; lia|].
    change (inject_Z 0) with 0%Q. ring. }
  assert (Hsq0 : forall z : Z, (0 <= Numpy.square32 (inject_Z z))%Q).
  { intros z. unfold Numpy.square32, Numpy.float32.
    assert (0 <= inject_Z z * inject_Z z)%Q by (rewrite <- inject_Z_mult;
      change 0%Q with (inject_Z 0); rewrite <- Zle_Qle; nia).
    apply round_to_ge; [lia|assumption|apply R0; lia|assumption]. }
  split.
  - intros Hall.
    assert (Hin : Forall (fun y => (0 <= y <= 90000)%Q) a).
    { unfold a. rewrite map_map. apply List.Forall_forall. intros y Hy.
      apply in_map_iff in Hy as (z & <- & Hz).
      apply (proj1 (List.Forall_forall _ _) Hall) in Hz. split; [apply Hsq0|].
      unfold Numpy.square32, Numpy.float32.
      assert (0 <= inject_Z z * inject_Z z <= 90000)%Q.
      { rewrite <- inject_Z_mult. change 0%Q with (inject_Z 0).
        change 90000%Q with (inject_Z 90000). rewrite <- !Zle_Qle. nia. }
      apply round_to_le; [lia|lra| |lra].
      exists 5625%Z, 4%Z. split; [reflexivity|reflexivity]. }
    destruct (squares_within a ltac:(lia) Hin) as [Hs0 Hs].
    assert (Hmean : (0 <= Numpy.mean32 a <= 90000)%Q).
    { apply mean32_between; try (apply R0; lia); try lra; try exact Hne.
      - exists 5625%Z, 4%Z. split; reflexivity.
      - exists 5625%Z, 4%Z. split; reflexivity. }
    destruct (Qgtb (Numpy.mean32 a) 0) eqn:Hpos; [|reflexivity].
    apply Qgtb_true in Hpos. apply Qgtb_le. unfold Numpy.sqrt32.
    apply sqrt_to_le; [lia|exact Hpos| |discriminate|].
    + exists 75%Z, 2%Z. split; reflexivity.
    + change (inject_Z 300 * inject_Z 300)%Q with 90000%Q. lra.
  - intros _ Hall.
    assert (Hin : Forall (fun y => (90112 <= y)%Q) a).
    { unfold a. rewrite map_map. apply List.Forall_forall. intros y Hy.
      apply in_map_iff in Hy as (z & <- & Hz).
      apply (proj1 (List.Forall_forall _ _) Hall) in Hz.
      unfold Numpy.square32, Numpy.float32.
      assert (90112 <= inject_Z z * inject_Z z)%Q.
      { rewrite <- inject_Z_mult. change 90112%Q with (inject_Z 90112).
        rewrite <- Zle_Qle. nia. }
      apply round_to_ge; [lia|lra| |lra].
      exists 11%Z, 13%Z. split; reflexivity. }
    pose proof (squares_beyond a ltac:(lia) Hin) as Hs.
    assert (Hmean : (90112 <= Numpy.mean32 a <= Numpy.mean32 a)%Q).
    { split; [|lra].
      assert (Hsum : (0 <= 90112)%Q) by lra.
      unfold Numpy.mean32, Numpy.float32, Numpy.float64.
      set (n := inject_Z (Z.of_nat (length a))) in *.
      assert (Hn : (0 < n)%Q).
      { unfold n. change 0%Q with (inject_Z 0). rewrite <- Zlt_Qlt. rewrite La. cbn. lia. }
      assert (H1 : (90112 <= Numpy.pairwise_sum a / n)%Q)
        by (apply Qle_shift_div_l; [exact Hn|lra]).
      assert (R : forall prec, (24 <= prec)%Z -> Numpy.representable prec 90112).
      { intros prec Hp. exists 11%Z, 13%Z. split; [|reflexivity].
        apply Z.lt_le_trans with (2 ^ 24)%Z; [reflexivity|]. apply Z.pow_le_mono_r; lia. }
      assert (H2 : (90112 <= Numpy.round_to 53 (Numpy.pairwise_sum a / n))%Q)
        by (apply round_to_ge; [lia|lra|apply R; lia|exact H1]).
      apply round_to_ge; [lia|lra|apply R; lia|exact H2]. }
    destruct Hmean as [Hmean _].
    rewrite (Qgtb_lt (Numpy.mean32 a) 0) by lra.
    apply Qgtb_lt. unfold Numpy.sqrt32.
    apply Qlt_le_trans with (2401 # 8)%Q; [reflexivity|].
    apply sqrt_to_ge; [lia|lra| |discriminate|].
    + exists 2401%Z, (-3)%Z. split; reflexivity.
    + apply Qle_trans with 90112%Q; [discriminate|exact Hmean].
Qed.

(** ** The first client: audio preprocessing and barge-in *)

Section FirstClient.
Context {ext : Externals}.

(** X22. The level that the first client computes for a chunk is never
    negative and never above the largest absolute sample value (so at most
    32768 for 16-bit audio); on an empty chunk the computation divides by
    zero. *)
Theorem legacy_level_is_bounded (bound : Z) (audio_data : Frame) :
  audio_data <> [] ->
  Forall (fun x => (Z.abs x <= bound)%Z) audio_data ->
  Legacy.calculate_audio_energy [] = Raised Legacy.ZeroDivisionError /\
  exists level : Z,
    Legacy.calculate_audio_energy audio_data = Returned level /\ (0 <= level <= bound)%Z.
Proof.
  intros Hne Hall. split; [reflexivity|].
  assert (Hb : (0 <= bound)%Z).
  { destruct audio_data as [|x l]; [congruence|]. inversion Hall; subst. lia. }
  destruct (sum_squares_bounds bound audio_data Hb) as [Hlow _]. specialize (Hlow Hall).
  destruct audio_data as [|x l]; [congruence|]. set (samples := x :: l) in *.
  eexists. split; [reflexivity|].
  assert (Hn : (0 < Z.of_nat (length samples))%Z) by (cbn; lia).
  split; [apply Z.sqrt_nonneg|].
  rewrite <- (Z.sqrt_square bound) by exact Hb. apply Z.sqrt_le_mono.
  apply Z.div_le_upper_bound; [exact Hn|]. lia.
Qed.

Lemma Legacy_apply_gain_shape (audio_data : Frame) (gain : Q) :
  length (Legacy.apply_gain audio_data gain) = length audio_data /\
  Forall int16 (Legacy.apply_gain audio_data gain).
Proof.
  unfold Legacy.apply_gain. split; [apply length_map|].
  apply List.Forall_forall. intros y Hy. apply in_map_iff in Hy as (x & <- & _).
  unfold int16. lia.
Qed.

(** X23. [apply_gain] keeps the number of samples and clamps every sample
    into the 16-bit range, whatever the gain; with the gain 1 that the file
    sets, 16-bit audio passes unchanged. *)
Theorem apply_gain_clamps (audio_data : Frame) (gain : Q) :
  Forall int16 audio_data ->
  length (Legacy.apply_gain audio_data gain) = length audio_data /\
  Forall int16 (Legacy.apply_gain audio_data gain) /\
  Legacy.apply_gain audio_data 1 = audio_data.
Proof.
  intros Hall. split; [apply Legacy_apply_gain_shape|].
  split; [apply Legacy_apply_gain_shape|]. unfold Legacy.apply_gain.
  induction Hall as [|x l Hx _ IH]; [reflexivity|]. cbn [map]. rewrite IH. f_equal.
  unfold py_int. cbn [Qnum Qden Qmult inject_Z]. rewrite !Z.mul_1_r, Z.quot_1_r.
  unfold int16 in Hx. lia.
Qed.

(** X24. [preprocess_audio] never changes the number of samples of a
    non-empty chunk and keeps 16-bit audio within 16 bits, whatever the
    switches; the noise gate either lets the chunk through or replaces it by
    silence.  With the noise gate and the gain control off, as the file sets
    them, the chunk is sent as it was read. *)
Theorem preprocess_keeps_shape (cfg : Legacy.Config) (audio_data : Frame) :
  audio_data <> [] ->
  Forall int16 audio_data ->
  exists processed : Frame,
    Legacy.preprocess_audio cfg audio_data = Returned processed /\
    length processed = length audio_data /\
    Forall int16 processed /\
    (Legacy.ENABLE_GAIN_CONTROL cfg = false ->
     processed = audio_data \/ processed = map (fun _ => 0%Z) audio_data) /\
    (Legacy.ENABLE_NOISE_GATE cfg = false -> Legacy.ENABLE_GAIN_CONTROL cfg = false ->
     processed = audio_data).
Proof.
  intros Hne Hall. destruct (Legacy_energy_defined audio_data Hne) as [level Hlevel].
  assert (Hzero : Forall int16 (map (fun _ => 0%Z) audio_data)).
  { apply List.Forall_forall. intros y Hy. apply in_map_iff in Hy as (x & <- & _).
    unfold int16. lia. }
  unfold Legacy.preprocess_audio, Legacy.apply_noise_gate. rewrite Hlevel.
  destruct (Legacy.ENABLE_NOISE_GATE cfg), (Legacy.ENABLE_GAIN_CONTROL cfg),
    (level <? Legacy.NOISE_GATE_THRESHOLD cfg)%Z; eexists; (split; [reflexivity|]).
  all: repeat split; try discriminate; auto.
  all: try apply Legacy_apply_gain_shape.
  all: try (rewrite (proj1 (Legacy_apply_gain_shape _ _)); apply length_map).
  all: try apply length_map.
Qed.

Lemma legacy_step_cancels (cfg : Legacy.Config) (ws_closed ws_open : bool)
      (read : Outcome Frame) (s : Legacy.Engine) :
  let '(r, s1, t1) := Legacy.audio_input_step cfg ws_closed ws_open read s in
  (Legacy.is_ai_speaking s = false ->
   cancels_sent t1 = 0%nat /\ Legacy.is_ai_speaking s1 = false) /\
  (cancels_sent t1 <= 1)%nat /\
  (cancels_sent t1 = 1%nat -> Legacy.is_ai_speaking s1 = false).
Proof.
  destruct s as [os running speaking sid cancelling].
  unfold Legacy.audio_input_step. py_unfold.
  destruct read as [audio_data|e]; cbn; [|repeat split; auto; discriminate].
  destruct ws_closed; cbn; [repeat split; auto; discriminate|].
  destruct (speaking && Legacy.ENABLE_ECHO_CANCELLATION cfg) eqn:Hecho; cbn.
  - apply andb_true_iff in Hecho as [-> _].
    destruct (Legacy.calculate_audio_energy audio_data) as [level|e]; cbn;
      [|repeat split; auto; discriminate].
    destruct ((level >? Legacy.INTERRUPT_THRESHOLD cfg)%Z && negb cancelling); cbn;
      [|repeat split; auto; discriminate].
    destruct (Legacy.preprocess_audio cfg audio_data) as [processed|e]; cbn;
      destruct ws_open, running; cbn; repeat split; auto; discriminate.
  - destruct (Legacy.preprocess_audio cfg audio_data) as [processed|e]; cbn;
      destruct ws_open, running; cbn; repeat split; auto; try discriminate.
Qed.

Lemma cancels_sent_app (t1 t2 : Trace) :
  cancels_sent (t1 ++ t2) = (cancels_sent t1 + cancels_sent t2)%nat.
Proof. unfold cancels_sent. rewrite omap_app, length_app. reflexivity. Qed.

Lemma legacy_silent_run_never_cancels (cfg : Legacy.Config)
      (mic : list (bool * bool * Outcome Frame)) (s : Legacy.Engine) :
  Legacy.is_ai_speaking s = false ->
  cancels_sent (snd (LegacyClient.start_audio_input cfg mic s)) = 0%nat.
Proof.
  revert s. induction mic as [|[[ws_closed ws_open] read] mic IH]; intros s Hai; [reflexivity|].
  cbn [LegacyClient.start_audio_input]. destruct (Legacy.is_running s); [|reflexivity].
  pose proof (legacy_step_cancels cfg ws_closed ws_open read s) as Hstep.
  destruct (Legacy.audio_input_step cfg ws_closed ws_open read s) as [[r s1] t1].
  destruct Hstep as [Hsilent _]. destruct (Hsilent Hai) as [Hzero Hai1].
  destruct r as [[]|e]; try exact Hzero.
  specialize (IH s1 Hai1). destruct (LegacyClient.start_audio_input cfg mic s1) as [s2 t2].
  cbn [snd] in *. rewrite cancels_sent_app. lia.
Qed.

(** X25. Barge-in by voice happens at most once per run of the capture loop
    of the first client: whatever the switches, the chunks read and the fate
    of the sends, at most one cancel request goes out as long as no event of
    the server is handled in between. *)
Theorem voice_barge_in_cancels_once (cfg : Legacy.Config)
        (mic : list (bool * bool * Outcome Frame)) (s : Legacy.Engine) :
  (cancels_sent (snd (LegacyClient.start_audio_input cfg mic s)) <= 1)%nat.
Proof.
  revert s. induction mic as [|[[ws_closed ws_open] read] mic IH]; intros s; [cbn; lia|].
  cbn [LegacyClient.start_audio_input]. destruct (Legacy.is_running s); [|cbn; lia].
  pose proof (legacy_step_cancels cfg ws_closed ws_open read s) as Hstep.
  destruct (Legacy.audio_input_step cfg ws_closed ws_open read s) as [[r s1] t1].
  destruct Hstep as (_ & Hle & Hone).
  destruct r as [[]|e]; try exact Hle.
  pose proof (legacy_silent_run_never_cancels cfg mic s1) as Hquiet.
  specialize (IH s1). destruct (LegacyClient.start_audio_input cfg mic s1) as [s2 t2].
  cbn [snd] in *. rewrite cancels_sent_app.
  destruct (Nat.eq_dec (cancels_sent t1) 1) as [H1|H1]; [rewrite (Hquiet (Hone H1))|]; lia.
Qed.

(** X26. The first client has no suppress flag: after a barge-in has sent
    its cancel request, an audio delta of the cancelled response that
    arrives late is still played, and it marks the AI as speaking again; as
    [cancel_sent] is still set, every chunk read afterwards is skipped and no
    second cancel request can go out, however loud the user is. *)
Theorem late_audio_after_barge_in (cfg : Legacy.Config) (data : Event) (pcm : string)
        (ws_open : bool) (audio_data : Frame) (g : Legacy.Engine) :
  Legacy.ENABLE_ECHO_CANCELLATION cfg = true ->
  Legacy.cancel_sent g = true ->
  Legacy.output_stream g = Some Active ->
  ev_type data = "response.audio.delta"%string ->
  truthy (ev_delta data) = true ->
  b64decode (ev_delta data) = Returned pcm ->
  audio_data <> [] ->
  LegacyClient.handle_message data g
  = (Returned Next, Legacy.set_is_ai_speaking true g, [StreamWrite pcm]) /\
  Legacy.audio_input_step cfg false ws_open (Returned audio_data)
    (Legacy.set_is_ai_speaking true g)
  = (Returned Again, Legacy.set_is_ai_speaking true g, []).
Proof.
  intros Hecho Hc Hos Ht Htr Hb Hne.
  destruct g as [os running speaking sid cancelling]. cbn in Hc, Hos. subst os cancelling.
  split.
  - unfold LegacyClient.handle_message. rewrite Ht. cbn. py_unfold. rewrite Htr, Hb.
    reflexivity.
  - destruct (Legacy_energy_defined audio_data Hne) as [level Hlevel].
    unfold Legacy.audio_input_step. py_unfold. cbn. rewrite Hecho, Hlevel. cbn.
    rewrite andb_false_r. reflexivity.
Qed.

End FirstClient.

(** ** The recording script *)

Lemma total_chunks_quotient (duration : Z) :
  TestWhisper.total_chunks duration = Z.quot (16000 * duration) 1024.
Proof.
  unfold TestWhisper.total_chunks, py_int, TestWhisper.SAMPLE_RATE, TestWhisper.CHUNK_SIZE.
  cbn [Qnum Qden Qmult Qdiv Qinv inject_Z Pos.mul]. f_equal; try lia.
Qed.

Lemma whole_chunks_length (size : nat) (device : list Frame) :
  Forall (fun chunk => length chunk = size) device ->
  forall n : nat, (n <= length device)%nat ->
  length (concat (take n device)) = (size * n)%nat.
Proof.
  induction 1 as [|c l Hc _ IH]; intros n Hn.
  - destruct n; [cbn; lia|cbn in Hn; lia].
  - destruct n as [|n]; [cbn; lia|]. cbn [take concat]. rewrite length_app, Hc.
    rewrite IH by (cbn in Hn; lia). lia.
Qed.

(** X27. [record_audio] never records more than it was asked for and falls
    short by less than one chunk: the [total_chunks] chunks of 1024 samples
    that it reads cover at most [duration] seconds at 16 kHz and miss fewer
    than 1024 samples of them; the array it returns has exactly that many
    samples. *)
Theorem recording_is_short_by_less_than_a_chunk (duration : Z) (device : list Frame) :
  (0 <= duration)%Z ->
  Forall (fun chunk => length chunk = 1024%nat) device ->
  (TestWhisper.total_chunks duration <= Z.of_nat (length device))%Z ->
  let samples := Z.of_nat (length (TestWhisper.record_audio duration device)) in
  samples = (1024 * TestWhisper.total_chunks duration)%Z /\
  (samples <= 16000 * duration < samples + 1024)%Z.
Proof.
  intros Hd Hchunks Henough. cbv zeta.
  assert (Hq : TestWhisper.total_chunks duration = (16000 * duration / 1024)%Z).
  { rewrite total_chunks_quotient. apply Z.quot_div_nonneg; lia. }
  assert (Hlen : Z.of_nat (length (TestWhisper.record_audio duration device))
                 = (1024 * TestWhisper.total_chunks duration)%Z).
  { unfold TestWhisper.record_audio, TestWhisper.to_float. rewrite length_map.
    set (n := Z.to_nat (TestWhisper.total_chunks duration)).
    assert (Hn : (n <= length device)%nat) by (subst n; lia).
    pose proof (whole_chunks_length 1024 device Hchunks n Hn) as Htake.
    rewrite Htake. subst n. rewrite Nat2Z.inj_mul, Z2Nat.id; [reflexivity|].
    rewrite Hq. apply Z.div_pos; lia. }
  split; [exact Hlen|]. rewrite Hlen, Hq.
  pose proof (Z.mul_div_le (16000 * duration) 1024 ltac:(lia)).
  pose proof (Z.mul_succ_div_gt (16000 * duration) 1024 ltac:(lia)). lia.
Qed.

(** X28. The recording is normalised and saved as it was captured: the
    floats that [record_audio] returns for 16-bit samples lie in [-1, 1), and
    scaling them back to 16 bits, as the script does before writing the WAV
    file, returns every sample unchanged. *)
Theorem wav_round_trip (samples : Frame) :
  Forall int16 samples ->
  Forall (fun x => (-1 <= x < 1)%Q) (TestWhisper.to_float samples) /\
  TestWhisper.to_int16 (TestWhisper.to_float samples) = samples.
Proof.
  intros Hall. split.
  - unfold TestWhisper.to_float. apply List.Forall_forall. intros y Hy.
    apply in_map_iff in Hy as (x & <- & Hx).
    apply (proj1 (List.Forall_forall _ _) Hall) in Hx. unfold int16 in Hx.
    unfold Qle, Qlt. cbn [Qnum Qden Qmult Qdiv Qinv inject_Z Pos.mul]. lia.
  - clear Hall. unfold TestWhisper.to_int16, TestWhisper.to_float. rewrite map_map.
    induction samples as [|x l IH]; [reflexivity|]. cbn [map]. rewrite IH. f_equal.
    unfold py_int. cbn [Qnum Qden Qmult Qdiv Qinv inject_Z Pos.mul].
    rewrite !Z.mul_1_r. apply Z.quot_mul. discriminate.
Qed.

(** ** The statements with hypotheses, on concrete inputs *)

Lemma query_menu_listing_witness :
  List.NoDup (Catalog.keys (Catalog.menu sample_menu)) /\
  exists dishes : list Catalog.MenuEntry,
    Catalog.query_menu (Some "凉菜"%string) (Some "鸡"%string) None false (Some sample_menu)
    = Returned (Catalog.MenuFound "川香阁" 1 dishes) /\
    map Catalog.entry_name dishes = ["口水鸡"%string].
Proof.
  assert (Hnd : List.NoDup (Catalog.keys (Catalog.menu sample_menu))).
  { cbn. repeat constructor; cbn; intuition discriminate. }
  split; [exact Hnd|]. eexists. split; [reflexivity|].
  rewrite (proj1 (proj2 (proj2 (query_menu_listing (Some "凉菜"%string) (Some "鸡"%string)
                                  None false sample_menu _ _ _ Hnd eq_refl)))).
  reflexivity.
Defined.

Lemma query_menu_unknown_category_witness :
  ~ In "甜品"%string (Catalog.keys (Catalog.menu sample_menu)) /\
  Catalog.query_menu (Some "甜品"%string) None None true (Some sample_menu)
  = Catalog.query_menu None None None true (Some sample_menu).
Proof.
  assert (H : ~ In "甜品"%string (Catalog.keys (Catalog.menu sample_menu)))
    by (cbn; intros [H|[H|[]]]; discriminate).
  split; [exact H|].
  exact (query_menu_unknown_category None None true "甜品" sample_menu H).
Defined.

Lemma query_menu_missing_description_witness :
  Catalog.query_menu None None None false (Some sample_menu)
  = Raised (Tools.KeyError "描述").
Proof.
  apply (query_menu_missing_description None None None false sample_menu "热菜"
           [ Catalog.mkDish "宫保鸡丁" (JInt 48) (Some "花生与鸡肉"%string)
               (Some "微辣"%string) (Some true);
             Catalog.mkDish "时蔬" (JInt 22) None None None ]
           (Catalog.mkDish "时蔬" (JInt 22) None None None)).
  - cbn. repeat constructor; cbn; intuition discriminate.
  - reflexivity.
  - right; left; reflexivity.
  - right; left; reflexivity.
  - reflexivity.
  - reflexivity.
Defined.

Lemma search_books_listing_witness :
  exists found : list Catalog.Book,
    Catalog.search_books (fun s => s) (Some "on"%string) (Some "scifi"%string) None
      (Some (42 # 10)) (Some sample_books)
    = Catalog.BooksFound 2 found /\
    StronglySorted rated_no_lower found.
Proof.
  eexists. split; [reflexivity|].
  exact (proj1 (proj2 (proj2 (proj2
           (search_books_listing (fun s => s) (Some "on"%string) (Some "scifi"%string) None
              (Some (42 # 10)) sample_books _ _ eq_refl))))).
Defined.


Lemma handler_only_leaves_on_end_conversation_witness :
  let data := null_message_error in
  (forall e : PyExn, b64decode (Externals := bench) (ev_delta data) <> Raised e) /\
  readable_payload data = false /\
  exists e : PyExn,
    Main.handle_message (ext := bench) true data (Main.engine Main.started)
    = (Raised e, Main.engine Main.started, []).
Proof.
  intros data.
  assert (H : forall e : PyExn, b64decode (Externals := bench) (ev_delta data) <> Raised e)
    by (intros e; discriminate).
  assert (R : readable_payload data = false) by reflexivity.
  split; [exact H|]. split; [exact R|].
  exact (proj2 (handler_only_leaves_on_end_conversation (ext := bench) data
                  (Main.engine Main.started) H) R).
Defined.

Lemma undecodable_audio_ends_handling_witness :
  let data := audio_delta "%%%" in
  let rest := [(true, event "response.audio.done"); (true, audio_delta "")] in
  b64decode (Externals := bench_strict) (ev_delta data) = Raised Base64Error /\
  Main.handle_messages (ext := bench_strict) ((true, data) :: rest) (Main.engine Main.started)
  = (Main.set_is_ai_speaking true (Main.engine Main.started), []).
Proof.
  intros data rest.
  assert (H : b64decode (Externals := bench_strict) (ev_delta data) = Raised Base64Error)
    by reflexivity.
  split; [exact H|].
  refine (proj1 (undecodable_audio_ends_handling (ext := bench_strict) true data Base64Error
                   rest (Main.engine Main.started) LocalASR.started
                   eq_refl eq_refl H eq_refl _ eq_refl _)); eexists; reflexivity.
Defined.

Lemma failed_write_is_swallowed_or_fatal_witness :
  let data := audio_delta "AAAA" in
  let m := Main.set_output_stream (Some Closed) (Main.engine Main.started) in
  let g := Legacy.mkEngine (Some Closed) true false None false in
  Closed <> Active /\
  LegacyClient.handle_message (ext := bench) data g
  = (Raised StreamError, Legacy.set_is_ai_speaking true g, [StreamWriteFailed "AAAA"]).
Proof.
  intros data m g.
  assert (H : Closed <> Active) by discriminate.
  split; [exact H|].
  exact (proj2 (failed_write_is_swallowed_or_fatal (ext := bench) true data "AAAA" Closed m g
                  eq_refl eq_refl eq_refl H eq_refl eq_refl eq_refl)).
Defined.

Lemma function_call_is_answered_once_witness :
  let data := function_call "call_9" "no_such_tool" "not json" in
  ev_type data = "response.function_call_arguments.done"%string /\
  exists (result : Json) (flow : Flow) (m' : Main.Engine) (t : Trace),
    Main.handle_message (ext := bench) true data (Main.engine Main.started)
    = (Returned flow, m', t) /\
    sent t = [ItemFunctionCallOutput (Some "call_9"%string) result; ResponseCreate None].
Proof.
  intros data.
  assert (H : ev_type data = "response.function_call_arguments.done"%string) by reflexivity.
  split; [exact H|].
  destruct (function_call_is_answered_once (ext := bench) data (Main.engine Main.started)
              LocalASR.started H) as [(result & flow & m' & t & Hstep & Hsent & _) _].
  exists result, flow, m', t. split; assumption.
Defined.

Lemma interruption_round_trip_witness :
  let st := Main.mkTasks (Main.set_is_ai_speaking true (Main.engine Main.started)) true true in
  Main.is_ai_speaking (Main.engine st) = true /\
  sent (snd (Main.run (ext := bench)
               [Main.EnterPressed; Main.KeyboardPoll true NoFault;
                Main.Inbound true (event "response.cancelled")] st))
  = [ResponseCancel].
Proof.
  intros st.
  assert (H : Main.is_ai_speaking (Main.engine st) = true) by reflexivity.
  split; [exact H|].
  rewrite (interruption_round_trip (ext := bench) true (event "response.cancelled") Active st
             eq_refl eq_refl eq_refl H eq_refl).
  reflexivity.
Defined.

Lemma keys_while_silent_do_nothing_witness :
  let schedule := [Main.EnterPressed; Main.KeyboardPoll true NoFault; Main.EnterPressed;
                   Main.KeyboardPoll false StopRaises] in
  Main.is_ai_speaking (Main.engine Main.started) = false /\
  fst (Main.run (ext := bench) schedule Main.started) = Main.started.
Proof.
  intros schedule.
  assert (H : Main.is_ai_speaking (Main.engine Main.started) = false) by reflexivity.
  split; [exact H|].
  refine (proj1 (keys_while_silent_do_nothing (ext := bench) schedule Main.started H eq_refl _)).
  repeat (apply List.Forall_cons;
          [first [left; reflexivity | right; eexists _, _; reflexivity]|]).
  apply List.Forall_nil.
Defined.

Lemma frames_are_sent_in_capture_order_witness :
  let frames := [[1; 2]; [3; 4]; [5; 6]]%Z in
  let s := Main.engine Main.started in
  Main.is_running s = true /\
  Main.is_ai_speaking s = false /\
  sent (snd (MainCapture.start_audio_input (map (fun f => (true, Returned f)) frames) s))
  = map InputAudioBufferAppend frames.
Proof.
  intros frames s.
  assert (Hr : Main.is_running s = true) by reflexivity.
  assert (Ha : Main.is_ai_speaking s = false) by reflexivity.
  split; [exact Hr|]. split; [exact Ha|].
  exact (proj1 (frames_are_sent_in_capture_order frames [] [] s Hr Ha)).
Defined.

Lemma local_vad_is_deaf_while_ai_speaks_witness :
  let chunks := recording 3 0 64 loud_chunk in
  let s := LocalASR.set_is_ai_speaking true LocalASR.started in
  LocalASR.is_running s = true /\
  LocalASR.is_ai_speaking s = true /\
  fst (LocalASR.start_audio_input (ext := bench) (map delivered chunks) s) = s.
Proof.
  intros chunks s.
  assert (Hr : LocalASR.is_running s = true) by reflexivity.
  assert (Ha : LocalASR.is_ai_speaking s = true) by reflexivity.
  split; [exact Hr|]. split; [exact Ha|].
  rewrite (local_vad_is_deaf_while_ai_speaks (ext := bench) chunks s Hr Ha). reflexivity.
Defined.

Lemma short_silence_keeps_utterance_open_witness :
  let chunks := recording 3 100 64 quiet_chunk in
  let s := LocalASR.set_silence_start (Some 0%Q)
             (LocalASR.set_is_speaking true
                (LocalASR.set_speech_buffer [loud_chunk] LocalASR.started)) in
  Forall (fun c => LocalASR.above_threshold (audio c) = false /\
                   (clock c - 0 <= LocalASR.SILENCE_DURATION)%Q) chunks /\
  fst (LocalASR.start_audio_input (ext := bench) (map delivered chunks) s) = s.
Proof.
  intros chunks s.
  assert (H : Forall (fun c => LocalASR.above_threshold (audio c) = false /\
                               (clock c - 0 <= LocalASR.SILENCE_DURATION)%Q) chunks).
  { repeat constructor; try (vm_compute; reflexivity); try (vm_compute; discriminate). }
  split; [exact H|].
  rewrite (short_silence_keeps_utterance_open (ext := bench) 0%Q chunks s
             eq_refl eq_refl eq_refl eq_refl H).
  reflexivity.
Defined.

Lemma speech_restarts_silence_timer_witness :
  let loud := (true, 5%Q, loud_chunk) in
  let quiet := (true, 6%Q, quiet_chunk) in
  let s := LocalASR.set_silence_start (Some 0%Q)
             (LocalASR.set_is_speaking true
                (LocalASR.set_speech_buffer [loud_chunk] LocalASR.started)) in
  LocalASR.above_threshold (audio loud) = true /\
  LocalASR.above_threshold (audio quiet) = false /\
  LocalASR.silence_start
    (fst (LocalASR.start_audio_input (ext := bench) (map delivered [loud; quiet]) s))
  = Some 6%Q.
Proof.
  intros loud quiet s.
  assert (Hl : LocalASR.above_threshold (audio loud) = true) by (vm_compute; reflexivity).
  assert (Hq : LocalASR.above_threshold (audio quiet) = false) by (vm_compute; reflexivity).
  split; [exact Hl|]. split; [exact Hq|].
  rewrite (speech_restarts_silence_timer (ext := bench) 0%Q loud quiet s
             eq_refl eq_refl eq_refl eq_refl Hl Hq).
  reflexivity.
Defined.

Lemma closing_forwards_transcription_witness :
  let buffer := repeat loud_chunk 4 in
  let s := LocalASR.set_silence_start (Some 0%Q)
             (LocalASR.set_is_speaking true
                (LocalASR.set_speech_buffer buffer LocalASR.started)) in
  (LocalASR.SILENCE_DURATION < 2 - 0)%Q /\
  (4 <= length (LocalASR.speech_buffer s))%nat /\
  exists t : Trace,
    snd (LocalASR.audio_input_step (ext := bench) true 2%Q (Returned quiet_chunk) s) = t /\
    transcribed t = [buffer] /\
    sent t = [ItemUserMessage "hello"; ResponseCreate (Some ["audio"; "text"]%string)].
Proof.
  intros buffer s.
  assert (Hd : (LocalASR.SILENCE_DURATION < 2 - 0)%Q) by (vm_compute; reflexivity).
  assert (Hb : (4 <= length (LocalASR.speech_buffer s))%nat) by (cbn; lia).
  assert (Hq : LocalASR.above_threshold quiet_chunk = false) by (vm_compute; reflexivity).
  split; [exact Hd|]. split; [exact Hb|].
  destruct (closing_forwards_transcription (ext := bench) 0%Q 2%Q quiet_chunk s
              eq_refl eq_refl eq_refl Hq Hd Hb) as (t & Hstep & Htr & Hsent).
  exists t. split; [rewrite Hstep; reflexivity|]. split; [exact Htr|exact Hsent].
Defined.

Lemma read_error_ends_capture_witness :
  let chunks := recording 2 0 64 quiet_chunk in
  LocalASR.is_running LocalASR.started = true /\
  snd (LocalASR.start_audio_input (ext := bench)
         (map delivered chunks ++ [(true, 1%Q, Raised StreamError);
                                   (true, 2%Q, Returned loud_chunk)])
         LocalASR.started)
  = snd (LocalASR.start_audio_input (ext := bench) (map delivered chunks) LocalASR.started)
      ++ [Console (AudioInputError StreamError)].
Proof.
  intros chunks.
  assert (H : LocalASR.is_running LocalASR.started = true) by reflexivity.
  split; [exact H|].
  rewrite (read_error_ends_capture (ext := bench) chunks true 1%Q StreamError
             [(true, 2%Q, Returned loud_chunk)] LocalASR.started H).
  reflexivity.
Defined.

Lemma energy_follows_amplitude_witness :
  (Z.of_nat (length [300; -300; 12]%Z) <= LocalASR.CHUNK_SIZE)%Z /\
  Forall (fun x => (Z.abs x <= LocalASR.ENERGY_THRESHOLD)%Z) [300; -300; 12]%Z /\
  LocalASR.above_threshold [300; -300; 12]%Z = false.
Proof.
  assert (L : (Z.of_nat (length [300; -300; 12]%Z) <= LocalASR.CHUNK_SIZE)%Z)
    by (vm_compute; discriminate).
  assert (H : Forall (fun x => (Z.abs x <= LocalASR.ENERGY_THRESHOLD)%Z) [300; -300; 12]%Z)
    by (repeat constructor; vm_compute; discriminate).
  split; [exact L|]. split; [exact H|].
  exact (proj1 (energy_follows_amplitude [300; -300; 12]%Z L) H).
Defined.

Lemma legacy_level_is_bounded_witness :
  let audio_data := [120; -340; 15; 0]%Z in
  audio_data <> [] /\
  Forall (fun x => (Z.abs x <= 340)%Z) audio_data /\
  exists level : Z,
    Legacy.calculate_audio_energy audio_data = Returned level /\ (0 <= level <= 340)%Z.
Proof.
  intros audio_data.
  assert (Hne : audio_data <> []) by discriminate.
  assert (H : Forall (fun x => (Z.abs x <= 340)%Z) audio_data)
    by (repeat constructor; vm_compute; discriminate).
  split; [exact Hne|]. split; [exact H|].
  exact (proj2 (legacy_level_is_bounded 340 audio_data Hne H)).
Defined.

Lemma apply_gain_clamps_witness :
  let audio_data := [20000; -20000; 7]%Z in
  Forall int16 audio_data /\
  Forall int16 (Legacy.apply_gain audio_data (5 # 2)).
Proof.
  intros audio_data.
  assert (H : Forall int16 audio_data)
    by (repeat constructor; vm_compute; discriminate).
  split; [exact H|].
  exact (proj1 (proj2 (apply_gain_clamps audio_data (5 # 2) H))).
Defined.

Lemma preprocess_keeps_shape_witness :
  let audio_data := [120; -340; 15; 0]%Z in
  audio_data <> [] /\
  Forall int16 audio_data /\
  exists processed : Frame,
    Legacy.preprocess_audio Legacy.shipped audio_data = Returned processed /\
    length processed = 4%nat.
Proof.
  intros audio_data.
  assert (Hne : audio_data <> []) by discriminate.
  assert (H : Forall int16 audio_data)
    by (repeat constructor; vm_compute; discriminate).
  split; [exact Hne|]. split; [exact H|].
  destruct (preprocess_keeps_shape Legacy.shipped audio_data Hne H)
    as (processed & Hp & Hlen & _).
  exists processed. split; [exact Hp|exact Hlen].
Defined.

Lemma late_audio_after_barge_in_witness :
  let cfg := {| Legacy.INTERRUPT_THRESHOLD := 800;
                Legacy.ENABLE_ECHO_CANCELLATION := true;
                Legacy.ENABLE_GAIN_CONTROL := false;
                Legacy.TARGET_GAIN := 1;
                Legacy.ENABLE_NOISE_GATE := false;
                Legacy.NOISE_GATE_THRESHOLD := 30 |} in
  let g := Legacy.mkEngine (Some Active) true false None true in
  Legacy.ENABLE_ECHO_CANCELLATION cfg = true /\
  Legacy.cancel_sent g = true /\
  Legacy.audio_input_step cfg false true (Returned loud_chunk)
    (Legacy.set_is_ai_speaking true g)
  = (Returned Again, Legacy.set_is_ai_speaking true g, []).
Proof.
  intros cfg g.
  assert (He : Legacy.ENABLE_ECHO_CANCELLATION cfg = true) by reflexivity.
  assert (Hc : Legacy.cancel_sent g = true) by reflexivity.
  assert (Hne : loud_chunk <> []) by discriminate.
  split; [exact He|]. split; [exact Hc|].
  exact (proj2 (late_audio_after_barge_in (ext := bench) cfg (audio_delta "AAAA") "AAAA" true
                  loud_chunk g He Hc eq_refl eq_refl eq_refl eq_refl Hne)).
Defined.

Lemma recording_is_short_by_less_than_a_chunk_witness :
  let device := repeat quiet_chunk 80 in
  (0 <= 5)%Z /\
  Forall (fun chunk => length chunk = 1024%nat) device /\
  (TestWhisper.total_chunks 5 <= Z.of_nat (length device))%Z /\
  Z.of_nat (length (TestWhisper.record_audio 5 device)) = (1024 * 78)%Z.
Proof.
  intros device.
  assert (Hd : (0 <= 5)%Z) by lia.
  assert (Hc : Forall (fun chunk => length chunk = 1024%nat) device)
    by (apply List.Forall_forall; intros c Hin; apply repeat_spec in Hin; subst c;
        reflexivity).
  assert (He : (TestWhisper.total_chunks 5 <= Z.of_nat (length device))%Z)
    by (vm_compute; discriminate).
  split; [exact Hd|]. split; [exact Hc|]. split; [exact He|].
  exact (proj1 (recording_is_short_by_less_than_a_chunk 5 device Hd Hc He)).
Defined.

Lemma wav_round_trip_witness :
  let samples := [-32768; 0; 1; 32767]%Z in
  Forall int16 samples /\
  TestWhisper.to_int16 (TestWhisper.to_float samples) = samples.
Proof.
  intros samples.
  assert (H : Forall int16 samples) by (repeat constructor; vm_compute; discriminate).
  split; [exact H|].
  exact (proj2 (wav_round_trip samples H)).
Defined.
